(** * Generative video creation (app.py): a model of the asynchronous job
      pipeline and of the frame assembly

    The program is a Streamlit script.  One run of [main] collects the form
    values, and, when "Create Video" is pressed, serialises the request,
    uploads it, submits the asynchronous inference job, polls the object store
    for the result, writes the returned frames to [frames_out/] and has ffmpeg
    encode them.

    Every function of app.py is an interaction tree over one event type
    [ioE]: the calls that leave the Python process (Streamlit widgets, the
    local disk, S3, SageMaker, [time.sleep], [print], ffmpeg).  A Python
    exception is a result in the left summand of [exn + A].  The events are
    given meaning by [handle], a handler into a state monad over [World],
    against a stub of the outside ([Env]): what the user entered, what the
    store answers on each call. *)

From Stdlib Require Import ZArith NArith String Ascii Strings.Byte List Bool.
From Stdlib Require Import Floats.PrimFloat Floats.FloatOps Floats.SpecFloat Floats.FloatAxioms.
From Stdlib Require Import Sorting.Sorted Sorting.Permutation.
From stdpp Require Import gmap strings list fin_maps pretty.
From ITree Require Import ITree ITreeFacts Events.State Events.StateFacts Props.Infinite.
From Paco Require Import paco.

Set Warnings "-register-all".
Local Open Scope string_scope.
Local Open Scope list_scope.

(** ** Python values and exceptions *)

(** A [str] is a [string] whose characters are code points below 256 (base64
    text and the program's own literals live there); a [bytes] object is a
    [list byte]. *)
Inductive pyval : Type :=
| PyNone
| PyBool (b : bool)
| PyInt (z : Z)
| PyFloat (f : float)
| PyStr (s : string)
| PyList (l : list pyval)
| PyDict (d : list (string * pyval)).

Inductive exn : Type :=
| ClientError (code : string)   (* botocore: e.response["Error"]["Code"] *)
| KeyError (key : string)
| TypeError (msg : string)
| BinasciiError (msg : string)
| JSONDecodeError
| FileNotFoundError (path : string)
| OtherError (name : string).   (* any other exception class *)

Definition result (A : Type) : Type := (exn + A)%type.

(** [d[key]] on a dict held as an association list in insertion order. *)
Fixpoint dict_get (d : list (string * pyval)) (key : string) : option pyval :=
  match d with
  | [] => None
  | (k, v) :: d' => if String.eqb k key then Some v else dict_get d' key
  end.

(** [d[key] = value]: an existing key keeps its place. *)
Fixpoint dict_set (d : list (string * pyval)) (key : string) (value : pyval)
  : list (string * pyval) :=
  match d with
  | [] => [(key, value)]
  | (k, v) :: d' =>
      if String.eqb k key then (k, value) :: d' else (k, v) :: dict_set d' key value
  end.

(** [data[key]] with a [str] key, for any value [data]. *)
Definition py_getitem (data : pyval) (key : string) : result pyval :=
  match data with
  | PyDict d =>
      match dict_get d key with
      | Some v => inr v
      | None => inl (KeyError key)
      end
  | PyList _ => inl (TypeError "list indices must be integers or slices, not str")
  | PyStr _ => inl (TypeError "string indices must be integers")
  | _ => inl (TypeError "object is not subscriptable")
  end.

(** [iter(v)]: the items a [for] loop sees. *)
Definition py_iter (v : pyval) : result (list pyval) :=
  match v with
  | PyList l => inr l
  | PyStr s => inr (List.map (fun c => PyStr (String c EmptyString)) (list_ascii_of_string s))
  | PyDict d => inr (List.map (fun kv => PyStr (fst kv)) d)
  | _ => inl (TypeError "object is not iterable")
  end.

(** [bytes(v, encoding="raw_unicode_escape")]: code points below 256 are
    emitted as the byte of the same value; anything but a [str] is refused. *)
Definition bytes_raw_unicode_escape (v : pyval) : result (list byte) :=
  match v with
  | PyStr s => inr (list_byte_of_string s)
  | _ => inl (TypeError "encoding without a string argument")
  end.

(** [str(v)] as an f-string formats it, for the values a title can hold. *)
Definition py_str (v : pyval) : string :=
  match v with
  | PyStr s => s
  | PyInt z => pretty z
  | PyBool true => "True"
  | PyBool false => "False"
  | _ => "None"
  end.

(** ** base64

    [binascii.a2b_base64] in its default (non-strict) mode, which is what
    [base64.decodebytes] calls, and [base64.b64encode]. *)
Module Base64.

Definition byte_of_N (n : N) : byte :=
  match Byte.of_N (n mod 256) with
  | Some b => b
  | None => Byte.x00
  end.

Definition BASE64_PAD : byte := Byte.x3d.  (* = *)

(** The value of an alphabet character, [None] for every other byte. *)
Definition table_a2b_base64 (c : byte) : option N :=
  let n := Byte.to_N c in
  if (65 <=? n)%N && (n <=? 90)%N then Some (n - 65)%N
  else if (97 <=? n)%N && (n <=? 122)%N then Some (n - 71)%N
  else if (48 <=? n)%N && (n <=? 57)%N then Some (n + 4)%N
  else if (n =? 43)%N then Some 62%N
  else if (n =? 47)%N then Some 63%N
  else None.

(** The decoding loop.  [quad_pos] is the position in the current group of
    four characters, [leftchar] the bits carried over, [pads] the padding
    characters seen since the last data character.  Bytes outside the
    alphabet are skipped; a padding sequence that completes a group ends the
    input; leftover characters at the end are an error. *)
Fixpoint a2b_loop (s : list byte) (quad_pos : nat) (leftchar : N) (pads : nat)
    (bin : list byte) : result (list byte) :=
  match s with
  | [] =>
      match quad_pos with
      | 0 => inr bin
      | 1 => inl (BinasciiError "number of data characters cannot be 1 more than a multiple of 4")
      | _ => inl (BinasciiError "Incorrect padding")
      end
  | this_ch :: rest =>
      if Byte.eqb this_ch BASE64_PAD then
        if (2 <=? quad_pos)%nat && (4 <=? quad_pos + S pads)%nat
        then inr bin
        else a2b_loop rest quad_pos leftchar (if (2 <=? quad_pos)%nat then S pads else pads) bin
      else
        match table_a2b_base64 this_ch with
        | None => a2b_loop rest quad_pos leftchar pads bin
        | Some v =>
            match quad_pos with
            | 0 => a2b_loop rest 1 v 0 bin
            | 1 => a2b_loop rest 2 (N.land v 15) 0
                     (bin ++ [byte_of_N (N.lor (N.shiftl leftchar 2) (N.shiftr v 4))])
            | 2 => a2b_loop rest 3 (N.land v 3) 0
                     (bin ++ [byte_of_N (N.lor (N.shiftl leftchar 4) (N.shiftr v 2))])
            | _ => a2b_loop rest 0 0%N 0
                     (bin ++ [byte_of_N (N.lor (N.shiftl leftchar 6) v)])
            end
        end
  end.

Definition a2b_base64 (s : list byte) : result (list byte) := a2b_loop s 0 0%N 0 [].

Definition table_b2a_base64 : list byte :=
  list_byte_of_string "ABCDEFGHIJKLMNOPQRSTUVWXYZabcdefghijklmnopqrstuvwxyz0123456789+/".

Definition b2a (n : N) : byte := nth (N.to_nat n) table_b2a_base64 Byte.x00.

Fixpoint b64encode (s : list byte) : list byte :=
  match s with
  | [] => []
  | [a] =>
      let a := Byte.to_N a in
      [b2a (N.shiftr a 2); b2a (N.shiftl (N.land a 3) 4); BASE64_PAD; BASE64_PAD]
  | [a; b] =>
      let a := Byte.to_N a in
      let b := Byte.to_N b in
      [b2a (N.shiftr a 2); b2a (N.lor (N.shiftl (N.land a 3) 4) (N.shiftr b 4));
       b2a (N.shiftl (N.land b 15) 2); BASE64_PAD]
  | a :: b :: c :: rest =>
      let a := Byte.to_N a in
      let b := Byte.to_N b in
      let c := Byte.to_N c in
      b2a (N.shiftr a 2) :: b2a (N.lor (N.shiftl (N.land a 3) 4) (N.shiftr b 4))
      :: b2a (N.lor (N.shiftl (N.land b 15) 2) (N.shiftr c 6)) :: b2a (N.land c 63)
      :: b64encode rest
  end.

End Base64.

(** ** The libraries the script calls

    [urllib.parse.urlparse], [os.path.splitext], [json.load],
    [float.__repr__] and [base64.decodebytes] belong to the Python
    installation.  The program is modelled over any implementation of them:
    they are the variables of the sections below. *)
Record ParseResult := { netloc : string; path : string }.

(** ** json.dumps(obj, ensure_ascii=False, indent=4) *)
Module Json.
Local Open Scope string_scope.

Definition dquote : string := String "034"%char EmptyString.
Definition newline : string := String "010"%char EmptyString.

Definition hex_digit (n : N) : ascii :=
  nth (N.to_nat n) (list_ascii_of_string "0123456789abcdef") "0"%char.

(** [ESCAPE_DCT]: backslash, double quote, the five short escapes, and
    [\u00xx] for the other characters below 0x20. *)
Definition escape_char (c : ascii) : string :=
  let n := N_of_ascii c in
  if (n =? 92)%N then "\\"
  else if (n =? 34)%N then "\" ++ dquote
  else if (n =? 8)%N then "\b"
  else if (n =? 12)%N then "\f"
  else if (n =? 10)%N then "\n"
  else if (n =? 13)%N then "\r"
  else if (n =? 9)%N then "\t"
  else if (n <? 32)%N then
    "\u00" ++ String (hex_digit (N.shiftr n 4)) (String (hex_digit (N.land n 15)) EmptyString)
  else String c EmptyString.

Fixpoint escape (s : string) : string :=
  match s with
  | EmptyString => EmptyString
  | String c s' => escape_char c ++ escape s'
  end.

Definition encode_basestring (s : string) : string := dquote ++ escape s ++ dquote.

Fixpoint spaces (n : nat) : string :=
  match n with
  | 0 => EmptyString
  | S n' => String " "%char (spaces n')
  end.

Definition newline_indent (level : nat) : string := newline ++ spaces (4 * level).

(** The chunks of the items of a list or dict, with [separator] between
    them. *)
Definition join_items {A} (chunk : A -> string) (separator : string)
  : list A -> string :=
  fix go (l : list A) : string :=
    match l with
    | [] => EmptyString
    | [x] => chunk x
    | x :: l' => chunk x ++ separator ++ go l'
    end.

Section Encode.
Variable float_repr : float -> string.

Definition floatstr (o : float) : string :=
  if PrimFloat.is_nan o then "NaN"
  else if PrimFloat.eqb o infinity then "Infinity"
  else if PrimFloat.eqb o neg_infinity then "-Infinity"
  else float_repr o.

(** [_iterencode], all chunks joined; [level] is [_current_indent_level]. *)
Fixpoint iterencode (o : pyval) (level : nat) {struct o} : string :=
  match o with
  | PyStr s => encode_basestring s
  | PyNone => "null"
  | PyBool true => "true"
  | PyBool false => "false"
  | PyInt z => pretty z
  | PyFloat f => floatstr f
  | PyList lst =>
      match lst with
      | [] => "[]"
      | _ =>
          "[" ++ newline_indent (S level)
          ++ join_items (fun v => iterencode v (S level)) ("," ++ newline_indent (S level)) lst
          ++ newline_indent level ++ "]"
      end
  | PyDict dct =>
      match dct with
      | [] => "{}"
      | _ =>
          "{" ++ newline_indent (S level)
          ++ join_items (fun kv => encode_basestring (fst kv) ++ ": "
                                   ++ iterencode (snd kv) (S level))
               ("," ++ newline_indent (S level)) dct
          ++ newline_indent level ++ "}"
      end
  end.

Definition dumps (obj : pyval) : string := iterencode obj 0.

End Encode.

(** The bytes a text file opened with [encoding="utf-8"] receives. *)
Definition utf8_char (c : ascii) : list byte :=
  let n := N_of_ascii c in
  if (n <? 128)%N then [byte_of_ascii c]%list
  else [Base64.byte_of_N (N.lor 192 (N.shiftr n 6)); Base64.byte_of_N (N.lor 128 (N.land n 63))]%list.

Definition utf8 (s : string) : list byte := flat_map utf8_char (list_ascii_of_string s).

(** ** json.loads

    The scanner of the [json] module: strict strings, numbers by
    [NUMBER_RE], objects and arrays; a key given twice keeps its last value.
    [fuel] bounds the number of nested calls. *)
Definition is_ws (c : ascii) : bool :=
  let n := N_of_ascii c in
  (n =? 32)%N || (n =? 9)%N || (n =? 10)%N || (n =? 13)%N.

Fixpoint skip_ws (s : string) : string :=
  match s with
  | String c s' => if is_ws c then skip_ws s' else s
  | EmptyString => s
  end.

Definition is_digit (c : ascii) : bool :=
  let n := N_of_ascii c in (48 <=? n)%N && (n <=? 57)%N.

Definition hex_value (c : ascii) : option N :=
  let n := N_of_ascii c in
  if (48 <=? n)%N && (n <=? 57)%N then Some (n - 48)%N
  else if (97 <=? n)%N && (n <=? 102)%N then Some (n - 87)%N
  else if (65 <=? n)%N && (n <=? 70)%N then Some (n - 55)%N
  else None.

(** The character a one-letter escape stands for ([BACKSLASH]). *)
Definition unescape (c : ascii) : option ascii :=
  let n := N_of_ascii c in
  if (n =? 34)%N then Some c
  else if (n =? 92)%N then Some c
  else if (n =? 47)%N then Some c
  else if (n =? 98)%N then Some "008"%char
  else if (n =? 102)%N then Some "012"%char
  else if (n =? 110)%N then Some "010"%char
  else if (n =? 114)%N then Some "013"%char
  else if (n =? 116)%N then Some "009"%char
  else None.

(** [py_scanstring] from just after the opening quote: the string and what
    follows its closing quote.  A [\uXXXX] escape is accepted for the code
    points a [str] of this model holds. *)
Fixpoint scanstring (s : string) : option (string * string) :=
  match s with
  | EmptyString => None
  | String c s' =>
      let n := N_of_ascii c in
      if (n =? 34)%N then Some (EmptyString, s')
      else if (n =? 92)%N then
        match s' with
        | String "u" (String h1 (String h2 (String h3 (String h4 s'')))) =>
            match hex_value h1, hex_value h2, hex_value h3, hex_value h4 with
            | Some a, Some b, Some c, Some d =>
                let code := (((a * 16 + b) * 16 + c) * 16 + d)%N in
                if (code <? 256)%N then
                  match scanstring s'' with
                  | Some (x, r) => Some (String (ascii_of_N code) x, r)
                  | None => None
                  end
                else None
            | _, _, _, _ => None
            end
        | String e s'' =>
            match unescape e with
            | Some ch =>
                match scanstring s'' with
                | Some (x, r) => Some (String ch x, r)
                | None => None
                end
            | None => None
            end
        | EmptyString => None
        end
      else if (n <? 32)%N then None
      else
        match scanstring s' with
        | Some (x, r) => Some (String c x, r)
        | None => None
        end
  end.

(** The longest prefix of digits, and the rest. *)
Fixpoint span_digits (s : string) : string * string :=
  match s with
  | String c s' =>
      if is_digit c then let (d, r) := span_digits s' in (String c d, r)
      else (EmptyString, s)
  | EmptyString => (EmptyString, EmptyString)
  end.

Fixpoint digits_value (acc : Z) (s : string) : Z :=
  match s with
  | EmptyString => acc
  | String c s' => digits_value (10 * acc + Z.of_N (N_of_ascii c) - 48) s'
  end.

(** The groups of [NUMBER_RE] at the head of a string, one by one: each
    function returns its group and what follows it. *)
Definition split_sign (s : string) : string * string :=
  match s with
  | String c r => if Ascii.eqb c "-" then ("-", r) else (EmptyString, s)
  | EmptyString => (EmptyString, s)
  end.

Definition split_integer (s : string) : string * string :=
  match s with
  | String c r => if Ascii.eqb c "0" then ("0", r) else span_digits s
  | EmptyString => (EmptyString, s)
  end.

Definition split_frac (s : string) : string * string :=
  match s with
  | String c r =>
      if Ascii.eqb c "." then
        match span_digits r with
        | (EmptyString, _) => (EmptyString, s)
        | (d, r') => (String c d, r')
        end
      else (EmptyString, s)
  | EmptyString => (EmptyString, s)
  end.

Definition split_exp (s : string) : string * string :=
  match s with
  | String e r =>
      if Ascii.eqb e "e" || Ascii.eqb e "E" then
        let (esign, r1) :=
          match r with
          | String c r' =>
              if Ascii.eqb c "-" || Ascii.eqb c "+" then (String c EmptyString, r')
              else (EmptyString, r)
          | EmptyString => (EmptyString, r)
          end in
        match span_digits r1 with
        | (EmptyString, _) => (EmptyString, s)
        | (d, r') => (String e (esign ++ d), r')
        end
      else (EmptyString, s)
  | EmptyString => (EmptyString, s)
  end.

(** Sign, integer part, fraction, exponent, and what follows the number. *)
Definition split_number (s : string) : option (string * string * string * string * string) :=
  let (sign, s1) := split_sign s in
  let (integer, s2) := split_integer s1 in
  match integer with
  | EmptyString => None
  | _ =>
      let (frac, s3) := split_frac s2 in
      let (exp, s4) := split_exp s3 in
      Some (sign, integer, frac, exp, s4)
  end.

(** A string that is, as a whole, a JSON number with a fraction or an
    exponent: what the scanner reads as a [float]. *)
Definition float_literal (s : string) : bool :=
  match split_number s with
  | Some (_, _, frac, exp, EmptyString) => negb (String.eqb frac "" && String.eqb exp "")
  | _ => false
  end.

Section Decode.
Variable float_of_string : string -> option float.

(** A number at the head of [s], by [NUMBER_RE]: integer part, optional
    fraction, optional exponent; an [int] when it has neither. *)
Definition scan_number (s : string) : option (pyval * string) :=
  match split_number s with
  | Some (sign, integer, frac, exp, rest) =>
      match frac, exp with
      | EmptyString, EmptyString =>
          let v := digits_value 0 integer in
          Some (PyInt (match sign with EmptyString => v | _ => - v end), rest)
      | _, _ =>
          match float_of_string (sign ++ integer ++ frac ++ exp) with
          | Some f => Some (PyFloat f, rest)
          | None => None
          end
      end
  | None => None
  end.

(** [s] minus the prefix [p], when it starts with it. *)
Fixpoint strip_prefix (p s : string) : option string :=
  match p, s with
  | EmptyString, _ => Some s
  | String a p', String b s' => if Ascii.eqb a b then strip_prefix p' s' else None
  | _, EmptyString => None
  end.

Definition scan_constant (s : string) : option (pyval * string) :=
  match strip_prefix "null" s with
  | Some r => Some (PyNone, r)
  | None =>
  match strip_prefix "true" s with
  | Some r => Some (PyBool true, r)
  | None =>
  match strip_prefix "false" s with
  | Some r => Some (PyBool false, r)
  | None =>
  match strip_prefix "NaN" s with
  | Some r => Some (PyFloat nan, r)
  | None =>
  match strip_prefix "Infinity" s with
  | Some r => Some (PyFloat infinity, r)
  | None =>
  match strip_prefix "-Infinity" s with
  | Some r => Some (PyFloat neg_infinity, r)
  | None => scan_number s
  end end end end end end.

(** [scan_once] at a value; [parse_members] at the opening quote of a key,
    with the pairs read so far; [parse_items] at an array item. *)
Fixpoint parse_value (fuel : nat) (s : string) : option (pyval * string) :=
  match fuel with
  | 0 => None
  | S fuel' =>
      match s with
      | String c s' =>
          if (N_of_ascii c =? 34)%N then
            match scanstring s' with
            | Some (x, r) => Some (PyStr x, r)
            | None => None
            end
          else if Ascii.eqb c "{" then
            match skip_ws s' with
            | String "}" r => Some (PyDict [], r)
            | s1 => parse_members fuel' s1 []
            end
          else if Ascii.eqb c "[" then
            match skip_ws s' with
            | String "]" r => Some (PyList [], r)
            | s1 => parse_items fuel' s1 []
            end
          else scan_constant s
      | EmptyString => None
      end
  end
with parse_members (fuel : nat) (s : string) (pairs : list (string * pyval))
    : option (pyval * string) :=
  match fuel with
  | 0 => None
  | S fuel' =>
      match s with
      | String c s' =>
          if (N_of_ascii c =? 34)%N then
            match scanstring s' with
            | Some (k, s1) =>
                match skip_ws s1 with
                | String ":" s2 =>
                    match parse_value fuel' (skip_ws s2) with
                    | Some (v, s3) =>
                        match skip_ws s3 with
                        | String "}" r => Some (PyDict (dict_set pairs k v), r)
                        | String "," s4 => parse_members fuel' (skip_ws s4) (dict_set pairs k v)
                        | _ => None
                        end
                    | None => None
                    end
                | _ => None
                end
            | None => None
            end
          else None
      | EmptyString => None
      end
  end
with parse_items (fuel : nat) (s : string) (items : list pyval) : option (pyval * string) :=
  match fuel with
  | 0 => None
  | S fuel' =>
      match parse_value fuel' s with
      | Some (v, s1) =>
          match skip_ws s1 with
          | String "]" r => Some (PyList (items ++ [v]), r)
          | String "," s2 => parse_items fuel' (skip_ws s2) (items ++ [v])
          | _ => None
          end
      | None => None
      end
  end.

(** [json.loads(s)]: one value, white space around it, nothing else. *)
Definition loads (s : string) : option pyval :=
  match parse_value (S (String.length s)) (skip_ws s) with
  | Some (v, r) => match skip_ws r with EmptyString => Some v | _ => None end
  | None => None
  end.

End Decode.

(** The text of a file read with the UTF-8 codec, for the code points a
    [str] of this model holds. *)
Fixpoint utf8_decode (b : list byte) : option string :=
  match b with
  | [] => Some EmptyString
  | x :: b' =>
      let n := Byte.to_N x in
      if (n <? 128)%N then
        match utf8_decode b' with
        | Some s => Some (String (ascii_of_byte x) s)
        | None => None
        end
      else if (n =? 194)%N || (n =? 195)%N then
        match b' with
        | y :: b'' =>
            let m := Byte.to_N y in
            if (128 <=? m)%N && (m <? 192)%N then
              match utf8_decode b'' with
              | Some s => Some (String (ascii_of_N ((n - 192) * 64 + (m - 128))) s)
              | None => None
              end
            else None
        | [] => None
        end
      else None
  end.

End Json.

(** ** What the script receives and what it does to the outside *)

(** A conditioning image as PIL sees it: its size, and what
    [image.save(buffered, format="JPEG")] leaves in the buffer (an error for
    a mode JPEG cannot hold). *)
Record Image := { im_size : Z * Z; im_jpeg : result (list byte) }.

(** An uploaded file: name, byte size, and the outcome of [Image.open]. *)
Record UploadedFile := { up_name : string; up_size : Z; up_image : result Image }.

Variant ioE : Type -> Type :=
(* Streamlit: output, widgets, session state *)
| StShow (kind body : string) : ioE unit
| StImage (image : Image) (width : Z) : ioE unit
| StVideo (data : list byte) : ioE unit
| StFileUploader (label : string) (type : list string) : ioE (option UploadedFile)
| StTextInput (label : string) (value : pyval) : ioE pyval
| StNumberInput (label : string) (value : pyval) : ioE pyval
| StButton (label : string) (disabled : bool) : ioE bool
| SsContains (key : string) : ioE bool
| SsGetItem (key : string) : ioE (result pyval)
| SsGet (key : string) (default : pyval) : ioE pyval
| SsSetItem (key : string) (value : pyval) : ioE unit
(* local files *)
| FOpenW (name : string) : ioE unit
| FWrite (name : string) (data : list byte) : ioE unit
| FRead (name : string) : ioE (result (list byte))
(* S3 and SageMaker *)
| S3UploadFile (filename bucket key content_type : string) : ioE (result unit)
| S3GetObject (bucket key : string) : ioE (result unit)
| S3DownloadFile (bucket key filename : string) : ioE (result unit)
| SmInvokeEndpointAsync (endpoint_name input_location : string) (timeout : Z) : ioE (result string)
(* time, stdout, ffmpeg *)
| Sleep (secs : Z) : ioE unit
| Print (msg : string) : ioE unit
| FFmpegRun (pattern : string) (framerate : pyval) (output : string)
    (options : list (string * string)) : ioE (result unit).

(** The calls made, in the order they were made. *)
Inductive action : Type :=
| AShow (kind body : string)
| AUpload (filename bucket key content_type : string) (body : list byte)
| AInvoke (endpoint_name input_location : string) (timeout : Z)
| AGetObject (bucket key : string)
| ADownload (bucket key filename : string)
| ASleep (secs : Z)
| APrint (msg : string)
| AFFmpeg (inputs : list (string * list byte)) (framerate : pyval) (output : string)
    (options : list (string * string)).

Definition is_network_call (a : action) : bool :=
  match a with
  | AUpload _ _ _ _ _ | AInvoke _ _ _ | AGetObject _ _ | ADownload _ _ _ => true
  | _ => false
  end.

(** The outside, fixed for one run: what the user did in the form, what the
    store answers to the n-th [get_object] and to the n-th [download_file]
    (numbered from 0), what the endpoint answers, what the encoder makes of
    its input, what a failed run of the encoder leaves at its output path
    ([None]: the file as it was; the encoder is run with [-y] and may have
    opened its output before it fails), and what [open(path, "rb")] raises
    for a path at which no readable file is held ([FileNotFoundError] for an
    absent file, [IsADirectoryError] for a directory, [OSError] for a name
    that is too long). *)
Record Env := {
  ui_upload : option UploadedFile;
  ui_text : string -> option pyval;
  ui_number : string -> option pyval;
  ui_button : string -> bool;
  s3_upload_answer : result unit;
  s3_get_object_answer : nat -> result unit;
  s3_download_answer : nat -> result (list byte);
  sm_invoke_answer : result string;
  ffmpeg_encode : list (string * list byte) -> pyval -> list (string * string) -> result (list byte);
  ffmpeg_partial : list (string * list byte) -> pyval -> list (string * string) -> option (list byte);
  open_error : string -> exn;
}.

(** What a run changes: the local files, [st.session_state], the number of
    fetches and downloads made so far, the log of calls. *)
Record World := {
  w_fs : gmap string (list byte);
  w_session : gmap string pyval;
  w_gets : nat;
  w_downloads : nat;
  w_log : list action;
}.

Definition set_fs (f : gmap string (list byte) -> gmap string (list byte)) (w : World) : World :=
  {| w_fs := f (w_fs w); w_session := w_session w; w_gets := w_gets w;
     w_downloads := w_downloads w; w_log := w_log w |}.

Definition set_session (f : gmap string pyval -> gmap string pyval) (w : World) : World :=
  {| w_fs := w_fs w; w_session := f (w_session w); w_gets := w_gets w;
     w_downloads := w_downloads w; w_log := w_log w |}.

Definition log (a : action) (w : World) : World :=
  {| w_fs := w_fs w; w_session := w_session w; w_gets := w_gets w;
     w_downloads := w_downloads w; w_log := w_log w ++ [a] |}.

Definition count_get (w : World) : World :=
  {| w_fs := w_fs w; w_session := w_session w; w_gets := S (w_gets w);
     w_downloads := w_downloads w; w_log := w_log w |}.

Definition count_download (w : World) : World :=
  {| w_fs := w_fs w; w_session := w_session w; w_gets := w_gets w;
     w_downloads := S (w_downloads w); w_log := w_log w |}.

(** ** The files a glob pattern selects, in the order glob(3) returns them *)

(** [*] matches any run of characters other than [/], and not a leading
    period of a path component; every other character matches itself.
    [start] tells whether the position is the start of a component. *)
Fixpoint glob_match_from (start : bool) (pat : list ascii) : list ascii -> bool :=
  match pat with
  | [] => fun s => match s with [] => true | _ => false end
  | p :: pat' =>
      if Ascii.eqb p "*"%char then
        fun s =>
          match s with
          | c :: _ => if start && Ascii.eqb c "."%char then false
                      else (fix star (s : list ascii) : bool :=
                              glob_match_from false pat' s
                              || match s with
                                 | [] => false
                                 | c :: s' => negb (Ascii.eqb c "/"%char) && star s'
                                 end) s
          | [] => glob_match_from false pat' []
          end
      else
        fun s =>
          match s with
          | c :: s' => Ascii.eqb p c && glob_match_from (Ascii.eqb p "/"%char) pat' s'
          | [] => false
          end
  end.

Definition glob_match (pattern name : string) : bool :=
  glob_match_from true (list_ascii_of_string pattern) (list_ascii_of_string name).

(** Insertion of a file into a list sorted by name, byte-wise. *)
Fixpoint insert_by_name {A} (x : string * A) (l : list (string * A)) : list (string * A) :=
  match l with
  | [] => [x]
  | y :: l' => if String.leb (fst x) (fst y) then x :: y :: l' else y :: insert_by_name x l'
  end.

Fixpoint sort_by_name {A} (l : list (string * A)) : list (string * A) :=
  match l with
  | [] => []
  | x :: l' => insert_by_name x (sort_by_name l')
  end.

Definition glob (pattern : string) (fs : gmap string (list byte)) : list (string * list byte) :=
  sort_by_name (List.filter (fun f => glob_match pattern (fst f)) (map_to_list fs)).

(** ** The meaning of the events *)

Definition step (env : Env) {T} (e : ioE T) (w : World) : World * T :=
  match e in ioE T return World * T with
  | StShow kind body => (log (AShow kind body) w, tt)
  | StImage _ _ => (log (AShow "image" "") w, tt)
  | StVideo _ => (log (AShow "video" "") w, tt)
  | StFileUploader _ _ => (w, ui_upload env)
  | StTextInput label value => (w, default value (ui_text env label))
  | StNumberInput label value => (w, default value (ui_number env label))
  | StButton label disabled => (w, if disabled then false else ui_button env label)
  | SsContains key => (w, match w_session w !! key with Some _ => true | None => false end)
  | SsGetItem key =>
      (w, match w_session w !! key with Some v => inr v | None => inl (KeyError key) end)
  | SsGet key dflt => (w, default dflt (w_session w !! key))
  | SsSetItem key value => (set_session (insert key value) w, tt)
  | FOpenW name => (set_fs (insert name []) w, tt)
  | FWrite name data => (set_fs (insert name (default [] (w_fs w !! name) ++ data)) w, tt)
  | FRead name =>
      (w, match w_fs w !! name with Some b => inr b | None => inl (open_error env name) end)
  | S3UploadFile filename bucket key content_type =>
      match w_fs w !! filename with
      | Some body => (log (AUpload filename bucket key content_type body) w, s3_upload_answer env)
      | None => (w, inl (FileNotFoundError filename))
      end
  | S3GetObject bucket key =>
      (log (AGetObject bucket key) (count_get w), s3_get_object_answer env (w_gets w))
  | S3DownloadFile bucket key filename =>
      let w' := log (ADownload bucket key filename) (count_download w) in
      match s3_download_answer env (w_downloads w) with
      | inr body => (set_fs (insert filename body) w', inr tt)
      | inl e => (w', inl e)
      end
  | SmInvokeEndpointAsync endpoint_name input_location timeout =>
      (log (AInvoke endpoint_name input_location timeout) w, sm_invoke_answer env)
  | Sleep secs => (log (ASleep secs) w, tt)
  | Print msg => (log (APrint msg) w, tt)
  | FFmpegRun pattern framerate output options =>
      let inputs := glob pattern (w_fs w) in
      let w' := log (AFFmpeg inputs framerate output options) w in
      let failed :=
        match ffmpeg_partial env inputs framerate options with
        | Some part => set_fs (insert output part) w'
        | None => w'
        end in
      match inputs with
      | [] => (failed, inl (OtherError "ffmpeg.Error"))
      | _ =>
          match ffmpeg_encode env inputs framerate options with
          | inr video => (set_fs (insert output video) w', inr tt)
          | inl e => (failed, inl e)
          end
      end
  end.

Definition handle (env : Env) : ioE ~> Monads.stateT World (itree void1) :=
  fun _ e w => Ret (step env e w).

(** Running a program against the outside, for at most [fuel] steps. *)
Fixpoint exec (env : Env) (fuel : nat) {R} (t : itree ioE R) (w : World) : option (World * R) :=
  match fuel with
  | 0 => None
  | S fuel' =>
      match observe t with
      | RetF r => Some (w, r)
      | TauF t' => exec env fuel' t' w
      | VisF e k => let (w', a) := step env e w in exec env fuel' (k a) w'
      end
  end.

(** ** Python computations: an interaction tree that returns or raises *)

Definition py (A : Type) : Type := itree ioE (result A).

Definition ret {A} (a : A) : py A := Ret (inr a).
Definition raise {A} (e : exn) : py A := Ret (inl e).
Definition lift {A} (r : result A) : py A := Ret r.

Definition pbind {A B} (t : py A) (k : A -> py B) : py B :=
  ITree.bind t (fun r => match r with inl e => Ret (inl e) | inr a => k a end).

(** An event that cannot fail, and one that answers with a result. *)
Definition perform {A} (e : ioE A) : py A := ITree.bind (ITree.trigger e) (fun a => Ret (inr a)).
Definition call {A} (e : ioE (result A)) : py A := ITree.trigger e.

Declare Scope py_scope.
Delimit Scope py_scope with py.
Bind Scope py_scope with py.
Notation "x <- t ;; k" := (pbind t (fun x => k))
  (at level 100, t at next level, k at level 200, right associativity) : py_scope.
Notation "t ;; k" := (pbind t (fun _ => k))
  (at level 100, k at level 200, right associativity) : py_scope.

(** [for idx, x in enumerate(l, start): body(idx, x)] *)
Fixpoint for_enumerate {A} (start : nat) (l : list A) (body : nat -> A -> py unit) : py unit :=
  match l with
  | [] => ret tt
  | x :: l' => pbind (body start x) (fun _ => for_enumerate (S start) l' body)
  end.

(** ** app.py *)
Section App.
Variable urlparse : string -> ParseResult.
Variable splitext : string -> string * string.
Variable json_load : list byte -> result pyval.
Variable float_repr : float -> string.
Variable decodebytes : list byte -> result (list byte).
Local Open Scope py_scope.

Definition MAX_FILE_SIZE : Z := 5 * 1024 * 1024.
Definition S3_BUCKET : string := "<YOUR_S3_BUCKET_NAME>".
Definition ENDPOINT_NAME : string := "<YOUR_SAGEMAKER_ENDPOINT_NAME>".
Definition REQUEST_PAYLOAD : string := "request_payloads/payload.json".
Definition RESPONSE_PAYLOAD : string := "response_payloads/output.json".

Definition st_show (kind body : string) : py unit := perform (StShow kind body).
Definition ss_getitem (key : string) : py pyval := call (SsGetItem key).
Definition ss_get (key : string) (dflt : pyval) : py pyval := perform (SsGet key dflt).
Definition ss_setitem (key : string) (value : pyval) : py unit := perform (SsSetItem key value).
Definition print (msg : string) : py unit := perform (Print msg).

Definition session_state_defaults : list (string * pyval) :=
  [ ("play_video_disabled", PyBool true);
    ("invocation_time", PyInt 0);
    ("movie_title", PyNone);
    ("width", PyInt 1024);
    ("height", PyInt 576);
    ("num_frames", PyInt 25);
    ("num_inference_steps", PyInt 25);
    ("min_guidance_scale", PyFloat 1.0);
    ("max_guidance_scale", PyFloat 3.0);
    ("fps", PyInt 6);
    ("motion_bucket_id", PyInt 127);
    ("noise_aug_strength", PyFloat 0x1.47ae147ae147bp-6);  (* 0.02 *)
    ("decode_chunk_size", PyInt 8);
    ("seed", PyInt 42) ].

Definition reset_session_states : py unit :=
  for_enumerate 0 session_state_defaults (fun _ kv =>
    present <- perform (SsContains (fst kv)) ;;
    if present : bool then ret tt else ss_setitem (fst kv) (snd kv)).

Definition upload_file (input_location : string) : py unit :=
  call (S3UploadFile input_location S3_BUCKET "async_inference/input/payload.json"
          "application/json").

Definition display_image (image : Image) : py unit :=
  st_show "write" "Conditioning Image :camera:" ;;
  perform (StImage image 400).

Definition encode_image (image : Image) : py string :=
  buffered <- lift (im_jpeg image) ;;
  ret (string_of_list_byte (Base64.b64encode buffered)).

(** [Image.open(upload)]; [None] has no [read]. *)
Definition image_open (upload : option UploadedFile) : py Image :=
  match upload with
  | Some up => lift (up_image up)
  | None => raise (OtherError "AttributeError")
  end.

(** The dict literal [data] of [invoke_model]. *)
Definition request_dict (image64 : string)
    (width height num_frames num_inference_steps min_guidance_scale max_guidance_scale
     fps motion_bucket_id noise_aug_strength decode_chunk_size seed : pyval) : pyval :=
  PyDict
    [ ("image", PyStr image64);
      ("width", width);
      ("height", height);
      ("num_frames", num_frames);
      ("num_inference_steps", num_inference_steps);
      ("min_guidance_scale", min_guidance_scale);
      ("max_guidance_scale", max_guidance_scale);
      ("fps", fps);
      ("motion_bucket_id", motion_bucket_id);
      ("noise_aug_strength", noise_aug_strength);
      ("decode_chunk_size", decode_chunk_size);
      ("seed", seed) ].

Definition invoke_model (upload : option UploadedFile) : py string :=
  image <- image_open upload ;;
  image64 <- encode_image image ;;
  width <- ss_getitem "width" ;;
  height <- ss_getitem "height" ;;
  num_frames <- ss_getitem "num_frames" ;;
  num_inference_steps <- ss_getitem "num_inference_steps" ;;
  min_guidance_scale <- ss_getitem "min_guidance_scale" ;;
  max_guidance_scale <- ss_getitem "max_guidance_scale" ;;
  fps <- ss_getitem "fps" ;;
  motion_bucket_id <- ss_getitem "motion_bucket_id" ;;
  noise_aug_strength <- ss_getitem "noise_aug_strength" ;;
  decode_chunk_size <- ss_getitem "decode_chunk_size" ;;
  seed <- ss_getitem "seed" ;;
  let data := request_dict image64 width height num_frames num_inference_steps
                min_guidance_scale max_guidance_scale fps motion_bucket_id
                noise_aug_strength decode_chunk_size seed in
  perform (FOpenW REQUEST_PAYLOAD) ;;
  perform (FWrite REQUEST_PAYLOAD (Json.utf8 (Json.dumps float_repr data))) ;;
  upload_file REQUEST_PAYLOAD ;;
  call (SmInvokeEndpointAsync ENDPOINT_NAME
          ("s3://" ++ S3_BUCKET ++ "/async_inference/input/payload.json")%string 3600).

(** [s[1:]] *)
Definition slice_from_1 (s : string) : string :=
  match s with
  | String _ s' => s'
  | EmptyString => EmptyString
  end.

(** One pass of the [while True] body: [inl tt] goes round again, [inr r]
    leaves the function with [r] (returned or raised). *)
Definition poll_once (bucket key : string) : itree ioE (unit + result bool) :=
  ITree.bind
    (call (S3GetObject bucket key) ;;
     call (S3DownloadFile bucket key RESPONSE_PAYLOAD) ;;
     print "Model response received." ;;
     ret true)
    (fun r =>
       match r with
       | inr b => Ret (inr (inr b))
       | inl (ClientError code) =>
           if String.eqb code "NoSuchKey" then
             ITree.bind (ITree.trigger (Print "Waiting for model output...")) (fun _ =>
             ITree.bind (ITree.trigger (Sleep 15)) (fun _ =>
             Ret (inl tt)))
           else Ret (inr (inl (ClientError code)))
       | inl e => Ret (inr (inl e))
       end).

Definition get_model_response (response_location : string) : py bool :=
  let output_url := urlparse response_location in
  let bucket := netloc output_url in
  let key := slice_from_1 (path output_url) in
  ITree.iter (fun _ : unit => poll_once bucket key) tt.

Definition frame_name (idx : nat) : string :=
  if (idx <? 9)%nat
  then ("frames_out/frame_0" ++ pretty (idx + 1)%nat ++ ".jpg")%string
  else ("frames_out/frame_" ++ pretty (idx + 1)%nat ++ ".jpg")%string.

Definition save_video_frame (idx : nat) (video_frame : pyval) : py unit :=
  frame <- lift (bytes_raw_unicode_escape video_frame) ;;
  perform (FOpenW (frame_name idx)) ;;
  data <- lift (decodebytes frame) ;;
  perform (FWrite (frame_name idx) data).

Definition save_video_frames (video_frames : pyval) : py unit :=
  items <- lift (py_iter video_frames) ;;
  for_enumerate 0 items save_video_frame.

Definition output_options : list (string * string) :=
  [ ("crf", "20"); ("preset", "slower"); ("movflags", "faststart");
    ("pix_fmt", "yuv420p"); ("vcodec", "libx264") ].

Definition convert_frames_to_video (video_path : string) : py unit :=
  fps <- ss_getitem "fps" ;;
  call (FFmpegRun "frames_out/*.jpg" fps video_path output_options).

Definition play_video (video_path : string) : py unit :=
  ss_setitem "play_video_disabled" (PyBool false) ;;
  disabled <- ss_get "play_video_disabled" (PyBool false) ;;
  play_video_button <-
    perform (StButton "Play Video" (match disabled with PyBool b => b | _ => false end)) ;;
  if play_video_button : bool then
    ITree.bind (call (FRead video_path)) (fun r =>
      match r with
      | inr video_bytes => perform (StVideo video_bytes)
      | inl (FileNotFoundError _) =>
          st_show "warning" "Video does not exist. Please create the video first.   :warning:"
      | inl e => raise e
      end)
  else ret tt.

Definition custom_css : string :=
  "<style> @import url('https://fonts.googleapis.com/css2?family=Inter:wght@400&display=swap'); html, body, p, li, a, h1, h2, h3, h4, h5, h6, table, td, th, div, form, input, button, textarea, [class*=css] { font-family: 'Inter', sans-serif; } </style>".

(** [x = st.number_input(label=..., value=st.session_state.get(key, dflt))]
    followed by [st.session_state[key] = x], as [main] does for each of the
    eleven numeric fields. *)
Definition number_field (label key : string) (dflt : pyval) : py pyval :=
  value <- ss_get key dflt ;;
  x <- perform (StNumberInput label value) ;;
  ss_setitem key x ;;
  ret x.

(** [main], lines 64-73: what is done with the upload. *)
Definition check_upload (my_upload : option UploadedFile) : py unit :=
  match my_upload with
  | Some up =>
      if (MAX_FILE_SIZE <? up_size up)%Z then
        st_show "error" "The uploaded file is too large. Please upload an image smaller than 5MB."
      else
        ss_setitem "movie_title" (PyStr (fst (splitext (up_name up)))) ;;
        image <- lift (up_image up) ;;
        ss_setitem "width" (PyInt (fst (im_size image))) ;;
        ss_setitem "height" (PyInt (snd (im_size image))) ;;
        display_image image
  | None => ret tt
  end.

(** [main], lines 142-144: read the response document and write its frames. *)
Definition load_and_save_frames : py unit :=
  f <- call (FRead RESPONSE_PAYLOAD) ;;
  data <- lift (json_load f) ;;
  frames <- lift (py_getitem data "frames") ;;
  save_video_frames frames.

(** [main], lines 142-146: from the downloaded response to the video. *)
Definition assemble_video (video_path : string) : py unit :=
  load_and_save_frames ;;
  convert_frames_to_video video_path ;;
  st_show "success" ("Video created: " ++ video_path)%string.

(** [main], lines 138-146: the body of [if create_video]. *)
Definition create_video_job (my_upload : option UploadedFile) (video_path : string) : py unit :=
  st_show "spinner" "Creating video..." ;;
  response_location <- invoke_model my_upload ;;
  get_model_response response_location ;;
  assemble_video video_path.

Definition main : py unit :=
  st_show "set_page_config" "Generative Video Creation" ;;
  st_show "markdown" custom_css ;;
  st_show "markdown" "# Generative Video Creation" ;;
  st_show "markdown" "### Stable Video Diffusion XT 1.1 Image-to-Video" ;;
  st_show "markdown" "---" ;;
  reset_session_states ;;
  my_upload <- perform (StFileUploader "Upload a Conditioning Image" ["png"; "jpg"; "jpeg"]) ;;
  check_upload my_upload ;;
  value <- ss_get "movie_title" (PyStr "") ;;
  movie_title <- perform (StTextInput "Movie Title" value) ;;
  ss_setitem "movie_title" movie_title ;;
  title <- ss_get "movie_title" (PyStr "") ;;
  let video_path := ("video_out/" ++ py_str title ++ ".mp4")%string in
  number_field "Width" "width" (PyInt 1024) ;;
  number_field "Height" "height" (PyInt 576) ;;
  number_field "Number of Frames" "num_frames" (PyInt 25) ;;
  number_field "Number of Inference Steps" "num_inference_steps" (PyInt 25) ;;
  number_field "Minimum Guidance Scale" "min_guidance_scale" (PyFloat 1.0) ;;
  number_field "Maximum Guidance Scale" "max_guidance_scale" (PyFloat 3.0) ;;
  number_field "Frames per Second" "fps" (PyInt 6) ;;
  number_field "Motion Bucket ID" "motion_bucket_id" (PyInt 127) ;;
  number_field "Noise Augmentation Strength" "noise_aug_strength"
    (PyFloat 0x1.47ae147ae147bp-6) ;;
  number_field "Decode Chunk Size" "decode_chunk_size" (PyInt 8) ;;
  number_field "Seed" "seed" (PyInt 42) ;;
  create_video <- perform (StButton "Create Video" false) ;;
  (if create_video : bool then create_video_job my_upload video_path else ret tt) ;;
  play_video video_path.

End App.

(** ** Running a program: the interpretation of its events over [World] *)

Abbreviation run env t w := (interp_state (handle env) t w).

(** ** Vocabulary for the statements about the frame files *)

(** What [save_video_frames] makes of one entry: the bytes written to its
    file, or the exception raised. *)
Definition decode_frame (decodebytes : list byte -> result (list byte)) (video_frame : pyval)
  : result (list byte) :=
  match bytes_raw_unicode_escape video_frame with
  | inr frame => decodebytes frame
  | inl e => inl e
  end.

(** The names of the first [n] frame files, in frame order. *)
Definition frame_names (n : nat) : list string := List.map frame_name (seq 0 n).

(** The frame files after the frames [datas] were written, numbered from
    [start]. *)
Fixpoint frames_written (start : nat) (datas : list (list byte))
    (fs : gmap string (list byte)) : gmap string (list byte) :=
  match datas with
  | [] => fs
  | data :: datas' => frames_written (S start) datas' (<[frame_name start := data]> fs)
  end.

(** The file of an entry that failed: opened (so created or emptied) when
    the entry was a [str], untouched when [bytes()] already refused it. *)
Definition frame_opened (idx : nat) (video_frame : pyval)
    (fs : gmap string (list byte)) : gmap string (list byte) :=
  match bytes_raw_unicode_escape video_frame with
  | inr _ => <[frame_name idx := []]> fs
  | inl _ => fs
  end.

(** Names in strictly increasing byte-wise order. *)
Fixpoint sorted_names (l : list string) : bool :=
  match l with
  | a :: (b :: _) as l' => String.ltb a b && sorted_names l'
  | _ => true
  end.

(** A response document that has a [frames] field. *)
Definition has_frames_field (data : pyval) : bool :=
  match data with
  | PyDict d => match dict_get d "frames" with Some _ => true | None => false end
  | _ => false
  end.

(** ** A quiet outside for the examples

    Nothing uploaded, nothing typed, no button pressed; the store has no
    object and the endpoint answers with a location; the encoder returns an
    empty file. *)
Definition quiet_env : Env := {|
  ui_upload := None;
  ui_text := fun _ => None;
  ui_number := fun _ => None;
  ui_button := fun _ => false;
  s3_upload_answer := inr tt;
  s3_get_object_answer := fun _ => inl (ClientError "NoSuchKey");
  s3_download_answer := fun _ => inl (ClientError "NoSuchKey");
  sm_invoke_answer := inr "s3://bucket/async_inference/output/result.out";
  ffmpeg_encode := fun _ _ _ => inr [];
  ffmpeg_partial := fun _ _ _ => None;
  open_error := FileNotFoundError;
|}.

Definition empty_world : World :=
  {| w_fs := ∅; w_session := ∅; w_gets := 0; w_downloads := 0; w_log := [] |}.

(** ** Vocabulary for the statements about the poller *)

(** The store's "not there yet". *)
Definition NoSuchKey : exn := ClientError "NoSuchKey".

Definition is_no_such_key (e : exn) : bool :=
  match e with
  | ClientError code => String.eqb code "NoSuchKey"
  | _ => false
  end.

(** The world after one fruitless attempt: a fetch, the message, the sleep. *)
Definition wait_once (bucket key : string) (w : World) : World :=
  log (ASleep 15) (log (APrint "Waiting for model output...")
    (log (AGetObject bucket key) (count_get w))).

Fixpoint waited (bucket key : string) (n : nat) (w : World) : World :=
  match n with
  | 0 => w
  | S n' => waited bucket key n' (wait_once bucket key w)
  end.

(** The world after the attempt that finds the object: a fetch, the
    download of [body] to the response file, the message. *)
Definition found (bucket key : string) (body : list byte) (w : World) : World :=
  log (APrint "Model response received.")
    (set_fs (insert RESPONSE_PAYLOAD body)
       (log (ADownload bucket key RESPONSE_PAYLOAD)
          (count_download (log (AGetObject bucket key) (count_get w))))).

(** The world after the attempt that fails otherwise: the fetch alone. *)
Definition fetch_failed (bucket key : string) (w : World) : World :=
  log (AGetObject bucket key) (count_get w).

(** The calls of [n] fruitless attempts. *)
Definition waiting_log (bucket key : string) (n : nat) : list action :=
  concat (repeat [AGetObject bucket key; APrint "Waiting for model output..."; ASleep 15] n).

(** ** Models of the library functions, for the examples *)

Module PyModel.
Local Open Scope string_scope.

(** The longest prefix of [s] free of characters satisfying [p], and the
    rest, which starts at the first such character. *)
Fixpoint break (p : ascii -> bool) (s : string) : string * string :=
  match s with
  | EmptyString => (EmptyString, EmptyString)
  | String c s' =>
      if p c then (EmptyString, s)
      else let (a, b) := break p s' in (String c a, b)
  end.

Definition one_of (chars : string) (c : ascii) : bool :=
  existsb (Ascii.eqb c) (list_ascii_of_string chars).

Definition is_alpha (c : ascii) : bool :=
  let n := N_of_ascii c in
  ((65 <=? n)%N && (n <=? 90)%N) || ((97 <=? n)%N && (n <=? 122)%N).

Definition is_scheme_char (c : ascii) : bool :=
  let n := N_of_ascii c in
  is_alpha c || ((48 <=? n)%N && (n <=? 57)%N) || one_of "+-." c.

Definition lower (c : ascii) : ascii :=
  let n := N_of_ascii c in
  if (65 <=? n)%N && (n <=? 90)%N then ascii_of_N (n + 32) else c.

Fixpoint map_string (f : ascii -> ascii) (s : string) : string :=
  match s with
  | EmptyString => EmptyString
  | String c s' => String (f c) (map_string f s')
  end.

(** [url[:i]] and [url[i+1:]] for the first [':'] when what precedes it is a
    scheme; otherwise no scheme. *)
Definition split_scheme (url : string) : string * string :=
  match break (Ascii.eqb ":") url with
  | (String c0 s0, String _ rest) =>
      if is_alpha c0 && forallb is_scheme_char (list_ascii_of_string s0)
      then (map_string lower (String c0 s0), rest)
      else (EmptyString, url)
  | _ => (EmptyString, url)
  end.

Definition uses_params : list string :=
  [""; "ftp"; "hdl"; "prospero"; "http"; "imap"; "https"; "shttp"; "rtsp"; "rtspu";
   "sip"; "sips"; "mms"; "sftp"; "tel"].

(** The part of [s] up to and including its last ['/'], and what follows. *)
Fixpoint split_last_slash (s : string) : string * string :=
  match s with
  | EmptyString => (EmptyString, EmptyString)
  | String c s' =>
      let (d, g) := split_last_slash s' in
      match d with
      | EmptyString => if Ascii.eqb c "/" then (String c EmptyString, g) else (EmptyString, String c g)
      | _ => (String c d, g)
      end
  end.

(** [urllib.parse.urlparse], for a URL without blanks at its ends and
    without tab or newline characters: the network location and the path. *)
Definition urlparse (url : string) : ParseResult :=
  let (scheme, url1) := split_scheme url in
  let (loc, url2) :=
    match url1 with
    | String "/" (String "/" after) => break (one_of "/?#") after
    | _ => (EmptyString, url1)
    end in
  let url3 := fst (break (Ascii.eqb "#") url2) in
  let url4 := fst (break (Ascii.eqb "?") url3) in
  let url5 :=
    if existsb (String.eqb scheme) uses_params then
      let (d, g) := split_last_slash url4 in d ++ fst (break (Ascii.eqb ";") g)
    else url4 in
  {| netloc := loc; path := url5 |}.

(** [os.path.splitext] on a POSIX path. *)
Fixpoint rsplit (c : ascii) (s : string) : option (string * string) :=
  match s with
  | EmptyString => None
  | String a s' =>
      match rsplit c s' with
      | Some (p, q) => Some (String a p, q)
      | None => if Ascii.eqb a c then Some (EmptyString, s) else None
      end
  end.

Definition splitext (p : string) : string * string :=
  let (dir, base) := split_last_slash p in
  match rsplit "." base with
  | Some (root, ext) =>
      if forallb (Ascii.eqb ".") (list_ascii_of_string root) then (p, EmptyString)
      else (dir ++ root, ext)
  | None => (p, EmptyString)
  end.

(** *** [float.__repr__] and [float()], by exact arithmetic

    A positive rational is a pair of a numerator and a denominator. *)
Definition rat : Type := (Z * Z)%type.

Definition rat_le (a b : rat) : bool := (fst a * snd b <=? fst b * snd a)%Z.
Definition rat_lt (a b : rat) : bool := (fst a * snd b <? fst b * snd a)%Z.

Definition rat_scale (base : Z) (a : rat) (k : Z) : rat :=
  if (0 <=? k)%Z then (fst a * base ^ k, snd a)%Z else (fst a, snd a * base ^ (- k))%Z.

Definition rat_dist (a b : rat) : rat :=
  (Z.abs (fst a * snd b - fst b * snd a), snd a * snd b)%Z.

Definition round_half_even (a : rat) : Z :=
  let q := (fst a / snd a)%Z in
  let r := (fst a mod snd a)%Z in
  match (2 * r ?= snd a)%Z with
  | Lt => q
  | Gt => (q + 1)%Z
  | Eq => if Z.even q then q else (q + 1)%Z
  end.

(** Whether the rational [c] rounds to the binary64 number [m * 2^e]. *)
Definition rounds_to (m e : Z) (c : rat) : bool :=
  let low :=
    if (m =? 2 ^ 52)%Z && (-1074 <? e)%Z
    then rat_scale 2 (4 * m - 1, 1)%Z (e - 2)
    else rat_scale 2 (2 * m - 1, 1)%Z (e - 1) in
  let high := rat_scale 2 (2 * m + 1, 1)%Z (e - 1) in
  if Z.even m then rat_le low c && rat_le c high else rat_lt low c && rat_lt c high.

Fixpoint log10_up (fuel : nat) (x : rat) (k : Z) : Z :=
  match fuel with
  | 0 => k
  | S f => if rat_le (rat_scale 10 (1, 1)%Z (k + 1)) x then log10_up f x (k + 1) else k
  end.

Fixpoint log10_down (fuel : nat) (x : rat) (k : Z) : Z :=
  match fuel with
  | 0 => k
  | S f => if rat_lt x (rat_scale 10 (1, 1)%Z k) then log10_down f x (k - 1) else k
  end.

(** The [k] with [10^k <= x < 10^(k+1)]. *)
Definition floor_log10 (x : rat) : Z :=
  let k0 := ((Z.log2 (fst x) - Z.log2 (snd x)) * 30103 / 100000)%Z in
  log10_up 4 x (log10_down 4 x k0).

(** The shortest decimal [d * 10^q] that rounds to [m * 2^e], trying 1, 2,
    ... significant digits; the nearer of the two neighbours when both do. *)
Fixpoint shortest_digits (fuel : nat) (n : Z) (m e k : Z) (x : rat) : Z * Z :=
  match fuel with
  | 0 => (0, 0)%Z
  | S f =>
      let q := (k + 1 - n)%Z in
      let d0 := (let a := rat_scale 10 x (- q) in fst a / snd a)%Z in
      let c0 := rat_scale 10 (d0, 1%Z) q in
      let c1 := rat_scale 10 (d0 + 1, 1)%Z q in
      let ok0 := (0 <? d0)%Z && rounds_to m e c0 in
      let ok1 := rounds_to m e c1 in
      if ok0 && ok1 then
        if rat_le (rat_dist c0 x) (rat_dist c1 x) then (d0, q) else ((d0 + 1)%Z, q)
      else if ok0 then (d0, q)
      else if ok1 then ((d0 + 1)%Z, q)
      else shortest_digits f (n + 1) m e k x
  end.

Fixpoint strip_zeros (fuel : nat) (d q : Z) : Z * Z :=
  match fuel with
  | 0 => (d, q)
  | S f => if (d mod 10 =? 0)%Z then strip_zeros f (d / 10) (q + 1) else (d, q)
  end.

Fixpoint zeros (n : nat) : string :=
  match n with
  | 0 => EmptyString
  | S n' => String "0" (zeros n')
  end.

(** The digits [ds] with the decimal point after the first [decpt] of
    them, in the notation [repr] chooses. *)
Definition format_repr (ds : string) (decpt : Z) : string :=
  let len := Z.of_nat (String.length ds) in
  if (decpt <=? -4)%Z || (16 <? decpt)%Z then
    let e10 := (decpt - 1)%Z in
    let mantissa :=
      match ds with
      | String c EmptyString => ds
      | String c rest => String c ("." ++ rest)
      | EmptyString => ds
      end in
    let digits := pretty (Z.abs e10) in
    mantissa ++ "e" ++ (if (e10 <? 0)%Z then "-" else "+")
    ++ (if (String.length digits <? 2)%nat then "0" ++ digits else digits)
  else if (decpt <=? 0)%Z then "0." ++ zeros (Z.to_nat (- decpt)) ++ ds
  else if (len <=? decpt)%Z then ds ++ zeros (Z.to_nat (decpt - len)) ++ ".0"
  else substring 0 (Z.to_nat decpt) ds ++ "."
       ++ substring (Z.to_nat decpt) (Z.to_nat (len - decpt)) ds.

Definition float_repr (f : float) : string :=
  match Prim2SF f with
  | S754_zero s => if s then "-0.0" else "0.0"
  | S754_infinity s => if s then "-inf" else "inf"
  | S754_nan => "nan"
  | S754_finite s m e =>
      let x := rat_scale 2 (Zpos m, 1%Z) e in
      let (d, q) := shortest_digits 17 1 (Zpos m) e (floor_log10 x) x in
      let (d, q) := strip_zeros 20 d q in
      let ds := pretty d in
      (if s then "-" else "") ++ format_repr ds (Z.of_nat (String.length ds) + q)
  end.

Definition is_digit (c : ascii) : bool :=
  let n := N_of_ascii c in (48 <=? n)%N && (n <=? 57)%N.

Fixpoint digits_value (acc : Z) (s : string) : Z :=
  match s with
  | EmptyString => acc
  | String c s' => digits_value (10 * acc + Z.of_N (N_of_ascii c) - 48) s'
  end.

(** The binary64 number nearest to the positive rational [x]. *)
Definition nearest_float (neg : bool) (x : rat) : float :=
  if (fst x =? 0)%Z then (if neg then (-0)%float else 0%float)
  else
    let l := (Z.log2 (fst x) - Z.log2 (snd x))%Z in
    let e1 := Z.max (-1074) (l - 53) in
    let e := if ((let a := rat_scale 2 x (- e1) in fst a / snd a) <? 2 ^ 53)%Z
             then e1 else (e1 + 1)%Z in
    let m := round_half_even (rat_scale 2 x (- e)) in
    if (971 <? e)%Z then (if neg then neg_infinity else infinity)
    else if (m =? 0)%Z then (if neg then (-0)%float else 0%float)
    else SF2Prim (S754_finite neg (Z.to_pos m) e).

(** [float(s)] for a decimal literal: sign, digits with an optional point,
    optional exponent. *)
Definition float_of_string (s : string) : option float :=
  let (neg, s1) :=
    match s with
    | String "-" r => (true, r)
    | String "+" r => (false, r)
    | _ => (false, s)
    end in
  let (ip, s2) := break (fun c => negb (is_digit c)) s1 in
  let (fp, s3) :=
    match s2 with
    | String "." r => break (fun c => negb (is_digit c)) r
    | _ => (EmptyString, s2)
    end in
  let ex :=
    match s3 with
    | EmptyString => Some 0%Z
    | String c r =>
        if one_of "eE" c then
          let (eneg, r1) :=
            match r with
            | String "-" r' => (true, r')
            | String "+" r' => (false, r')
            | _ => (false, r)
            end in
          if negb (String.eqb r1 "") && forallb is_digit (list_ascii_of_string r1)
          then Some (if eneg then - digits_value 0 r1 else digits_value 0 r1)%Z
          else None
        else None
    end in
  match ex with
  | Some ex =>
      if String.eqb ip "" && String.eqb fp "" then None
      else Some (nearest_float neg
                   (rat_scale 10 (digits_value 0 (ip ++ fp), 1%Z)
                      (ex - Z.of_nat (String.length fp))))
  | None => None
  end.

(** [json.load] on the bytes of a file. *)
Definition json_load (b : list byte) : result pyval :=
  match Json.utf8_decode b with
  | Some s =>
      match Json.loads float_of_string s with
      | Some v => inr v
      | None => inl JSONDecodeError
      end
  | None => inl (OtherError "UnicodeDecodeError")
  end.

End PyModel.

(** The store has the object from the third fetch on; the download gives
    [body]. *)
Definition env_found_at_third (body : list byte) : Env := {|
  ui_upload := None;
  ui_text := fun _ => None;
  ui_number := fun _ => None;
  ui_button := fun _ => false;
  s3_upload_answer := inr tt;
  s3_get_object_answer := fun n => if (n <? 2)%nat then inl NoSuchKey else inr tt;
  s3_download_answer := fun _ => inr body;
  sm_invoke_answer := inr "s3://bucket/async_inference/output/result.out";
  ffmpeg_encode := fun _ _ _ => inr [];
  ffmpeg_partial := fun _ _ _ => None;
  open_error := FileNotFoundError;
|}.

(** The store refuses every fetch. *)
Definition env_access_denied : Env := {|
  ui_upload := None;
  ui_text := fun _ => None;
  ui_number := fun _ => None;
  ui_button := fun _ => false;
  s3_upload_answer := inr tt;
  s3_get_object_answer := fun _ => inl (ClientError "AccessDenied");
  s3_download_answer := fun _ => inl (ClientError "AccessDenied");
  sm_invoke_answer := inr "s3://bucket/async_inference/output/result.out";
  ffmpeg_encode := fun _ _ _ => inr [];
  ffmpeg_partial := fun _ _ _ => None;
  open_error := FileNotFoundError;
|}.

Definition result_location : string := "s3://bucket/async_inference/output/result.out".
Definition result_key : string := "async_inference/output/result.out".

(** A session as [reset_session_states] leaves a fresh one, and a frames
    directory in which an earlier, longer run left its thirtieth frame. *)
Definition default_session : gmap string pyval := list_to_map session_state_defaults.

Definition world_with_leftover : World :=
  {| w_fs := {[ "frames_out/frame_30.jpg" := list_byte_of_string "old frame 30" ]};
     w_session := default_session;
     w_gets := 0; w_downloads := 0; w_log := [] |}.

(** Response documents for the examples, as the endpoint would write them,
    and a world in which one has been downloaded. *)
Definition response_without_frames : pyval := PyDict [("error", PyStr "CUDA out of memory")].

Definition response_bad_second_frame : pyval :=
  PyDict [("frames", PyList [PyStr "QUJD"; PyStr "A"; PyStr "QUJD"])].

Definition response_bytes (document : pyval) : list byte :=
  Json.utf8 (Json.dumps PyModel.float_repr document).

Definition world_with_response (document : pyval) : World :=
  {| w_fs := {[ RESPONSE_PAYLOAD := response_bytes document ]};
     w_session := default_session;
     w_gets := 0; w_downloads := 0; w_log := [] |}.

(** ** Runs of the whole script, for the examples *)

(** A 512 by 512 image whose JPEG encoding is three bytes long, uploaded as
    a file of the given size. *)
Definition sample_image : Image :=
  {| im_size := (512, 512)%Z; im_jpeg := inr (list_byte_of_string "JPG") |}.

Definition sample_upload (size : Z) : UploadedFile :=
  {| up_name := "cat.jpg"; up_size := size; up_image := inr sample_image |}.

Definition response_two_frames : pyval :=
  PyDict [("frames", PyList [PyStr "QUJD"; PyStr "QUI="])].

(** The user uploads the file, may change numeric fields, and presses
    "Create Video"; every remote call succeeds, the result being there at
    the first fetch. *)
Definition env_create (upload : UploadedFile) (numbers : string -> option pyval) : Env := {|
  ui_upload := Some upload;
  ui_text := fun _ => None;
  ui_number := numbers;
  ui_button := fun label => String.eqb label "Create Video";
  s3_upload_answer := inr tt;
  s3_get_object_answer := fun _ => inr tt;
  s3_download_answer := fun _ => inr (response_bytes response_two_frames);
  sm_invoke_answer := inr result_location;
  ffmpeg_encode := fun _ _ _ => inr (list_byte_of_string "MP4");
  ffmpeg_partial := fun _ _ _ => None;
  open_error := FileNotFoundError;
|}.

Definition main_model : py unit :=
  main PyModel.urlparse PyModel.splitext PyModel.json_load PyModel.float_repr
    Base64.a2b_base64.


(** What [invoke_model] uploads for [sample_image], given the size and the
    guidance scales in the session, the other fields being at their
    defaults. *)
Definition sample_request (width height : Z) (min_guidance_scale max_guidance_scale : float)
  : list byte :=
  Json.utf8 (Json.dumps PyModel.float_repr
    (request_dict "SlBH" (PyInt width) (PyInt height) (PyInt 25) (PyInt 25)
       (PyFloat min_guidance_scale) (PyFloat max_guidance_scale) (PyInt 6) (PyInt 127)
       (PyFloat 0x1.47ae147ae147bp-6) (PyInt 8) (PyInt 42))).

Definition untouched_form (label : string) : option pyval := None.

(** ** The parameter set of the specification, and the request codec *)

Record ParameterSet := {
  ps_width : Z;
  ps_height : Z;
  ps_num_frames : Z;
  ps_num_inference_steps : Z;
  ps_min_guidance_scale : float;
  ps_max_guidance_scale : float;
  ps_fps : Z;
  ps_motion_bucket_id : Z;
  ps_noise_aug_strength : float;
  ps_decode_chunk_size : Z;
  ps_seed : Z;
}.

(** The validity of the specification's data model. *)
Definition valid_params (ps : ParameterSet) : Prop :=
  (0 < ps_width ps)%Z /\ (0 < ps_height ps)%Z
  /\ (0 < ps_num_frames ps)%Z /\ (0 < ps_num_inference_steps ps)%Z
  /\ PrimFloat.ltb 0 (ps_min_guidance_scale ps) = true
  /\ PrimFloat.leb (ps_min_guidance_scale ps) (ps_max_guidance_scale ps) = true
  /\ (0 < ps_fps ps)%Z /\ (0 <= ps_motion_bucket_id ps)%Z
  /\ PrimFloat.leb 0 (ps_noise_aug_strength ps) = true
  /\ (0 < ps_decode_chunk_size ps)%Z.

(** The session state in which the form holds [ps], for the keys
    [invoke_model] reads. *)
Definition session_holds (ps : ParameterSet) (session : gmap string pyval) : Prop :=
  session !! "width" = Some (PyInt (ps_width ps))
  /\ session !! "height" = Some (PyInt (ps_height ps))
  /\ session !! "num_frames" = Some (PyInt (ps_num_frames ps))
  /\ session !! "num_inference_steps" = Some (PyInt (ps_num_inference_steps ps))
  /\ session !! "min_guidance_scale" = Some (PyFloat (ps_min_guidance_scale ps))
  /\ session !! "max_guidance_scale" = Some (PyFloat (ps_max_guidance_scale ps))
  /\ session !! "fps" = Some (PyInt (ps_fps ps))
  /\ session !! "motion_bucket_id" = Some (PyInt (ps_motion_bucket_id ps))
  /\ session !! "noise_aug_strength" = Some (PyFloat (ps_noise_aug_strength ps))
  /\ session !! "decode_chunk_size" = Some (PyInt (ps_decode_chunk_size ps))
  /\ session !! "seed" = Some (PyInt (ps_seed ps)).

(** The dict of [invoke_model] for an image and a parameter set. *)
Definition request_of (image64 : string) (ps : ParameterSet) : pyval :=
  request_dict image64
    (PyInt (ps_width ps)) (PyInt (ps_height ps)) (PyInt (ps_num_frames ps))
    (PyInt (ps_num_inference_steps ps)) (PyFloat (ps_min_guidance_scale ps))
    (PyFloat (ps_max_guidance_scale ps)) (PyInt (ps_fps ps))
    (PyInt (ps_motion_bucket_id ps)) (PyFloat (ps_noise_aug_strength ps))
    (PyInt (ps_decode_chunk_size ps)) (PyInt (ps_seed ps)).

Definition get_int (data : pyval) (key : string) : option Z :=
  match py_getitem data key with
  | inr (PyInt z) => Some z
  | _ => None
  end.

Definition get_float (data : pyval) (key : string) : option float :=
  match py_getitem data key with
  | inr (PyFloat f) => Some f
  | _ => None
  end.

Definition get_str (data : pyval) (key : string) : option string :=
  match py_getitem data key with
  | inr (PyStr s) => Some s
  | _ => None
  end.

(** Modelled from the spec: [decodeRequest], which the specification only
    supposes ("a hypothetical decodeRequest") and the repository does not
    have.  It parses the JSON document that was written for the request and
    reads the encoded image and each parameter from the field of its name. *)
Definition decodeRequest (float_of_string : string -> option float) (document : list byte)
  : option (string * ParameterSet) :=
  match Json.utf8_decode document with
  | None => None
  | Some text =>
  match Json.loads float_of_string text with
  | None => None
  | Some data =>
  match get_str data "image", get_int data "width", get_int data "height",
        get_int data "num_frames", get_int data "num_inference_steps",
        get_float data "min_guidance_scale", get_float data "max_guidance_scale" with
  | Some image64, Some width, Some height, Some num_frames, Some num_inference_steps,
    Some min_guidance_scale, Some max_guidance_scale =>
  match get_int data "fps", get_int data "motion_bucket_id",
        get_float data "noise_aug_strength", get_int data "decode_chunk_size",
        get_int data "seed" with
  | Some fps, Some motion_bucket_id, Some noise_aug_strength, Some decode_chunk_size,
    Some seed =>
      Some (image64,
            {| ps_width := width; ps_height := height; ps_num_frames := num_frames;
               ps_num_inference_steps := num_inference_steps;
               ps_min_guidance_scale := min_guidance_scale;
               ps_max_guidance_scale := max_guidance_scale;
               ps_fps := fps; ps_motion_bucket_id := motion_bucket_id;
               ps_noise_aug_strength := noise_aug_strength;
               ps_decode_chunk_size := decode_chunk_size; ps_seed := seed |})
  | _, _, _, _, _ => None
  end
  | _, _, _, _, _, _, _ => None
  end end end.

(** The floats that [floatstr] hands to [float.__repr__], the others being
    written as [NaN], [Infinity] and [-Infinity]. *)
Definition written_as_number (f : float) : bool :=
  negb (PrimFloat.is_nan f) && negb (PrimFloat.eqb f infinity)
  && negb (PrimFloat.eqb f neg_infinity).

(** What the round trip asks of the float functions of the library, at one
    number: when [json] writes it with [repr], its [repr] is a JSON number
    that reads as a float, and [float] of its [repr] is the number. *)
Definition float_round_trips (float_repr : float -> string)
    (float_of_string : string -> option float) (f : float) : Prop :=
  written_as_number f = true ->
  Json.float_literal (float_repr f) = true /\ float_of_string (float_repr f) = Some f.

(** A stretch of text before which a JSON number ends: nothing, or a
    character that no number contains. *)
Definition delimited (rest : string) : bool :=
  match rest with
  | String c _ =>
      negb (Json.is_digit c) && negb (Ascii.eqb c ".") && negb (Ascii.eqb c "e")
      && negb (Ascii.eqb c "E") && negb (Ascii.eqb c "+") && negb (Ascii.eqb c "-")
  | EmptyString => true
  end.

Definition all_digits (s : string) : bool := forallb Json.is_digit (list_ascii_of_string s).

(** The values of the request: strings, integers, and floats other than NaN
    on which the float functions round-trip. *)
Definition scalar_ok (float_repr : float -> string)
    (float_of_string : string -> option float) (v : pyval) : Prop :=
  match v with
  | PyStr _ | PyInt _ => True
  | PyFloat f =>
      PrimFloat.is_nan f = false /\ float_round_trips float_repr float_of_string f
  | _ => False
  end.

(** The chunk of one member of a dict at the top level, as [_iterencode_dict]
    yields it, and what it puts between two members. *)
Definition member_chunk (float_repr : float -> string) (kv : string * pyval) : string :=
  (Json.encode_basestring (fst kv) ++ ": " ++ Json.iterencode float_repr (snd kv) 1)%string.

Definition member_separator : string := ("," ++ Json.newline_indent 1)%string.

Definition default_params : ParameterSet :=
  {| ps_width := 1024; ps_height := 576; ps_num_frames := 25; ps_num_inference_steps := 25;
     ps_min_guidance_scale := 1.0; ps_max_guidance_scale := 3.0; ps_fps := 6;
     ps_motion_bucket_id := 127; ps_noise_aug_strength := 0x1.47ae147ae147bp-6;
     ps_decode_chunk_size := 8; ps_seed := 42 |}.
(** ** Vocabulary for the statements about the other functions *)

(** [t], started in a world that satisfies [P], returns or raises, in a world
    and with an outcome that satisfy [Q]. *)
Definition triple (env : Env) {A} (P : World -> Prop) (t : py A)
    (Q : World -> result A -> Prop) : Prop :=
  forall w, P w -> exists w' r, run env t w ≳ Ret (w', r) /\ Q w' r.

(** The local files and the calls made to S3 and SageMaker are those of
    [w0]. *)
Definition same_outside (w0 w : World) : Prop :=
  w_fs w = w_fs w0
  /\ List.filter is_network_call (w_log w) = List.filter is_network_call (w_log w0).

(** A program that leaves the local files alone and calls neither S3 nor
    SageMaker, however it ends. *)
Definition quiet (env : Env) {A} (t : py A) : Prop :=
  forall w0, triple env (same_outside w0) t (fun w _ => same_outside w0 w).

(** The JPEG bytes [invoke_model] gets from an upload: [Image.open] and then
    [image.save] into the buffer. *)
Definition upload_jpeg (upload : option UploadedFile) : result (list byte) :=
  match upload with
  | None => inl (OtherError "AttributeError")
  | Some up =>
      match up_image up with
      | inr image => im_jpeg image
      | inl e => inl e
      end
  end.

(** The keys of the session that [invoke_model] reads, in the order it reads
    them. *)
Definition request_keys : list string :=
  [ "width"; "height"; "num_frames"; "num_inference_steps"; "min_guidance_scale";
    "max_guidance_scale"; "fps"; "motion_bucket_id"; "noise_aug_strength";
    "decode_chunk_size"; "seed" ].

(** The session after the defaults [l] were given to the keys it lacked. *)
Definition fill_defaults (l : list (string * pyval)) (s : gmap string pyval)
  : gmap string pyval :=
  fold_left (fun s kv => match s !! fst kv with
                         | Some _ => s
                         | None => <[fst kv := snd kv]> s
                         end) l s.

(** A quiet program that does not raise. *)
Definition calm (env : Env) {A} (t : py A) : Prop :=
  forall w0, triple env (same_outside w0) t
               (fun w r => same_outside w0 w /\ exists a, r = inr a).

(** The number in the name of the frame file of index [idx], as the two
    f-strings of [save_video_frames] print it. *)
Definition frame_number (idx : nat) : string :=
  if (idx <? 9)%nat then ("0" ++ pretty (idx + 1)%nat)%string else pretty (idx + 1)%nat.

(** A file name without directory separator that does not start with a
    period. *)
Definition plain_name (stem : string) : bool :=
  match stem with
  | String c _ =>
      negb (Ascii.eqb c ".")
      && forallb (fun c => negb (Ascii.eqb c "/")) (list_ascii_of_string stem)
  | EmptyString => false
  end.

(** Names in increasing order, from one to the next. *)
Fixpoint ordered_names (l : list string) : bool :=
  match l with
  | a :: (b :: _) as l' => String.leb a b && ordered_names l'
  | _ => true
  end.

(** What [invoke_model] ends with once the request is written: the error of
    the upload, else the answer of the endpoint. *)
Definition submission (env : Env) : result string :=
  match s3_upload_answer env with
  | inr _ => sm_invoke_answer env
  | inl e => inl e
  end.

(** ** Checks over all bytes, for the base64 round trip *)

Definition all_bytes : list byte :=
  List.map (fun n => Base64.byte_of_N (N.of_nat n)) (seq 0 256).

(** A value of the alphabet: its character is not the padding, and the
    decoding table gives the value back. *)
Definition sextet_ok (v : N) : bool :=
  negb (Byte.eqb (Base64.b2a v) Base64.BASE64_PAD)
  && match Base64.table_a2b_base64 (Base64.b2a v) with
     | Some v' => N.eqb v' v
     | None => false
     end.

(** What decoding the first two characters of a group asks of its first two
    bytes, the second being absent in a group of one. *)
Definition first_pair_ok (a b : byte) : bool :=
  let x := Byte.to_N a in
  let y := Byte.to_N b in
  let v1 := N.shiftr x 2 in
  let v2 := N.lor (N.shiftl (N.land x 3) 4) (N.shiftr y 4) in
  let v2' := N.shiftl (N.land x 3) 4 in
  sextet_ok v1 && sextet_ok v2 && sextet_ok v2'
  && Byte.eqb (Base64.byte_of_N (N.lor (N.shiftl v1 2) (N.shiftr v2 4))) a
  && Byte.eqb (Base64.byte_of_N (N.lor (N.shiftl v1 2) (N.shiftr v2' 4))) a
  && N.eqb (N.land v2 15) (N.shiftr y 4).

(** The same for the last two characters and the last two bytes, the third
    being absent in a group of two. *)
Definition last_pair_ok (b c : byte) : bool :=
  let y := Byte.to_N b in
  let z := Byte.to_N c in
  let v3 := N.lor (N.shiftl (N.land y 15) 2) (N.shiftr z 6) in
  let v3' := N.shiftl (N.land y 15) 2 in
  let v4 := N.land z 63 in
  sextet_ok v3 && sextet_ok v3' && sextet_ok v4
  && Byte.eqb (Base64.byte_of_N (N.lor (N.shiftl (N.shiftr y 4) 4) (N.shiftr v3 2))) b
  && Byte.eqb (Base64.byte_of_N (N.lor (N.shiftl (N.shiftr y 4) 4) (N.shiftr v3' 2))) b
  && N.eqb (N.land v3 3) (N.shiftr z 6)
  && Byte.eqb (Base64.byte_of_N (N.lor (N.shiftl (N.shiftr z 6) 6) v4)) c.

(** ** More of the outside, for the examples *)


(** The object is listed but its download is refused. *)
Definition env_download_denied : Env := {|
  ui_upload := None;
  ui_text := fun _ => None;
  ui_number := fun _ => None;
  ui_button := fun _ => false;
  s3_upload_answer := inr tt;
  s3_get_object_answer := fun _ => inr tt;
  s3_download_answer := fun _ => inl (ClientError "AccessDenied");
  sm_invoke_answer := inr "s3://bucket/async_inference/output/result.out";
  ffmpeg_encode := fun _ _ _ => inr [];
  ffmpeg_partial := fun _ _ _ => None;
  open_error := FileNotFoundError;
|}.

(** "Create Video" pressed with nothing uploaded. *)
Definition env_create_without_upload : Env := {|
  ui_upload := None;
  ui_text := fun _ => None;
  ui_number := fun _ => None;
  ui_button := fun label => String.eqb label "Create Video";
  s3_upload_answer := inr tt;
  s3_get_object_answer := fun _ => inr tt;
  s3_download_answer := fun _ => inr [];
  sm_invoke_answer := inr "s3://bucket/async_inference/output/result.out";
  ffmpeg_encode := fun _ _ _ => inr [];
  ffmpeg_partial := fun _ _ _ => None;
  open_error := FileNotFoundError;
|}.

(** The bucket refuses the request. *)
Definition env_upload_denied : Env := {|
  ui_upload := None;
  ui_text := fun _ => None;
  ui_number := fun _ => None;
  ui_button := fun _ => false;
  s3_upload_answer := inl (ClientError "AccessDenied");
  s3_get_object_answer := fun _ => inr tt;
  s3_download_answer := fun _ => inr [];
  sm_invoke_answer := inr "s3://bucket/async_inference/output/result.out";
  ffmpeg_encode := fun _ _ _ => inr [];
  ffmpeg_partial := fun _ _ _ => None;
  open_error := FileNotFoundError;
|}.

(** "Play Video" pressed where [open] refuses the path with another error
    than [FileNotFoundError], as for a title so long that the file name
    exceeds the limit of the file system. *)
Definition env_play_refused : Env := {|
  ui_upload := None;
  ui_text := fun _ => None;
  ui_number := fun _ => None;
  ui_button := fun label => String.eqb label "Play Video";
  s3_upload_answer := inr tt;
  s3_get_object_answer := fun _ => inr tt;
  s3_download_answer := fun _ => inr [];
  sm_invoke_answer := inr "s3://bucket/async_inference/output/result.out";
  ffmpeg_encode := fun _ _ _ => inr [];
  ffmpeg_partial := fun _ _ _ => None;
  open_error := fun _ => OtherError "OSError";
|}.

(** The values of the default session, by key. *)
Definition default_values (key : string) : pyval := default PyNone (default_session !! key).

(** ** The form, for the statement about a whole run *)

(** The number fields of [main], in the order of the script: the key of the
    session, the label, the default of [st.session_state.get]. *)
Definition number_fields : list (string * (string * pyval)) :=
  [ ("width", ("Width", PyInt 1024));
    ("height", ("Height", PyInt 576));
    ("num_frames", ("Number of Frames", PyInt 25));
    ("num_inference_steps", ("Number of Inference Steps", PyInt 25));
    ("min_guidance_scale", ("Minimum Guidance Scale", PyFloat 1.0));
    ("max_guidance_scale", ("Maximum Guidance Scale", PyFloat 3.0));
    ("fps", ("Frames per Second", PyInt 6));
    ("motion_bucket_id", ("Motion Bucket ID", PyInt 127));
    ("noise_aug_strength", ("Noise Augmentation Strength", PyFloat 0x1.47ae147ae147bp-6));
    ("decode_chunk_size", ("Decode Chunk Size", PyInt 8));
    ("seed", ("Seed", PyInt 42)) ].

Definition field_label (key : string) : string :=
  match List.find (fun f => String.eqb (fst f) key) number_fields with
  | Some f => fst (snd f)
  | None => EmptyString
  end.

(** What the session holds for a key of the request when the form is
    drawn, for an accepted upload with image [image]: the size of the image
    for the width and the height, else what the session had, else the
    default of [reset_session_states]. *)
Definition session_at_form (w : World) (image : Image) (key : string) : pyval :=
  if String.eqb key "width" then PyInt (fst (im_size image))
  else if String.eqb key "height" then PyInt (snd (im_size image))
  else match w_session w !! key with
       | Some v => v
       | None => default PyNone (dict_get session_state_defaults key)
       end.

(** What the field of a key returns, and the script stores and submits: what
    the user entered, else what the session holds. *)
Definition form_value (env : Env) (w : World) (image : Image) (key : string) : pyval :=
  default (session_at_form w image key) (ui_number env (field_label key)).

(** Nothing but the session and what was shown has changed since [w]: the
    files, the counts of fetches and downloads, and the calls to S3 and
    SageMaker are the same. *)
Definition shown_only (w w1 : World) : Prop :=
  w_fs w1 = w_fs w
  /\ w_gets w1 = w_gets w
  /\ w_downloads w1 = w_downloads w
  /\ List.filter is_network_call (w_log w1) = List.filter is_network_call (w_log w).


(** What the field of a key returns when the session holds [base key] for
    it: what the user entered, else that value. *)
Definition field_value (env : Env) (base : string -> pyval) (key : string) : pyval :=
  default (base key) (ui_number env (field_label key)).

(** The world while the number fields are drawn, the first [n] of them
    done, [base] being what the session held for each key before: the title
    is set, and each key of the request holds the value of its field, or
    still what the session held. *)
Definition form_state (env : Env) (base : string -> pyval) (w : World) (title : pyval)
    (n : nat) (w1 : World) : Prop :=
  shown_only w w1
  /\ w_session w1 !! "movie_title" = Some title
  /\ forall i key,
       request_keys !! i = Some key ->
       w_session w1 !! key
       = Some (if (i <? n)%nat then field_value env base key else base key).


(** * Facts *)

(** ** The library models on small inputs *)

Example a2b_base64_ABC :
  Base64.a2b_base64 (list_byte_of_string "QUJD") = inr (list_byte_of_string "ABC").
Proof. reflexivity. Qed.

Example a2b_base64_one_char :
  Base64.a2b_base64 (list_byte_of_string "A")
  = inl (BinasciiError "number of data characters cannot be 1 more than a multiple of 4").
Proof. reflexivity. Qed.

Example a2b_base64_padded :
  Base64.a2b_base64 (list_byte_of_string "QUI=") = inr (list_byte_of_string "AB").
Proof. reflexivity. Qed.

Example b64encode_AB :
  Base64.b64encode (list_byte_of_string "AB") = list_byte_of_string "QUI=".
Proof. reflexivity. Qed.

Example glob_match_frame : glob_match "frames_out/*.jpg" "frames_out/frame_01.jpg" = true.
Proof. reflexivity. Qed.

Example glob_match_subdir : glob_match "frames_out/*.jpg" "frames_out/old/frame_01.jpg" = false.
Proof. reflexivity. Qed.

Example glob_match_hidden : glob_match "frames_out/*.jpg" "frames_out/.jpg" = false.
Proof. reflexivity. Qed.

Example glob_match_other_dir : glob_match "frames_out/*.jpg" "video_out/frame_01.jpg" = false.
Proof. reflexivity. Qed.

Lemma spin_unfold {E R} : @ITree.spin E R ≅ Tau ITree.spin.
Proof. rewrite (itree_eta ITree.spin) at 1. cbn. reflexivity. Qed.

Section Run.
Variable env : Env.

Lemma run_trigger {T} (e : ioE T) (w : World) :
  run env (ITree.trigger e) w ≳ Ret (step env e w).
Proof.
  rewrite interp_state_trigger_eqit. unfold handle. cbn.
  rewrite bind_ret_l, tau_euttge. reflexivity.
Qed.

Lemma run_bind {A B} (t : itree ioE A) (k : A -> itree ioE B) (w : World) (wa : World * A) :
  run env t w ≳ Ret wa ->
  run env (ITree.bind t k) w ≳ run env (k (snd wa)) (fst wa).
Proof.
  intros Ht. rewrite interp_state_bind, Ht, bind_ret_l. reflexivity.
Qed.

Lemma run_pbind_ok {A B} (t : py A) (k : A -> py B) (w w1 : World) (a : A) :
  run env t w ≳ Ret (w1, inr a) ->
  run env (pbind t k) w ≳ run env (k a) w1.
Proof. intros Ht. unfold pbind. rewrite (run_bind _ _ _ _ Ht). reflexivity. Qed.

Lemma run_pbind_raise {A B} (t : py A) (k : A -> py B) (w w1 : World) (e : exn) :
  run env t w ≳ Ret (w1, inl e) ->
  run env (pbind t k) w ≳ Ret (w1, inl e).
Proof.
  intros Ht. unfold pbind. rewrite (run_bind _ _ _ _ Ht). cbn.
  rewrite interp_state_ret. reflexivity.
Qed.

Lemma run_ret {A} (a : A) (w : World) : run env (ret a) w ≳ Ret (w, inr a).
Proof. unfold ret. rewrite interp_state_ret. reflexivity. Qed.

Lemma run_raise {A} (e : exn) (w : World) : run env (@raise A e) w ≳ Ret (w, inl e).
Proof. unfold raise. rewrite interp_state_ret. reflexivity. Qed.

Lemma run_lift {A} (r : result A) (w : World) : run env (lift r) w ≳ Ret (w, r).
Proof. unfold lift. rewrite interp_state_ret. reflexivity. Qed.

Lemma run_perform {A} (e : ioE A) (w : World) :
  run env (perform e) w ≳ Ret (fst (step env e w), inr (snd (step env e w))).
Proof.
  unfold perform. rewrite (run_bind _ _ _ _ (run_trigger e w)).
  rewrite interp_state_ret. reflexivity.
Qed.

Lemma run_call {A} (e : ioE (result A)) (w : World) :
  run env (call e) w ≳ Ret (step env e w).
Proof. apply run_trigger. Qed.

(** Whatever [exec] computes is what the interpretation returns. *)
Lemma exec_sound (fuel : nat) {R} (t : itree ioE R) (w w' : World) (r : R) :
  exec env fuel t w = Some (w', r) -> run env t w ≳ Ret (w', r).
Proof.
  revert t w. induction fuel as [|fuel IH]; intros t w Hx; [discriminate|].
  cbn in Hx. rewrite unfold_interp_state.
  destruct (observe t) as [r0 | t' | T e k]; cbn.
  - injection Hx as <- <-. reflexivity.
  - rewrite tau_euttge. apply IH, Hx.
  - unfold handle at 1. rewrite bind_ret_l.
    destruct (step env e w) as [w1 a]. cbn. rewrite tau_euttge. apply IH, Hx.
Qed.

(** The same through a view of the final world, for runs carried out by
    computation. *)
Lemma exec_view (fuel : nat) {R A} (t : itree ioE R) (w : World) (view : World -> A)
    (r : R) (a : A) :
  option_map (fun wr => (snd wr, view (fst wr))) (exec env fuel t w) = Some (r, a) ->
  exists w', run env t w ≈ Ret (w', r) /\ view w' = a.
Proof.
  destruct (exec env fuel t w) as [[w' r']|] eqn:Hx; cbn; intros Hv; [|discriminate].
  injection Hv as -> <-. exists w'. split; [|reflexivity].
  apply euttge_sub_eutt, (exec_sound fuel), Hx.
Qed.

End Run.

(** ** Writing the frames *)

Lemma set_fs_set_fs (f g : gmap string (list byte) -> gmap string (list byte)) (w : World) :
  set_fs g (set_fs f w) = set_fs (fun fs => g (f fs)) w.
Proof. reflexivity. Qed.

Lemma set_fs_id (w : World) : set_fs (fun fs => fs) w = w.
Proof. destruct w; reflexivity. Qed.

Lemma set_fs_ext (f g : gmap string (list byte) -> gmap string (list byte)) (w : World) :
  f (w_fs w) = g (w_fs w) -> set_fs f w = set_fs g w.
Proof. intros Hfg. unfold set_fs. rewrite Hfg. reflexivity. Qed.

Section FrameFacts.
Variable env : Env.
Variable decodebytes : list byte -> result (list byte).

Lemma save_video_frame_ok (idx : nat) (video_frame : pyval) (data : list byte) (w : World) :
  decode_frame decodebytes video_frame = inr data ->
  run env (save_video_frame decodebytes idx video_frame) w
  ≳ Ret (set_fs (insert (frame_name idx) data) w, inr tt).
Proof.
  unfold decode_frame, save_video_frame. intros Hd.
  destruct (bytes_raw_unicode_escape video_frame) as [e|frame]; [discriminate|].
  rewrite run_pbind_ok by apply run_lift.
  rewrite run_pbind_ok by apply run_perform. cbn [step fst snd].
  rewrite Hd.
  rewrite run_pbind_ok by apply run_lift.
  rewrite run_perform. cbn [step fst snd]. rewrite set_fs_set_fs.
  erewrite set_fs_ext; [reflexivity|].
  cbn. rewrite lookup_insert_eq. cbn. apply insert_insert_eq.
Qed.

Lemma save_video_frame_raises (idx : nat) (video_frame : pyval) (e : exn) (w : World) :
  decode_frame decodebytes video_frame = inl e ->
  run env (save_video_frame decodebytes idx video_frame) w
  ≳ Ret (set_fs (frame_opened idx video_frame) w, inl e).
Proof.
  unfold decode_frame, save_video_frame, frame_opened. intros Hd.
  destruct (bytes_raw_unicode_escape video_frame) as [e0|frame].
  - injection Hd as ->. rewrite run_pbind_raise by apply run_lift.
    rewrite set_fs_id. reflexivity.
  - rewrite run_pbind_ok by apply run_lift.
    rewrite run_pbind_ok by apply run_perform. cbn [step fst snd].
    rewrite Hd. rewrite run_pbind_raise by apply run_lift. reflexivity.
Qed.

Lemma for_enumerate_save_ok (items : list pyval) (datas : list (list byte)) :
  Forall2 (fun v d => decode_frame decodebytes v = inr d) items datas ->
  forall (start : nat) (w : World),
    run env (for_enumerate start items (save_video_frame decodebytes)) w
    ≳ Ret (set_fs (frames_written start datas) w, inr tt).
Proof.
  induction 1 as [|v d items datas Hv _ IH]; intros start w; cbn [for_enumerate frames_written].
  - rewrite run_ret, set_fs_id. reflexivity.
  - rewrite run_pbind_ok by (apply save_video_frame_ok, Hv).
    rewrite IH, set_fs_set_fs. reflexivity.
Qed.

Lemma for_enumerate_save_raises (pre : list pyval) (datas : list (list byte))
    (bad : pyval) (post : list pyval) (e : exn) :
  Forall2 (fun v d => decode_frame decodebytes v = inr d) pre datas ->
  decode_frame decodebytes bad = inl e ->
  forall (start : nat) (w : World),
    run env (for_enumerate start (pre ++ bad :: post) (save_video_frame decodebytes)) w
    ≳ Ret (set_fs (fun fs => frame_opened (start + length pre) bad (frames_written start datas fs)) w,
           inl e).
Proof.
  intros Hpre Hbad. induction Hpre as [|v d pre datas Hv _ IH]; intros start w;
    cbn [for_enumerate frames_written app length].
  - rewrite run_pbind_raise by (apply save_video_frame_raises, Hbad).
    rewrite Nat.add_0_r. reflexivity.
  - rewrite run_pbind_ok by (apply save_video_frame_ok, Hv).
    rewrite IH, set_fs_set_fs. rewrite Nat.add_succ_comm. reflexivity.
Qed.

End FrameFacts.

(** ** The frame files after a write *)

Lemma frames_written_other (datas : list (list byte)) :
  forall (start : nat) (fs : gmap string (list byte)) (p : string),
    (forall j, j < length datas -> p <> frame_name (start + j)) ->
    frames_written start datas fs !! p = fs !! p.
Proof.
  induction datas as [|d datas IH]; intros start fs p Hp; cbn [frames_written]; [reflexivity|].
  rewrite IH.
  - apply lookup_insert_ne. intros Heq. apply (Hp 0); [cbn; lia|].
    rewrite Nat.add_0_r. symmetry. exact Heq.
  - intros j Hj. rewrite Nat.add_succ_comm. apply Hp. cbn. lia.
Qed.

Lemma frames_written_lookup (datas : list (list byte)) :
  forall (start : nat) (fs : gmap string (list byte)) (i : nat) (d : list byte),
    datas !! i = Some d ->
    (forall j, i < j < length datas -> frame_name (start + i) <> frame_name (start + j)) ->
    frames_written start datas fs !! frame_name (start + i) = Some d.
Proof.
  induction datas as [|d0 datas IH]; intros start fs i d Hi Hne; [discriminate|].
  cbn [frames_written]. destruct i as [|i].
  - injection Hi as ->. rewrite frames_written_other.
    + rewrite Nat.add_0_r. apply lookup_insert_eq.
    + intros j Hj. rewrite Nat.add_succ_comm. apply Hne. cbn. lia.
  - rewrite <- Nat.add_succ_comm. apply IH; [exact Hi|].
    intros j Hj. rewrite !Nat.add_succ_comm. apply Hne. cbn. lia.
Qed.

Lemma frames_written_keeps (datas : list (list byte)) :
  forall (start : nat) (fs : gmap string (list byte)) (p : string),
    is_Some (fs !! p) -> is_Some (frames_written start datas fs !! p).
Proof.
  induction datas as [|d datas IH]; intros start fs p Hp; cbn [frames_written]; [exact Hp|].
  apply IH. destruct (decide (frame_name start = p)) as [->|Hne].
  - rewrite lookup_insert_eq. eauto.
  - rewrite lookup_insert_ne by exact Hne. exact Hp.
Qed.

(** ** The frame names up to 99 frames *)

Lemma ltb_leb (a b : string) : String.ltb a b = true -> String.leb a b = true.
Proof. unfold String.ltb, String.leb. destruct (String.compare a b); congruence. Qed.

Lemma sort_by_name_sorted {A} (l : list (string * A)) :
  sorted_names (List.map fst l) = true -> sort_by_name l = l.
Proof.
  induction l as [|x l IH]; [reflexivity|].
  intros Hs. cbn [sort_by_name]. destruct l as [|y l].
  - reflexivity.
  - cbn [List.map sorted_names] in Hs. apply andb_prop in Hs as [Hxy Hs].
    rewrite IH by exact Hs. cbn [insert_by_name]. rewrite (ltb_leb _ _ Hxy). reflexivity.
Qed.

Lemma frame_names_upto_99 :
  forallb (fun n => sorted_names (frame_names n)
                    && forallb (fun s => Nat.eqb (String.length s) 23) (frame_names n))
          (seq 0 100) = true.
Proof. vm_compute. reflexivity. Qed.

Lemma frame_names_sorted (n : nat) : n <= 99 -> sorted_names (frame_names n) = true.
Proof.
  intros Hn. pose proof frame_names_upto_99 as Hall.
  rewrite forallb_forall in Hall. specialize (Hall n).
  rewrite in_seq in Hall. apply andb_prop in Hall as [Hs _]; [exact Hs | lia].
Qed.

Lemma frame_names_width (n : nat) :
  n <= 99 -> Forall (fun s => String.length s = 23) (frame_names n).
Proof.
  intros Hn. pose proof frame_names_upto_99 as Hall.
  rewrite forallb_forall in Hall. specialize (Hall n).
  rewrite in_seq in Hall. apply andb_prop in Hall as [_ Hw]; [|lia].
  rewrite forallb_forall in Hw. apply List.Forall_forall. intros s Hin.
  apply Nat.eqb_eq, Hw, Hin.
Qed.

Lemma frame_names_99_NoDup : NoDup (frame_names 99).
Proof. apply (bool_decide_eq_true_1 (NoDup (frame_names 99))). vm_compute. reflexivity. Qed.

Lemma frame_names_NoDup (n : nat) : n <= 99 -> NoDup (frame_names n).
Proof.
  intros Hn. pose proof frame_names_99_NoDup as Hnd.
  unfold frame_names in *. replace 99 with (n + (99 - n)) in Hnd by lia.
  rewrite seq_app, List.map_app in Hnd. apply NoDup_app in Hnd as [Hnd _]. exact Hnd.
Qed.

Lemma frame_name_inj_99 (i j : nat) :
  i < 99 -> j < 99 -> frame_name i = frame_name j -> i = j.
Proof.
  intros Hi Hj Heq. pose proof frame_names_99_NoDup as Hnd.
  eapply (NoDup_lookup _ i j (frame_name i) Hnd); unfold frame_names.
  - rewrite list_lookup_fmap, lookup_seq_lt by lia. reflexivity.
  - rewrite list_lookup_fmap, lookup_seq_lt by lia. cbn. congruence.
Qed.

Section FrameOrder.
Variable env : Env.
Variable decodebytes : list byte -> result (list byte).

Lemma save_video_frames_ok (items : list pyval) (datas : list (list byte)) (w : World) :
  Forall2 (fun v d => decode_frame decodebytes v = inr d) items datas ->
  run env (save_video_frames decodebytes (PyList items)) w
  ≳ Ret (set_fs (frames_written 0 datas) w, inr tt).
Proof.
  intros Hd. unfold save_video_frames. cbn [py_iter].
  rewrite run_pbind_ok by apply run_lift.
  apply for_enumerate_save_ok, Hd.
Qed.

End FrameOrder.

Lemma Forall2_repeat {A B} (P : A -> B -> Prop) (a : A) (b : B) (n : nat) :
  P a b -> Forall2 P (repeat a n) (repeat b n).
Proof. intros Hab. induction n; cbn; constructor; assumption. Qed.

(** One hundred frames, all decodable, written into an empty directory: the
    run returns normally, but the files sorted by name are not in frame
    order, frame 100 coming right after frame 10 and before frame 11; nor
    are the names of one width. *)
Lemma save_video_frames_100_misordered :
  exists w',
    run quiet_env (save_video_frames Base64.a2b_base64 (PyList (repeat (PyStr "QUJD") 100)))
      empty_world ≈ Ret (w', inr tt)
    /\ length (repeat (PyStr "QUJD") 100) <= 999
    /\ List.map fst (glob "frames_out/*.jpg" (w_fs w')) <> frame_names 100
    /\ List.map fst (firstn 3 (skipn 9 (glob "frames_out/*.jpg" (w_fs w'))))
       = [frame_name 9; frame_name 99; frame_name 10]
    /\ String.length (frame_name 99) <> String.length (frame_name 0).
Proof.
  exists (set_fs (frames_written 0 (repeat (list_byte_of_string "ABC") 100)) empty_world).
  split; [|split; [|split; [|split]]].
  - apply euttge_sub_eutt, save_video_frames_ok, Forall2_repeat. reflexivity.
  - rewrite repeat_length. lia.
  - apply (bool_decide_eq_false_1 (_ = _)). vm_compute. reflexivity.
  - vm_compute. reflexivity.
  - apply (bool_decide_eq_false_1 (_ = _)). vm_compute. reflexivity.
Qed.

(** ** From the response document to the video *)

Section Assemble.
Variable env : Env.
Variable json_load : list byte -> result pyval.
Variable decodebytes : list byte -> result (list byte).

Lemma run_fread (name : string) (content : list byte) (w : World) :
  w_fs w !! name = Some content ->
  run env (call (FRead name)) w ≳ Ret (w, inr content).
Proof. intros Hf. rewrite run_call. cbn [step]. rewrite Hf. reflexivity. Qed.

Lemma run_ss_getitem (key : string) (v : pyval) (w : World) :
  w_session w !! key = Some v ->
  run env (ss_getitem key) w ≳ Ret (w, inr v).
Proof. intros Hk. unfold ss_getitem. rewrite run_call. cbn [step]. rewrite Hk. reflexivity. Qed.

Lemma py_getitem_no_frames (data : pyval) :
  has_frames_field data = false ->
  exists e, py_getitem data "frames" = inl e
            /\ (e = KeyError "frames" \/ exists msg, e = TypeError msg).
Proof.
  destruct data as [| | | | |l|d]; cbn; intros Hf; eauto.
  destruct (dict_get d "frames"); [discriminate|]. eauto.
Qed.

(** C7: when the response document parses but has no [frames] field (it is a
    dict without that key, or not a dict at all), the steps from the document
    to the video raise at the lookup, a [KeyError] or a [TypeError]; nothing
    has changed by then: no frame file is written or touched, the encoder is
    not run, no success is reported. *)
Theorem assemble_video_without_frames_field (video_path : string) (w : World)
    (content : list byte) (data : pyval) :
  w_fs w !! RESPONSE_PAYLOAD = Some content ->
  json_load content = inr data ->
  has_frames_field data = false ->
  exists e,
    run env (assemble_video json_load decodebytes video_path) w ≈ Ret (w, inl e)
    /\ (e = KeyError "frames" \/ exists msg, e = TypeError msg).
Proof.
  intros Hf Hj Hnf. destruct (py_getitem_no_frames data Hnf) as (e & He & Hkind).
  exists e. split; [|exact Hkind].
  apply euttge_sub_eutt. unfold assemble_video, load_and_save_frames.
  rewrite run_pbind_raise; [reflexivity|].
  rewrite run_pbind_ok by (apply run_fread, Hf).
  rewrite Hj. rewrite run_pbind_ok by apply run_lift.
  rewrite He. rewrite run_pbind_raise by apply run_lift. reflexivity.
Qed.

(** C2 (amended): when an entry of the frame list fails to decode, and the
    entries before it decode, the steps from the document to the video raise
    that entry's exception and stop: the encoder is not run and no success is
    reported (the log is as it was).  Nothing is rolled back: the frames
    before the failing entry are in their files, and the failing entry's own
    file has been opened, so it is left empty. *)
Theorem assemble_video_undecodable_frame (video_path : string) (w : World)
    (content : list byte) (data : pyval)
    (pre : list pyval) (datas : list (list byte)) (bad : pyval) (post : list pyval) (e : exn) :
  w_fs w !! RESPONSE_PAYLOAD = Some content ->
  json_load content = inr data ->
  py_getitem data "frames" = inr (PyList (pre ++ bad :: post)) ->
  Forall2 (fun v d => decode_frame decodebytes v = inr d) pre datas ->
  decode_frame decodebytes bad = inl e ->
  exists w',
    run env (assemble_video json_load decodebytes video_path) w ≈ Ret (w', inl e)
    /\ w' = set_fs (fun fs => frame_opened (length pre) bad (frames_written 0 datas fs)) w
    /\ w_log w' = w_log w
    /\ (length pre < 99 ->
        forall i d, datas !! i = Some d -> w_fs w' !! frame_name i = Some d)
    /\ (forall s, bad = PyStr s -> w_fs w' !! frame_name (length pre) = Some []).
Proof.
  intros Hf Hj Hfr Hpre Hbad.
  eexists. split; [|split; [reflexivity|]].
  - apply euttge_sub_eutt. unfold assemble_video, load_and_save_frames.
    rewrite run_pbind_raise; [reflexivity|].
    rewrite run_pbind_ok by (apply run_fread, Hf).
    rewrite Hj. rewrite run_pbind_ok by apply run_lift.
    rewrite Hfr. rewrite run_pbind_ok by apply run_lift.
    unfold save_video_frames. cbn [py_iter].
    rewrite run_pbind_ok by apply run_lift.
    apply (for_enumerate_save_raises env decodebytes pre datas bad post e Hpre Hbad 0 w).
  - split; [reflexivity|]. pose proof (Forall2_length _ _ _ Hpre) as Hlen. split.
    + intros Hn i d Hi. cbn [set_fs w_fs].
      pose proof (lookup_lt_Some _ _ _ Hi) as Hlt.
      assert (frames_written 0 datas (w_fs w) !! frame_name i = Some d) as Hw.
      { apply (frames_written_lookup datas 0 (w_fs w) i d Hi).
        intros j Hj' Heq. cbn in Heq. apply frame_name_inj_99 in Heq; lia. }
      unfold frame_opened. destruct (bytes_raw_unicode_escape bad); [exact Hw|].
      rewrite lookup_insert_ne; [exact Hw|].
      intros Heq. apply frame_name_inj_99 in Heq; lia.
    + intros s ->. cbn. apply lookup_insert_eq.
Qed.

End Assemble.

(** Two frames, the second of which is not base64: the call raises, and the
    first frame's file, which did not exist before, is left written in full,
    next to an empty file for the second. *)
Lemma save_video_frames_partial_write :
  exists w',
    run quiet_env (save_video_frames Base64.a2b_base64 (PyList [PyStr "QUJD"; PyStr "A"]))
      empty_world
    ≈ Ret (w', inl (BinasciiError
                      "number of data characters cannot be 1 more than a multiple of 4"))
    /\ w_fs empty_world !! "frames_out/frame_01.jpg" = None
    /\ w_fs w' !! "frames_out/frame_01.jpg" = Some (list_byte_of_string "ABC")
    /\ w_fs w' !! "frames_out/frame_02.jpg" = Some [].
Proof.
  destruct (exec_view quiet_env 100
              (save_video_frames Base64.a2b_base64 (PyList [PyStr "QUJD"; PyStr "A"]))
              empty_world
              (fun w' => (w_fs w' !! "frames_out/frame_01.jpg",
                          w_fs w' !! "frames_out/frame_02.jpg"))
              (inl (BinasciiError
                      "number of data characters cannot be 1 more than a multiple of 4"))
              (Some (list_byte_of_string "ABC"), Some []))
    as (w' & Hrun & Hview); [vm_compute; reflexivity|].
  injection Hview as H1 H2. exists w'. split; [exact Hrun|].
  repeat split; assumption || reflexivity.
Qed.

(** ** The poller *)

Section Poller.
Variable env : Env.
Variable bucket key : string.

Lemma run_iter_again {I R} (body : I -> itree ioE (I + R)) (i i' : I) (w w1 : World) :
  run env (body i) w ≳ Ret (w1, inl i') ->
  run env (ITree.iter body i) w ≳ run env (ITree.iter body i') w1.
Proof.
  intros Hb. rewrite unfold_iter at 1. rewrite (run_bind _ _ _ _ _ Hb). cbn.
  rewrite interp_state_tau, tau_euttge. reflexivity.
Qed.

Lemma run_iter_done {I R} (body : I -> itree ioE (I + R)) (i : I) (r : R) (w w1 : World) :
  run env (body i) w ≳ Ret (w1, inr r) ->
  run env (ITree.iter body i) w ≳ Ret (w1, r).
Proof.
  intros Hb. rewrite unfold_iter. rewrite (run_bind _ _ _ _ _ Hb). cbn.
  rewrite interp_state_ret. reflexivity.
Qed.

Lemma poll_once_not_found (w : World) :
  s3_get_object_answer env (w_gets w) = inl NoSuchKey ->
  run env (poll_once bucket key) w ≳ Ret (wait_once bucket key w, inl tt).
Proof.
  intros Ha. unfold poll_once.
  assert (run env (pbind (call (S3GetObject bucket key)) (fun _ =>
            pbind (call (S3DownloadFile bucket key RESPONSE_PAYLOAD)) (fun _ =>
            pbind (print "Model response received.") (fun _ => ret true)))) w
          ≳ Ret (fetch_failed bucket key w, inl NoSuchKey)) as Hget.
  { rewrite run_pbind_raise; [reflexivity|].
    rewrite run_call. cbn [step]. rewrite Ha. reflexivity. }
  rewrite (run_bind _ _ _ _ _ Hget). cbn.
  rewrite (run_bind _ _ _ _ _ (run_trigger env _ _)). cbn.
  rewrite (run_bind _ _ _ _ _ (run_trigger env _ _)). cbn.
  rewrite interp_state_ret. reflexivity.
Qed.

Lemma poll_once_fetch_error (w : World) (e : exn) :
  s3_get_object_answer env (w_gets w) = inl e ->
  is_no_such_key e = false ->
  run env (poll_once bucket key) w ≳ Ret (fetch_failed bucket key w, inr (inl e)).
Proof.
  intros Ha Hne. unfold poll_once.
  assert (run env (pbind (call (S3GetObject bucket key)) (fun _ =>
            pbind (call (S3DownloadFile bucket key RESPONSE_PAYLOAD)) (fun _ =>
            pbind (print "Model response received.") (fun _ => ret true)))) w
          ≳ Ret (fetch_failed bucket key w, inl e)) as Hget.
  { rewrite run_pbind_raise; [reflexivity|].
    rewrite run_call. cbn [step]. rewrite Ha. reflexivity. }
  rewrite (run_bind _ _ _ _ _ Hget). cbn [fst snd].
  destruct e; cbn in Hne; try (rewrite interp_state_ret; reflexivity).
  rewrite Hne. rewrite interp_state_ret. reflexivity.
Qed.

Lemma poll_once_found (w : World) (body : list byte) :
  s3_get_object_answer env (w_gets w) = inr tt ->
  s3_download_answer env (w_downloads w) = inr body ->
  run env (poll_once bucket key) w ≳ Ret (found bucket key body w, inr (inr true)).
Proof.
  intros Ha Hd. unfold poll_once.
  assert (run env (pbind (call (S3GetObject bucket key)) (fun _ =>
            pbind (call (S3DownloadFile bucket key RESPONSE_PAYLOAD)) (fun _ =>
            pbind (print "Model response received.") (fun _ => ret true)))) w
          ≳ Ret (found bucket key body w, inr true)) as Hget.
  { rewrite run_pbind_ok.
    2:{ rewrite run_call. cbn [step]. rewrite Ha. reflexivity. }
    rewrite run_pbind_ok.
    2:{ rewrite run_call. cbn [step]. cbn. rewrite Hd. reflexivity. }
    rewrite run_pbind_ok by apply run_perform. cbn [step fst snd].
    rewrite run_ret. reflexivity. }
  rewrite (run_bind _ _ _ _ _ Hget). cbn [fst snd].
  rewrite interp_state_ret. reflexivity.
Qed.

Lemma waited_gets (n : nat) (w : World) : w_gets (waited bucket key n w) = w_gets w + n.
Proof. revert w. induction n as [|n IH]; intros w; cbn; [lia|]. rewrite IH. cbn. lia. Qed.

Lemma waited_downloads (n : nat) (w : World) :
  w_downloads (waited bucket key n w) = w_downloads w.
Proof. revert w. induction n as [|n IH]; intros w; cbn; [reflexivity|]. rewrite IH. reflexivity. Qed.

Lemma waited_fs (n : nat) (w : World) : w_fs (waited bucket key n w) = w_fs w.
Proof. revert w. induction n as [|n IH]; intros w; cbn; [reflexivity|]. rewrite IH. reflexivity. Qed.

Lemma waited_log (n : nat) (w : World) :
  w_log (waited bucket key n w) = w_log w ++ waiting_log bucket key n.
Proof.
  revert w. induction n as [|n IH]; intros w; cbn.
  - rewrite app_nil_r. reflexivity.
  - rewrite IH. cbn. rewrite <- !app_assoc. reflexivity.
Qed.

(** [n] fruitless attempts, then the loop as it stands in the world they
    leave. *)
Lemma run_poll_waits (n : nat) :
  forall w : World,
    (forall i, i < n -> s3_get_object_answer env (w_gets w + i) = inl NoSuchKey) ->
    run env (ITree.iter (fun _ : unit => poll_once bucket key) tt) w
    ≳ run env (ITree.iter (fun _ : unit => poll_once bucket key) tt) (waited bucket key n w).
Proof.
  induction n as [|n IH]; intros w Hnf; [reflexivity|].
  rewrite run_iter_again.
  2:{ apply poll_once_not_found. rewrite <- (Nat.add_0_r (w_gets w)). apply Hnf. lia. }
  cbn [waited]. apply IH. intros i Hi.
  replace (w_gets (wait_once bucket key w) + i) with (w_gets w + S i) by (cbn; lia).
  apply Hnf. lia.
Qed.

End Poller.

Example urlparse_s3 :
  PyModel.urlparse "s3://bucket/async_inference/output/result.out"
  = {| netloc := "bucket"; path := "/async_inference/output/result.out" |}.
Proof. reflexivity. Qed.

Example urlparse_http :
  PyModel.urlparse "HTTP://host:80/a/b;p?q=1#frag" = {| netloc := "host:80"; path := "/a/b" |}.
Proof. reflexivity. Qed.

Section PollerRuns.
Variable env : Env.
Variable urlparse : string -> ParseResult.
Variable response_location : string.

Let bucket : string := netloc (urlparse response_location).
Let key : string := slice_from_1 (path (urlparse response_location)).

(** C3: when the store answers [NoSuchKey] to the first [k] fetches of the
    run and has the object at the next, the poller returns [True] from the
    world that [k] fruitless attempts and one successful one leave: the calls
    it made are, in order, [k] times (fetch, message, sleep of 15 seconds),
    then one fetch, the download to the response file, the message; so
    [k + 1] fetches, [k] sleeps, one download, and nothing after it. *)
Theorem get_model_response_found_after (k : nat) (body : list byte) (w : World) :
  (forall i, i < k -> s3_get_object_answer env (w_gets w + i) = inl NoSuchKey) ->
  s3_get_object_answer env (w_gets w + k) = inr tt ->
  s3_download_answer env (w_downloads w) = inr body ->
  exists w',
    run env (get_model_response urlparse response_location) w ≈ Ret (w', inr true)
    /\ w_log w' = w_log w ++ waiting_log bucket key k
                  ++ [AGetObject bucket key; ADownload bucket key RESPONSE_PAYLOAD;
                      APrint "Model response received."]
    /\ w_gets w' = w_gets w + k + 1
    /\ w_downloads w' = w_downloads w + 1
    /\ w_fs w' = <[RESPONSE_PAYLOAD := body]> (w_fs w).
Proof.
  intros Hnf Hok Hdl. exists (found bucket key body (waited bucket key k w)).
  split; [|split; [|split; [|split]]].
  - apply euttge_sub_eutt. unfold get_model_response. fold bucket key.
    rewrite (run_poll_waits env bucket key k w Hnf).
    apply run_iter_done, poll_once_found.
    + rewrite waited_gets. exact Hok.
    + rewrite waited_downloads. exact Hdl.
  - cbn. rewrite waited_log, <- !app_assoc. reflexivity.
  - cbn. rewrite waited_gets. lia.
  - cbn. rewrite waited_downloads. lia.
  - cbn. rewrite waited_fs. reflexivity.
Qed.

(** C4: when a fetch is answered with an error other than [NoSuchKey] (after
    [k] fruitless attempts, [k = 0] being the first call), the poller raises
    that very error at once: the failing fetch is the last call it makes, no
    sleep and no further fetch follow it, nothing is downloaded. *)
Theorem get_model_response_fails_at_once (k : nat) (e : exn) (w : World) :
  (forall i, i < k -> s3_get_object_answer env (w_gets w + i) = inl NoSuchKey) ->
  s3_get_object_answer env (w_gets w + k) = inl e ->
  is_no_such_key e = false ->
  exists w',
    run env (get_model_response urlparse response_location) w ≈ Ret (w', inl e)
    /\ w_log w' = w_log w ++ waiting_log bucket key k ++ [AGetObject bucket key]
    /\ w_gets w' = w_gets w + k + 1
    /\ w_downloads w' = w_downloads w
    /\ w_fs w' = w_fs w.
Proof.
  intros Hnf Herr Hne. exists (fetch_failed bucket key (waited bucket key k w)).
  split; [|split; [|split; [|split]]].
  - apply euttge_sub_eutt. unfold get_model_response. fold bucket key.
    rewrite (run_poll_waits env bucket key k w Hnf).
    apply run_iter_done, poll_once_fetch_error; [|exact Hne].
    rewrite waited_gets. exact Herr.
  - cbn. rewrite waited_log, <- !app_assoc. reflexivity.
  - cbn. rewrite waited_gets. lia.
  - cbn. apply waited_downloads.
  - cbn. apply waited_fs.
Qed.

Lemma get_model_response_spins :
  forall w : World,
    (forall i, s3_get_object_answer env (w_gets w + i) = inl NoSuchKey) ->
    run env (get_model_response urlparse response_location) w ≈ ITree.spin.
Proof.
  unfold get_model_response. fold bucket key.
  einit. ecofix CIH. intros w Hnf.
  rewrite unfold_iter.
  assert (run env (poll_once bucket key) w ≳ Ret (wait_once bucket key w, inl tt)) as Hb.
  { apply poll_once_not_found. rewrite <- (Nat.add_0_r (w_gets w)). apply Hnf. }
  rewrite (run_bind _ _ _ _ _ Hb). cbn [fst snd].
  rewrite interp_state_tau, spin_unfold.
  etau. ebase. right. apply CIHL. intros i.
  replace (w_gets (wait_once bucket key w) + i) with (w_gets w + S i) by (cbn; lia).
  apply Hnf.
Qed.

(** C5: the loop has no bound on time or attempts.  When every fetch is
    answered [NoSuchKey], the run of the poller is a silent divergence: it
    never returns and never raises, so no outcome, a timeout or other, is
    ever produced.  Hence a run that does end has met a fetch answered
    otherwise (with the object, or with another error). *)
Theorem get_model_response_unbounded (w : World) :
  ((forall i, s3_get_object_answer env (w_gets w + i) = inl NoSuchKey) ->
   run env (get_model_response urlparse response_location) w ≈ ITree.spin
   /\ forall w' r, ~ run env (get_model_response urlparse response_location) w ≈ Ret (w', r))
  /\ (forall w' r,
        run env (get_model_response urlparse response_location) w ≈ Ret (w', r) ->
        exists i, s3_get_object_answer env (w_gets w + i) <> inl NoSuchKey).
Proof.
  assert (forall w' r,
            (forall i, s3_get_object_answer env (w_gets w + i) = inl NoSuchKey) ->
            ~ run env (get_model_response urlparse response_location) w ≈ Ret (w', r)) as Hno.
  { intros w' r Hnf Hret. rewrite (get_model_response_spins w Hnf) in Hret.
    exact (eutt_spin_Ret_abs _ Hret). }
  split.
  - intros Hnf. split; [apply get_model_response_spins, Hnf|].
    intros w' r. apply Hno, Hnf.
  - intros w' r Hret. apply Classical_Pred_Type.not_all_not_ex. intros Hall.
    apply (Hno w' r); [|exact Hret].
    intros i. apply Classical_Prop.NNPP, Hall.
Qed.

End PollerRuns.

Lemma get_model_response_found_after_witness :
  exists w',
    run (env_found_at_third (list_byte_of_string "{}"))
      (get_model_response PyModel.urlparse result_location) empty_world
    ≈ Ret (w', inr true)
    /\ w_log w' = [] ++ waiting_log "bucket" result_key 2
                  ++ [AGetObject "bucket" result_key;
                      ADownload "bucket" result_key RESPONSE_PAYLOAD;
                      APrint "Model response received."]
    /\ w_gets w' = 0 + 2 + 1
    /\ w_downloads w' = 0 + 1
    /\ w_fs w' = <[RESPONSE_PAYLOAD := list_byte_of_string "{}"]> ∅.
Proof.
  apply (get_model_response_found_after (env_found_at_third (list_byte_of_string "{}"))
           PyModel.urlparse result_location 2 (list_byte_of_string "{}") empty_world).
  - intros i Hi. destruct i as [|[|i]]; [reflexivity | reflexivity | lia].
  - reflexivity.
  - reflexivity.
Defined.

Lemma get_model_response_fails_at_once_witness :
  exists w',
    run env_access_denied (get_model_response PyModel.urlparse result_location) empty_world
    ≈ Ret (w', inl (ClientError "AccessDenied"))
    /\ w_log w' = [] ++ waiting_log "bucket" result_key 0 ++ [AGetObject "bucket" result_key]
    /\ w_gets w' = 0 + 0 + 1
    /\ w_downloads w' = 0
    /\ w_fs w' = ∅.
Proof.
  apply (get_model_response_fails_at_once env_access_denied PyModel.urlparse result_location
           0 (ClientError "AccessDenied") empty_world).
  - intros i Hi. lia.
  - reflexivity.
  - reflexivity.
Defined.

Lemma get_model_response_unbounded_witness :
  run quiet_env (get_model_response PyModel.urlparse result_location) empty_world ≈ ITree.spin
  /\ forall w' r,
       ~ run quiet_env (get_model_response PyModel.urlparse result_location) empty_world
         ≈ Ret (w', r).
Proof.
  apply (get_model_response_unbounded quiet_env PyModel.urlparse result_location empty_world).
  intros i. reflexivity.
Defined.

(** ** What the encoder is given *)

Lemma In_insert_by_name {A} (x y : string * A) (l : list (string * A)) :
  In y (insert_by_name x l) <-> y = x \/ In y l.
Proof.
  induction l as [|z l IH]; cbn.
  - intuition congruence.
  - destruct (String.leb (fst x) (fst z)); cbn; [intuition congruence|].
    rewrite IH. intuition congruence.
Qed.

Lemma In_sort_by_name {A} (y : string * A) (l : list (string * A)) :
  In y (sort_by_name l) <-> In y l.
Proof.
  induction l as [|x l IH]; cbn; [reflexivity|].
  rewrite In_insert_by_name, IH. intuition congruence.
Qed.

Lemma In_glob (pattern : string) (fs : gmap string (list byte)) (q : string) (c : list byte) :
  In (q, c) (glob pattern fs) <-> fs !! q = Some c /\ glob_match pattern q = true.
Proof.
  unfold glob. rewrite In_sort_by_name, filter_In, <- list_elem_of_In, elem_of_map_to_list.
  reflexivity.
Qed.

Section Encoder.
Variable env : Env.
Variable decodebytes : list byte -> result (list byte).

(** Whatever the entries are, writing them ends, and touches nothing but
    the files named for them. *)
Lemma for_enumerate_save_frame (items : list pyval) :
  forall (start : nat) (w : World),
  exists w' r,
    run env (for_enumerate start items (save_video_frame decodebytes)) w ≳ Ret (w', r)
    /\ (forall q, (forall j, j < length items -> q <> frame_name (start + j)) ->
                  w_fs w' !! q = w_fs w !! q)
    /\ (forall q, is_Some (w_fs w !! q) -> is_Some (w_fs w' !! q))
    /\ w_log w' = w_log w
    /\ w_session w' = w_session w.
Proof.
  induction items as [|v items IH]; intros start w; cbn [for_enumerate].
  - exists w, (inr tt). split; [apply run_ret|]. auto.
  - destruct (decode_frame decodebytes v) as [e|d] eqn:Hv.
    + exists (set_fs (frame_opened start v) w), (inl e). split.
      { rewrite run_pbind_raise by (apply save_video_frame_raises, Hv). reflexivity. }
      cbn [set_fs w_fs w_log w_session]. unfold frame_opened.
      split; [|split; [|split; reflexivity]].
      * intros q Hq. destruct (bytes_raw_unicode_escape v); [reflexivity|].
        apply lookup_insert_ne. intros Heq. apply (Hq 0); [cbn; lia|].
        rewrite Nat.add_0_r. symmetry. exact Heq.
      * intros q Hq. destruct (bytes_raw_unicode_escape v); [exact Hq|].
        destruct (decide (frame_name start = q)) as [->|Hne].
        -- rewrite lookup_insert_eq. eauto.
        -- rewrite lookup_insert_ne by exact Hne. exact Hq.
    + destruct (IH (S start) (set_fs (insert (frame_name start) d) w))
        as (w' & r & Hrun & Hother & Hkeep & Hlog & Hss).
      exists w', r. split.
      { rewrite run_pbind_ok by (apply save_video_frame_ok, Hv). exact Hrun. }
      cbn [set_fs w_fs w_log w_session] in *.
      split; [|split; [|split; assumption]].
      * intros q Hq. rewrite Hother.
        -- apply lookup_insert_ne. intros Heq. apply (Hq 0); [cbn; lia|].
           rewrite Nat.add_0_r. symmetry. exact Heq.
        -- intros j Hj. rewrite Nat.add_succ_comm. apply Hq. cbn. lia.
      * intros q Hq. apply Hkeep.
        destruct (decide (frame_name start = q)) as [->|Hne].
        -- rewrite lookup_insert_eq. eauto.
        -- rewrite lookup_insert_ne by exact Hne. exact Hq.
Qed.

Lemma run_convert_frames_to_video (video_path : string) (fps : pyval) (w : World) :
  w_session w !! "fps" = Some fps ->
  exists w' r,
    run env (convert_frames_to_video video_path) w ≳ Ret (w', r)
    /\ w_log w' = w_log w ++ [AFFmpeg (glob "frames_out/*.jpg" (w_fs w)) fps video_path
                                output_options].
Proof.
  intros Hfps. unfold convert_frames_to_video.
  destruct (step env (FFmpegRun "frames_out/*.jpg" fps video_path output_options) w)
    as [w' r] eqn:Hstep.
  exists w', r. split.
  - rewrite run_pbind_ok by (apply run_ss_getitem, Hfps).
    rewrite run_call, Hstep. reflexivity.
  - cbn [step] in Hstep.
    destruct (glob "frames_out/*.jpg" (w_fs w));
      [injection Hstep as <- _; destruct (ffmpeg_partial env _ _ _); reflexivity|].
    destruct (ffmpeg_encode env _ _ _); injection Hstep as <- _;
      try destruct (ffmpeg_partial env _ _ _); reflexivity.
Qed.

End Encoder.

Section Leftover.
Variable env : Env.
Variable decodebytes : list byte -> result (list byte).

(** C10: writing the frames of [video_frames] ends having changed no file
    but those named for its entries 1..N, and having removed none; the
    encoder is handed every file that matches [frames_out/*.jpg], and only
    those.  So a matching file [p] that is not named for one of the N
    entries (left by an earlier run with more frames) still has its old
    content after the write step and is among the encoder's inputs, also
    when the write step and the encoder run in sequence as [main] has them. *)
Theorem leftover_frame_file_is_encoded (video_frames : pyval) (items : list pyval)
    (video_path p : string) (content : list byte) (fps : pyval) (w : World) :
  py_iter video_frames = inr items ->
  w_fs w !! p = Some content ->
  glob_match "frames_out/*.jpg" p = true ->
  (forall j, j < length items -> p <> frame_name j) ->
  w_session w !! "fps" = Some fps ->
  exists w1 r1,
    run env (save_video_frames decodebytes video_frames) w ≈ Ret (w1, r1)
    /\ (forall q, (forall j, j < length items -> q <> frame_name j) ->
                  w_fs w1 !! q = w_fs w !! q)
    /\ (forall q, is_Some (w_fs w !! q) -> is_Some (w_fs w1 !! q))
    /\ w_fs w1 !! p = Some content
    /\ exists w2 r2 inputs,
         run env (convert_frames_to_video video_path) w1 ≈ Ret (w2, r2)
         /\ (r1 = inr tt ->
             run env (pbind (save_video_frames decodebytes video_frames)
                        (fun _ => convert_frames_to_video video_path)) w ≈ Ret (w2, r2))
         /\ w_log w2 = w_log w1 ++ [AFFmpeg inputs fps video_path output_options]
         /\ (forall q c, In (q, c) inputs
                         <-> w_fs w1 !! q = Some c /\ glob_match "frames_out/*.jpg" q = true)
         /\ In (p, content) inputs.
Proof.
  intros Hit Hp Hglob Hfresh Hfps.
  destruct (for_enumerate_save_frame env decodebytes items 0 w)
    as (w1 & r1 & Hrun & Hother & Hkeep & Hlog & Hss).
  assert (run env (save_video_frames decodebytes video_frames) w ≳ Ret (w1, r1)) as Hsave.
  { unfold save_video_frames. rewrite Hit.
    rewrite run_pbind_ok by apply run_lift. exact Hrun. }
  assert (w_fs w1 !! p = Some content) as Hp1.
  { rewrite Hother; [exact Hp|]. intros j Hj. apply Hfresh, Hj. }
  exists w1, r1. split; [apply euttge_sub_eutt, Hsave|].
  split; [exact Hother|]. split; [exact Hkeep|]. split; [exact Hp1|].
  destruct (run_convert_frames_to_video env video_path fps w1) as (w2 & r2 & Hconv & Hlog2).
  { rewrite Hss. exact Hfps. }
  exists w2, r2, (glob "frames_out/*.jpg" (w_fs w1)).
  split; [apply euttge_sub_eutt, Hconv|].
  split.
  { intros ->. apply euttge_sub_eutt. rewrite run_pbind_ok by exact Hsave. exact Hconv. }
  split; [exact Hlog2|]. split.
  - intros q c. apply In_glob.
  - apply In_glob. split; [exact Hp1 | exact Hglob].
Qed.

End Leftover.

Lemma leftover_frame_file_is_encoded_witness :
  exists w1 r1,
    run quiet_env
      (save_video_frames Base64.a2b_base64 (PyList [PyStr "QUJD"; PyStr "QUI="]))
      world_with_leftover ≈ Ret (w1, r1)
    /\ (forall q, (forall j, j < 2 -> q <> frame_name j) ->
                  w_fs w1 !! q = w_fs world_with_leftover !! q)
    /\ (forall q, is_Some (w_fs world_with_leftover !! q) -> is_Some (w_fs w1 !! q))
    /\ w_fs w1 !! "frames_out/frame_30.jpg" = Some (list_byte_of_string "old frame 30")
    /\ exists w2 r2 inputs,
         run quiet_env (convert_frames_to_video "video_out/demo.mp4") w1 ≈ Ret (w2, r2)
         /\ (r1 = inr tt ->
             run quiet_env
               (pbind (save_video_frames Base64.a2b_base64 (PyList [PyStr "QUJD"; PyStr "QUI="]))
                  (fun _ => convert_frames_to_video "video_out/demo.mp4"))
               world_with_leftover ≈ Ret (w2, r2))
         /\ w_log w2 = w_log w1 ++ [AFFmpeg inputs (PyInt 6) "video_out/demo.mp4" output_options]
         /\ (forall q c, In (q, c) inputs
                         <-> w_fs w1 !! q = Some c /\ glob_match "frames_out/*.jpg" q = true)
         /\ In ("frames_out/frame_30.jpg", list_byte_of_string "old frame 30") inputs.
Proof.
  apply (leftover_frame_file_is_encoded quiet_env Base64.a2b_base64
           (PyList [PyStr "QUJD"; PyStr "QUI="]) [PyStr "QUJD"; PyStr "QUI="]
           "video_out/demo.mp4" "frames_out/frame_30.jpg"
           (list_byte_of_string "old frame 30") (PyInt 6) world_with_leftover).
  - reflexivity.
  - vm_compute. reflexivity.
  - reflexivity.
  - intros j Hj. destruct j as [|[|j]]; [vm_compute; discriminate | vm_compute; discriminate | cbn in Hj; lia].
  - vm_compute. reflexivity.
Defined.

(** The same run carried out: three frames reach the encoder, the two new
    ones and the old thirtieth. *)
Example leftover_run :
  exists w2,
    run quiet_env
      (pbind (save_video_frames Base64.a2b_base64 (PyList [PyStr "QUJD"; PyStr "QUI="]))
         (fun _ => convert_frames_to_video "video_out/demo.mp4"))
      world_with_leftover ≈ Ret (w2, inr tt)
    /\ w_log w2
       = [AFFmpeg [("frames_out/frame_01.jpg", list_byte_of_string "ABC");
                   ("frames_out/frame_02.jpg", list_byte_of_string "AB");
                   ("frames_out/frame_30.jpg", list_byte_of_string "old frame 30")]
            (PyInt 6) "video_out/demo.mp4" output_options].
Proof.
  apply (exec_view quiet_env 100 _ world_with_leftover w_log). vm_compute. reflexivity.
Qed.

Example json_load_response :
  PyModel.json_load (response_bytes response_bad_second_frame) = inr response_bad_second_frame.
Proof. vm_compute. reflexivity. Qed.

Lemma assemble_video_without_frames_field_witness :
  exists e,
    run quiet_env (assemble_video PyModel.json_load Base64.a2b_base64 "video_out/demo.mp4")
      (world_with_response response_without_frames)
    ≈ Ret (world_with_response response_without_frames, inl e)
    /\ (e = KeyError "frames" \/ exists msg, e = TypeError msg).
Proof.
  apply (assemble_video_without_frames_field quiet_env PyModel.json_load Base64.a2b_base64
           "video_out/demo.mp4" (world_with_response response_without_frames)
           (response_bytes response_without_frames) response_without_frames).
  - vm_compute. reflexivity.
  - vm_compute. reflexivity.
  - reflexivity.
Defined.

Lemma assemble_video_undecodable_frame_witness :
  exists w',
    run quiet_env (assemble_video PyModel.json_load Base64.a2b_base64 "video_out/demo.mp4")
      (world_with_response response_bad_second_frame)
    ≈ Ret (w', inl (BinasciiError
                      "number of data characters cannot be 1 more than a multiple of 4"))
    /\ w' = set_fs (fun fs => frame_opened 1 (PyStr "A")
                                (frames_written 0 [list_byte_of_string "ABC"] fs))
              (world_with_response response_bad_second_frame)
    /\ w_log w' = w_log (world_with_response response_bad_second_frame)
    /\ (1 < 99 ->
        forall i d, [list_byte_of_string "ABC"] !! i = Some d ->
                    w_fs w' !! frame_name i = Some d)
    /\ (forall s, PyStr "A" = PyStr s -> w_fs w' !! frame_name 1 = Some []).
Proof.
  apply (assemble_video_undecodable_frame quiet_env PyModel.json_load Base64.a2b_base64
           "video_out/demo.mp4" (world_with_response response_bad_second_frame)
           (response_bytes response_bad_second_frame) response_bad_second_frame
           [PyStr "QUJD"] [list_byte_of_string "ABC"] (PyStr "A") [PyStr "QUJD"]
           (BinasciiError "number of data characters cannot be 1 more than a multiple of 4")).
  - vm_compute. reflexivity.
  - vm_compute. reflexivity.
  - reflexivity.
  - repeat constructor.
  - reflexivity.
Defined.

(** ** Runs of the whole script *)

(** C6: an image one byte over [MAX_FILE_SIZE] is uploaded and "Create
    Video" is pressed.  The script shows its "too large" error, and then
    runs the job all the same: the request is uploaded, the endpoint is
    invoked, the result is fetched and downloaded, the video is made. *)
Theorem main_oversized_upload_runs_job :
  exists w',
    run (env_create (sample_upload (MAX_FILE_SIZE + 1)) untouched_form) main_model empty_world
    ≈ Ret (w', inr tt)
    /\ (MAX_FILE_SIZE <? up_size (sample_upload (MAX_FILE_SIZE + 1)))%Z = true
    /\ nth 5 (w_log w') (APrint "")
       = AShow "error"
           "The uploaded file is too large. Please upload an image smaller than 5MB."
    /\ List.filter is_network_call (w_log w')
       = [ AUpload REQUEST_PAYLOAD S3_BUCKET "async_inference/input/payload.json"
             "application/json" (sample_request 1024 576 1.0 3.0);
           AInvoke ENDPOINT_NAME "s3://<YOUR_S3_BUCKET_NAME>/async_inference/input/payload.json"
             3600;
           AGetObject "bucket" result_key;
           ADownload "bucket" result_key RESPONSE_PAYLOAD ]
    /\ w_fs w' !! "video_out/None.mp4" = Some (list_byte_of_string "MP4").
Proof.
  destruct (exec_view (env_create (sample_upload (MAX_FILE_SIZE + 1)) untouched_form) 3000
              main_model empty_world
              (fun w' => (nth 5 (w_log w') (APrint ""),
                          List.filter is_network_call (w_log w'),
                          w_fs w' !! "video_out/None.mp4"))
              (inr tt)
              (AShow "error"
                 "The uploaded file is too large. Please upload an image smaller than 5MB.",
               [ AUpload REQUEST_PAYLOAD S3_BUCKET "async_inference/input/payload.json"
                   "application/json" (sample_request 1024 576 1.0 3.0);
                 AInvoke ENDPOINT_NAME
                   "s3://<YOUR_S3_BUCKET_NAME>/async_inference/input/payload.json" 3600;
                 AGetObject "bucket" result_key;
                 ADownload "bucket" result_key RESPONSE_PAYLOAD ],
               Some (list_byte_of_string "MP4")))
    as (w' & Hrun & Hview); [vm_compute; reflexivity|].
  injection Hview as H1 H2 H3. exists w'. split; [exact Hrun|].
  repeat split; assumption || reflexivity.
Qed.

(** The same with an image of a thousand bytes: the job runs in the same
    way, only without the error and with the image's size in the request. *)
Example main_small_upload_runs_job :
  exists w',
    run (env_create (sample_upload 1000) untouched_form) main_model empty_world
    ≈ Ret (w', inr tt)
    /\ List.filter is_network_call (w_log w')
       = [ AUpload REQUEST_PAYLOAD S3_BUCKET "async_inference/input/payload.json"
             "application/json" (sample_request 512 512 1.0 3.0);
           AInvoke ENDPOINT_NAME "s3://<YOUR_S3_BUCKET_NAME>/async_inference/input/payload.json"
             3600;
           AGetObject "bucket" result_key;
           ADownload "bucket" result_key RESPONSE_PAYLOAD ]
    /\ w_fs w' !! "video_out/cat.mp4" = Some (list_byte_of_string "MP4").
Proof.
  destruct (exec_view (env_create (sample_upload 1000) untouched_form) 3000
              main_model empty_world
              (fun w' => (List.filter is_network_call (w_log w'),
                          w_fs w' !! "video_out/cat.mp4"))
              (inr tt)
              ([ AUpload REQUEST_PAYLOAD S3_BUCKET "async_inference/input/payload.json"
                   "application/json" (sample_request 512 512 1.0 3.0);
                 AInvoke ENDPOINT_NAME
                   "s3://<YOUR_S3_BUCKET_NAME>/async_inference/input/payload.json" 3600;
                 AGetObject "bucket" result_key;
                 ADownload "bucket" result_key RESPONSE_PAYLOAD ],
               Some (list_byte_of_string "MP4")))
    as (w' & Hrun & Hview); [vm_compute; reflexivity|].
  injection Hview as H1 H2. exists w'. split; [exact Hrun|].
  repeat split; assumption.
Qed.


(** ** The request *)

Section Request.
Variable env : Env.
Variable float_repr : float -> string.

Lemma run_number_field (label key : string) (dflt : pyval) (w : World) :
  let x := default (default dflt (w_session w !! key)) (ui_number env label) in
  run env (number_field label key dflt) w ≳ Ret (set_session (insert key x) w, inr x).
Proof.
  cbn zeta. unfold number_field, ss_get, ss_setitem.
  rewrite run_pbind_ok by apply run_perform. cbn [step fst snd].
  rewrite run_pbind_ok by apply run_perform. cbn [step fst snd].
  rewrite run_pbind_ok by apply run_perform. cbn [step fst snd].
  apply run_ret.
Qed.

Lemma run_encode_image (image : Image) (jpeg : list byte) (w : World) :
  im_jpeg image = inr jpeg ->
  run env (encode_image image) w ≳ Ret (w, inr (string_of_list_byte (Base64.b64encode jpeg))).
Proof.
  intros Hj. unfold encode_image. rewrite Hj.
  rewrite run_pbind_ok by apply run_lift. apply run_ret.
Qed.

(** What [invoke_model] does up to and including the upload: it writes the
    document of the values the session holds to [REQUEST_PAYLOAD] and asks for
    its upload; [rest] is the submission to the endpoint, when the upload
    went through. *)
Lemma run_invoke_model (up : UploadedFile) (image : Image) (jpeg : list byte) (w : World)
    (width height num_frames num_inference_steps min_guidance_scale max_guidance_scale
     fps motion_bucket_id noise_aug_strength decode_chunk_size seed : pyval) :
  up_image up = inr image ->
  im_jpeg image = inr jpeg ->
  w_session w !! "width" = Some width ->
  w_session w !! "height" = Some height ->
  w_session w !! "num_frames" = Some num_frames ->
  w_session w !! "num_inference_steps" = Some num_inference_steps ->
  w_session w !! "min_guidance_scale" = Some min_guidance_scale ->
  w_session w !! "max_guidance_scale" = Some max_guidance_scale ->
  w_session w !! "fps" = Some fps ->
  w_session w !! "motion_bucket_id" = Some motion_bucket_id ->
  w_session w !! "noise_aug_strength" = Some noise_aug_strength ->
  w_session w !! "decode_chunk_size" = Some decode_chunk_size ->
  w_session w !! "seed" = Some seed ->
  exists w' r rest,
    let data := request_dict (string_of_list_byte (Base64.b64encode jpeg))
                  width height num_frames num_inference_steps min_guidance_scale
                  max_guidance_scale fps motion_bucket_id noise_aug_strength
                  decode_chunk_size seed in
    run env (invoke_model float_repr (Some up)) w ≈ Ret (w', r)
    /\ w_fs w' !! REQUEST_PAYLOAD = Some (Json.utf8 (Json.dumps float_repr data))
    /\ w_log w' = w_log w
                  ++ AUpload REQUEST_PAYLOAD S3_BUCKET "async_inference/input/payload.json"
                       "application/json" (Json.utf8 (Json.dumps float_repr data)) :: rest.
Proof.
  intros Him Hjpeg Hw Hh Hnf Hni Hmin Hmax Hfps Hmb Hna Hdc Hseed.
  set (data := request_dict (string_of_list_byte (Base64.b64encode jpeg))
                 width height num_frames num_inference_steps min_guidance_scale
                 max_guidance_scale fps motion_bucket_id noise_aug_strength
                 decode_chunk_size seed).
  set (body := Json.utf8 (Json.dumps float_repr data)).
  set (w1 := set_fs (insert REQUEST_PAYLOAD body) w).
  set (w2 := log (AUpload REQUEST_PAYLOAD S3_BUCKET "async_inference/input/payload.json"
                    "application/json" body) w1).
  assert (run env (invoke_model float_repr (Some up)) w
            ≳ run env (pbind (upload_file REQUEST_PAYLOAD)
                         (fun _ => call (SmInvokeEndpointAsync ENDPOINT_NAME
                            "s3://<YOUR_S3_BUCKET_NAME>/async_inference/input/payload.json"
                            3600))) w1) as Hprefix.
  { unfold invoke_model, image_open. rewrite Him.
    rewrite run_pbind_ok by apply run_lift.
    rewrite run_pbind_ok by (apply run_encode_image, Hjpeg).
    rewrite run_pbind_ok by (apply run_ss_getitem, Hw).
    rewrite run_pbind_ok by (apply run_ss_getitem, Hh).
    rewrite run_pbind_ok by (apply run_ss_getitem, Hnf).
    rewrite run_pbind_ok by (apply run_ss_getitem, Hni).
    rewrite run_pbind_ok by (apply run_ss_getitem, Hmin).
    rewrite run_pbind_ok by (apply run_ss_getitem, Hmax).
    rewrite run_pbind_ok by (apply run_ss_getitem, Hfps).
    rewrite run_pbind_ok by (apply run_ss_getitem, Hmb).
    rewrite run_pbind_ok by (apply run_ss_getitem, Hna).
    rewrite run_pbind_ok by (apply run_ss_getitem, Hdc).
    rewrite run_pbind_ok by (apply run_ss_getitem, Hseed).
    cbn zeta. fold data. fold body.
    rewrite run_pbind_ok by apply run_perform. cbn [step fst snd].
    rewrite run_pbind_ok by apply run_perform. cbn [step fst snd].
    rewrite set_fs_set_fs.
    erewrite (set_fs_ext _ (insert REQUEST_PAYLOAD body)); [reflexivity|].
    cbn [set_fs w_fs]. rewrite lookup_insert_eq. cbn. apply insert_insert_eq. }
  assert (w_fs w1 !! REQUEST_PAYLOAD = Some body) as Hfile
    by (cbn; apply lookup_insert_eq).
  assert (step env (S3UploadFile REQUEST_PAYLOAD S3_BUCKET
                      "async_inference/input/payload.json" "application/json") w1
          = (w2, s3_upload_answer env)) as Hup.
  { cbn [step]. rewrite Hfile. reflexivity. }
  destruct (s3_upload_answer env) as [e|[]] eqn:Hans.
  - exists w2, (inl e), []. cbn zeta. fold data. fold body.
    split; [|split; [exact Hfile|reflexivity]].
    apply euttge_sub_eutt. rewrite Hprefix.
    rewrite run_pbind_raise; [reflexivity|].
    unfold upload_file. rewrite run_call, Hup. reflexivity.
  - exists (log (AInvoke ENDPOINT_NAME
                   "s3://<YOUR_S3_BUCKET_NAME>/async_inference/input/payload.json" 3600) w2),
           (sm_invoke_answer env),
           [AInvoke ENDPOINT_NAME
              "s3://<YOUR_S3_BUCKET_NAME>/async_inference/input/payload.json" 3600].
    cbn zeta. fold data. fold body.
    split; [|split; [exact Hfile|]].
    + apply euttge_sub_eutt. rewrite Hprefix.
      rewrite run_pbind_ok; [|unfold upload_file; rewrite run_call, Hup; reflexivity].
      rewrite run_call. reflexivity.
    + cbn. rewrite <- app_assoc. reflexivity.
Qed.

End Request.

(** * The request document read back *)

Local Open Scope list_scope.

(** ** Strings *)

Lemma str_app_assoc (a b c : string) : ((a ++ b) ++ c = a ++ (b ++ c))%string.
Proof.
  induction a as [|x a IH]; [reflexivity|].
  change (String x ((a ++ b) ++ c) = String x (a ++ (b ++ c)))%string. f_equal. exact IH.
Qed.

Lemma str_app_nil_r (a : string) : (a ++ "" = a)%string.
Proof.
  induction a as [|x a IH]; [reflexivity|].
  change (String x (a ++ "") = String x a)%string. f_equal. exact IH.
Qed.

(** utf8 *)
Lemma utf8_decode_char (c : ascii) (b : list byte) :
  Json.utf8_decode (Json.utf8_char c ++ b)
  = match Json.utf8_decode b with Some s => Some (String c s) | None => None end.
Proof.
  destruct c as [[] [] [] [] [] [] [] []]; reflexivity.
Qed.

(** Reading a file with the UTF-8 codec gives the text that was written. *)
Lemma utf8_decode_utf8 (s : string) : Json.utf8_decode (Json.utf8 s) = Some s.
Proof.
  unfold Json.utf8. induction s as [|c s IH]; [reflexivity|].
  cbn [list_ascii_of_string flat_map]. rewrite utf8_decode_char, IH. reflexivity.
Qed.

(** ** String literals *)

(** [scanstring] undoes one escaped character. *)
Lemma scanstring_escape_char (c : ascii) (t : string) :
  Json.scanstring (Json.escape_char c ++ t)%string
  = match Json.scanstring t with Some (x, r) => Some (String c x, r) | None => None end.
Proof.
  destruct c as [[] [] [] [] [] [] [] []]; reflexivity.
Qed.

(** [scanstring] reads back what [encode_basestring] wrote, up to the
    closing quote. *)
Lemma scanstring_escape (s rest : string) :
  Json.scanstring (Json.escape s ++ Json.dquote ++ rest)%string = Some (s, rest).
Proof.
  induction s as [|c s IH]; [reflexivity|].
  cbn [Json.escape]. rewrite str_app_assoc, scanstring_escape_char, IH. reflexivity.
Qed.

(** numbers *)
Lemma span_digits_app (d rest : string) :
  all_digits d = true ->
  match rest with String c _ => Json.is_digit c = false | EmptyString => True end ->
  Json.span_digits (d ++ rest)%string = (d, rest).
Proof.
  intros Hd Hrest. induction d as [|c d IH].
  - change (Json.span_digits rest = ("", rest)). destruct rest as [|c r]; [reflexivity|].
    cbn [Json.span_digits]. rewrite Hrest. reflexivity.
  - change (Json.span_digits (String c (d ++ rest)) = (String c d, rest)).
    unfold all_digits in Hd. cbn [list_ascii_of_string forallb] in Hd.
    apply andb_prop in Hd as [Hc Hd]. cbn [Json.span_digits]. rewrite Hc, (IH Hd). reflexivity.
Qed.

(** ** Integer literals *)

(** [pretty] puts the digits of a number before its accumulator. *)
Lemma pretty_N_go_app (x : N) : forall s : string, pretty_N_go x s = (pretty_N_go x "" ++ s)%string.
Proof.
  induction (N.lt_wf_0 x) as [x _ IH]. intros s.
  destruct (decide (x = 0)%N) as [->|Hx]; [reflexivity|].
  assert (x `div` 10 < x)%N as Hlt by (apply N.div_lt; lia).
  rewrite !(pretty_N_go_step x) by lia.
  rewrite (IH _ Hlt (String _ s)), (IH _ Hlt (String _ "")).
  rewrite str_app_assoc. reflexivity.
Qed.

Lemma pretty_N_char_digit (d : N) :
  (d < 10)%N ->
  Json.is_digit (pretty_N_char d) = true
  /\ (Z.of_N (N_of_ascii (pretty_N_char d)) - 48 = Z.of_N d)%Z
  /\ (d <> 0%N -> pretty_N_char d <> "0"%char).
Proof.
  intros Hd.
  assert (d = 0 \/ d = 1 \/ d = 2 \/ d = 3 \/ d = 4 \/ d = 5 \/ d = 6 \/ d = 7 \/ d = 8
          \/ d = 9)%N as Hcases by lia.
  repeat (destruct Hcases as [->|Hcases]); try subst d;
    (split; [reflexivity|split; [reflexivity|]]); intros H; try discriminate; congruence.
Qed.

(** The text of a natural number is made of digits. *)
Lemma pretty_N_go_digits (x : N) :
  forall s, all_digits s = true -> all_digits (pretty_N_go x s) = true.
Proof.
  induction (N.lt_wf_0 x) as [x _ IH]. intros s Hs.
  destruct (decide (x = 0)%N) as [->|Hx]; [exact Hs|].
  rewrite pretty_N_go_step by lia. apply IH; [apply N.div_lt; lia|].
  unfold all_digits. cbn [list_ascii_of_string forallb].
  rewrite (proj1 (pretty_N_char_digit (x `mod` 10)%N ltac:(apply N.mod_lt; lia))).
  exact Hs.
Qed.

Lemma digits_value_app (u t : string) : forall a : Z,
  Json.digits_value a (u ++ t)%string = Json.digits_value (Json.digits_value a u) t.
Proof.
  induction u as [|c u IH]; intros a; [reflexivity|].
  change (Json.digits_value a (String c (u ++ t))
          = Json.digits_value (Json.digits_value a (String c u)) t).
  cbn [Json.digits_value]. apply IH.
Qed.

(** Reading the digits of a natural number gives the number. *)
Lemma digits_value_pretty (x : N) : Json.digits_value 0 (pretty_N_go x "") = Z.of_N x.
Proof.
  induction (N.lt_wf_0 x) as [x _ IH].
  destruct (decide (x = 0)%N) as [->|Hx]; [reflexivity|].
  rewrite pretty_N_go_step, pretty_N_go_app, digits_value_app by lia.
  rewrite IH by (apply N.div_lt; lia). cbn [Json.digits_value].
  destruct (pretty_N_char_digit (x `mod` 10)%N ltac:(apply N.mod_lt; lia)) as (_ & Hv & _).
  pose proof (N.div_mod x 10 ltac:(lia)) as Hdm. lia.
Qed.

(** The text of a natural number starts with a digit, and with [0] only
    when that is all of it. *)
Lemma pretty_N_go_head (x : N) : forall s,
  (0 < x)%N ->
  exists c r, pretty_N_go x s = String c r /\ c <> "0"%char /\ Json.is_digit c = true.
Proof.
  induction (N.lt_wf_0 x) as [x _ IH]. intros s Hx.
  rewrite pretty_N_go_step by lia.
  destruct (decide (x `div` 10 = 0)%N) as [Hz|Hnz].
  - rewrite Hz. cbn. eexists _, _. split; [reflexivity|].
    assert (x `mod` 10 <> 0)%N as Hm.
    { pose proof (N.div_mod x 10 ltac:(lia)) as Hdm. rewrite Hz in Hdm. lia. }
    destruct (pretty_N_char_digit (x `mod` 10)%N ltac:(apply N.mod_lt; lia)) as (Hd & _ & Hne).
    split; [apply Hne, Hm | exact Hd].
  - apply IH; [apply N.div_lt; lia | apply N.neq_0_lt_0, Hnz].
Qed.


(** ** The number scanner and what follows a number *)

Lemma delimited_nondigit (rest : string) :
  delimited rest = true ->
  match rest with String c _ => Json.is_digit c = false | EmptyString => True end.
Proof.
  destruct rest as [|c r]; [trivial|]. cbn [delimited]. intros H.
  destruct (Json.is_digit c); [discriminate|reflexivity].
Qed.

Lemma span_digits_app_gen (u rest : string) :
  match rest with String c _ => Json.is_digit c = false | EmptyString => True end ->
  Json.span_digits (u ++ rest)%string
  = (fst (Json.span_digits u), (snd (Json.span_digits u) ++ rest)%string).
Proof.
  intros Hrest. induction u as [|c u IH].
  - change (Json.span_digits rest = ("", rest)). destruct rest as [|c r]; [reflexivity|].
    cbn [Json.span_digits]. rewrite Hrest. reflexivity.
  - change (Json.span_digits (String c (u ++ rest))
            = (fst (Json.span_digits (String c u)),
               (snd (Json.span_digits (String c u)) ++ rest)%string)).
    cbn [Json.span_digits]. destruct (Json.is_digit c); [|reflexivity].
    rewrite IH. destruct (Json.span_digits u). reflexivity.
Qed.

Lemma split_frac_app (s rest : string) :
  delimited rest = true ->
  Json.split_frac (s ++ rest)%string
  = (fst (Json.split_frac s), (snd (Json.split_frac s) ++ rest)%string).
Proof.
  intros Hd. pose proof (delimited_nondigit rest Hd) as Hnd. destruct s as [|c r].
  - change (Json.split_frac rest = ("", rest)). destruct rest as [|c r]; [reflexivity|].
    cbn [delimited] in Hd. cbn [Json.split_frac].
    destruct (Ascii.eqb c "."); [|reflexivity].
    rewrite !andb_false_r, ?andb_false_l in Hd. cbn in Hd.
    destruct (Json.is_digit c); discriminate.
  - change (Json.split_frac (String c (r ++ rest))
            = (fst (Json.split_frac (String c r)),
               (snd (Json.split_frac (String c r)) ++ rest)%string)).
    cbn [Json.split_frac]. destruct (Ascii.eqb c "."); [|reflexivity].
    rewrite (span_digits_app_gen r rest Hnd).
    destruct (Json.span_digits r) as [[|d0 d] r']; reflexivity.
Qed.

Lemma split_exp_app (s rest : string) :
  delimited rest = true ->
  Json.split_exp (s ++ rest)%string
  = (fst (Json.split_exp s), (snd (Json.split_exp s) ++ rest)%string).
Proof.
  intros Hd. pose proof (delimited_nondigit rest Hd) as Hnd. destruct s as [|e r].
  - change (Json.split_exp rest = ("", rest)). destruct rest as [|c r]; [reflexivity|].
    cbn [delimited] in Hd. cbn [Json.split_exp].
    destruct (Ascii.eqb c "e"), (Ascii.eqb c "E"); try reflexivity;
      destruct (Json.is_digit c), (Ascii.eqb c "."); discriminate.
  - change (Json.split_exp (String e (r ++ rest))
            = (fst (Json.split_exp (String e r)),
               (snd (Json.split_exp (String e r)) ++ rest)%string)).
    cbn [Json.split_exp]. destruct (Ascii.eqb e "e" || Ascii.eqb e "E"); [|reflexivity].
    destruct r as [|c r'].
    + change (("" ++ rest)%string) with rest.
      assert (Json.span_digits rest = ("", rest)) as Hs.
      { rewrite <- (span_digits_app_gen "" rest Hnd) at 1. reflexivity. }
      destruct rest as [|c r]; [reflexivity|].
      cbn [delimited] in Hd.
      destruct (Ascii.eqb c "-") eqn:Hm, (Ascii.eqb c "+") eqn:Hp; cbn [orb];
        try (rewrite ?andb_false_r in Hd; discriminate).
      cbv beta iota zeta. rewrite Hs. reflexivity.
    + change ((String c r' ++ rest)%string) with (String c (r' ++ rest)).
      cbv beta iota.
      destruct (Ascii.eqb c "-"), (Ascii.eqb c "+"); cbn [orb]; cbv beta iota zeta;
        try (rewrite (span_digits_app_gen r' rest Hnd);
             destruct (Json.span_digits r') as [[|d0 d] r'']; reflexivity).
      change (String c (r' ++ rest)) with ((String c r' ++ rest)%string).
      rewrite (span_digits_app_gen (String c r') rest Hnd).
      destruct (Json.span_digits (String c r')) as [[|d0 d] r'']; reflexivity.
Qed.

(** A number literal is split the same way when a delimited rest follows. *)
Lemma split_number_app (s rest sg ip fr ex r : string) :
  delimited rest = true ->
  Json.split_number s = Some (sg, ip, fr, ex, r) ->
  Json.split_number (s ++ rest)%string = Some (sg, ip, fr, ex, (r ++ rest)%string).
Proof.
  intros Hd. pose proof (delimited_nondigit rest Hd) as Hnd.
  unfold Json.split_number.
  assert (forall s1, Json.split_integer s1 = (fst (Json.split_integer s1), snd (Json.split_integer s1))
          -> forall ip0 s2, Json.split_integer s1 = (ip0, s2) -> ip0 <> ""%string ->
             Json.split_integer (s1 ++ rest)%string = (ip0, (s2 ++ rest)%string)) as Hint.
  { intros s1 _ ip0 s2 Hs1 Hne. destruct s1 as [|c r1].
    - cbn in Hs1. injection Hs1 as <- _. congruence.
    - change (Json.split_integer (String c (r1 ++ rest)) = (ip0, (s2 ++ rest)%string)).
      cbn [Json.split_integer] in *. destruct (Ascii.eqb c "0").
      + injection Hs1 as <- <-. reflexivity.
      + change (String c (r1 ++ rest)) with ((String c r1 ++ rest)%string).
        rewrite (span_digits_app_gen _ rest Hnd), Hs1. reflexivity. }
  destruct s as [|c s'].
  - cbn. discriminate.
  - change ((String c s' ++ rest)%string) with (String c (s' ++ rest)).
    cbn [Json.split_sign]. destruct (Ascii.eqb c "-").
    + destruct (Json.split_integer s') as [ip0 s2] eqn:Hi.
      destruct ip0 as [|i0 ip0]; [discriminate|].
      rewrite (Hint s' ltac:(destruct (Json.split_integer s'); reflexivity) _ _ Hi ltac:(discriminate)).
      rewrite (split_frac_app s2 rest Hd).
      destruct (Json.split_frac s2) as [fr0 s3]. cbn [fst snd].
      rewrite (split_exp_app s3 rest Hd).
      destruct (Json.split_exp s3) as [ex0 s4]. cbn [fst snd].
      intros H. injection H as <- <- <- <- <-. reflexivity.
    + destruct (Json.split_integer (String c s')) as [ip0 s2] eqn:Hi.
      destruct ip0 as [|i0 ip0]; [discriminate|].
      change (String c (s' ++ rest)) with ((String c s' ++ rest)%string).
      rewrite (Hint (String c s') ltac:(destruct (Json.split_integer _); reflexivity) _ _ Hi ltac:(discriminate)).
      rewrite (split_frac_app s2 rest Hd).
      destruct (Json.split_frac s2) as [fr0 s3]. cbn [fst snd].
      rewrite (split_exp_app s3 rest Hd).
      destruct (Json.split_exp s3) as [ex0 s4]. cbn [fst snd].
      intros H. injection H as <- <- <- <- <-. reflexivity.
Qed.

Lemma span_digits_concat (s : string) :
  s = (fst (Json.span_digits s) ++ snd (Json.span_digits s))%string.
Proof.
  induction s as [|c s IH]; [reflexivity|].
  cbn [Json.span_digits]. destruct (Json.is_digit c); [|reflexivity].
  destruct (Json.span_digits s) as [d r]. cbn [fst snd] in *.
  change (String c s = String c (d ++ r)%string). f_equal. exact IH.
Qed.

Lemma split_frac_concat (s : string) :
  s = (fst (Json.split_frac s) ++ snd (Json.split_frac s))%string.
Proof.
  destruct s as [|c r]; [reflexivity|]. cbn [Json.split_frac].
  destruct (Ascii.eqb c "."); [|reflexivity].
  pose proof (span_digits_concat r) as Hr.
  destruct (Json.span_digits r) as [[|d0 d] r']; [reflexivity|].
  cbn [fst snd] in *. change (String c r = String c (String d0 d ++ r')%string).
  f_equal. exact Hr.
Qed.

Lemma split_exp_concat (s : string) :
  s = (fst (Json.split_exp s) ++ snd (Json.split_exp s))%string.
Proof.
  destruct s as [|e r]; [reflexivity|]. cbn [Json.split_exp].
  destruct (Ascii.eqb e "e" || Ascii.eqb e "E"); [|reflexivity].
  destruct r as [|c r'].
  - reflexivity.
  - cbv beta iota. destruct (Ascii.eqb c "-" || Ascii.eqb c "+"); cbv beta iota zeta.
    + pose proof (span_digits_concat r') as Hr.
      destruct (Json.span_digits r') as [[|d0 d] r'']; [reflexivity|].
      cbn [fst snd] in *.
      change (String e (String c r') = String e (String c (String d0 d ++ r'')%string)).
      do 2 f_equal. exact Hr.
    + pose proof (span_digits_concat (String c r')) as Hr.
      destruct (Json.span_digits (String c r')) as [[|d0 d] r'']; [reflexivity|].
      cbn [fst snd] in *.
      change (String e (String c r') = String e (String d0 d ++ r'')%string).
      f_equal. exact Hr.
Qed.

Lemma split_integer_concat (s : string) :
  s = (fst (Json.split_integer s) ++ snd (Json.split_integer s))%string.
Proof.
  destruct s as [|c r]; [reflexivity|]. cbn [Json.split_integer].
  destruct (Ascii.eqb c "0") eqn:Hc.
  - apply Ascii.eqb_eq in Hc as ->. reflexivity.
  - apply span_digits_concat.
Qed.

Lemma split_integer_head (s ip s2 : string) :
  Json.split_integer s = (ip, s2) -> ip <> ""%string ->
  exists c r, s = String c r /\ Json.is_digit c = true.
Proof.
  destruct s as [|c r]; cbn [Json.split_integer].
  - intros [= <- _] Hne. congruence.
  - destruct (Ascii.eqb c "0") eqn:Hc.
    + apply Ascii.eqb_eq in Hc as ->. intros _ _. eexists _, _. split; reflexivity.
    + cbn [Json.span_digits]. destruct (Json.is_digit c) eqn:Hd.
      * intros _ _. eexists _, _. split; [reflexivity | exact Hd].
      * intros [= <- _] Hne. congruence.
Qed.

(** The parts of a split number, put together, are the text; and the text
    starts with a digit or with a minus sign. *)
Lemma split_number_concat (s sg ip fr ex r : string) :
  Json.split_number s = Some (sg, ip, fr, ex, r) ->
  s = (sg ++ ip ++ fr ++ ex ++ r)%string
  /\ ((exists c t, s = String c t /\ Json.is_digit c = true)
      \/ (exists c t, s = String "-" (String c t) /\ Json.is_digit c = true)).
Proof.
  unfold Json.split_number.
  destruct (Json.split_sign s) as [sg0 s1] eqn:Hsg.
  destruct (Json.split_integer s1) as [ip0 s2] eqn:Hip.
  destruct ip0 as [|i0 ip0]; [discriminate|].
  pose proof (split_integer_concat s1) as H1. rewrite Hip in H1. cbn [fst snd] in H1.
  pose proof (split_frac_concat s2) as H2.
  destruct (Json.split_frac s2) as [fr0 s3]. cbn [fst snd] in H2.
  pose proof (split_exp_concat s3) as H3.
  destruct (Json.split_exp s3) as [ex0 s4]. cbn [fst snd] in H3.
  intros [= <- <- <- <- <-].
  destruct (split_integer_head s1 _ _ Hip ltac:(discriminate)) as (c & t & Hs1 & Hc).
  destruct s as [|c0 s']; cbn [Json.split_sign] in Hsg.
  - injection Hsg as <- <-. discriminate.
  - destruct (Ascii.eqb c0 "-") eqn:Hm.
    + apply Ascii.eqb_eq in Hm as ->. injection Hsg as <- <-. split.
      * change (String "-" s' = String "-" (String i0 ip0 ++ fr0 ++ ex0 ++ s4)%string).
        f_equal. rewrite H1 at 1. rewrite H2 at 1. rewrite H3 at 1. reflexivity.
      * right. exists c, t. split; [f_equal; exact Hs1 | exact Hc].
    + injection Hsg as <- <-. split.
      * change (String c0 s' = (String i0 ip0 ++ fr0 ++ ex0 ++ s4)%string).
        rewrite H1 at 1. rewrite H2 at 1. rewrite H3 at 1. reflexivity.
      * left. exists c, t. split; [exact Hs1 | exact Hc].
Qed.

Section Scan.
Variable float_of_string : string -> option float.

Lemma parse_value_digit (fuel : nat) (c : ascii) (r : string) :
  Json.is_digit c = true ->
  Json.parse_value float_of_string (S fuel) (String c r)
  = Json.scan_number float_of_string (String c r).
Proof.
  destruct c as [[] [] [] [] [] [] [] []]; intros H; try discriminate H; reflexivity.
Qed.

Lemma parse_value_minus (fuel : nat) (c : ascii) (r : string) :
  Json.is_digit c = true ->
  Json.parse_value float_of_string (S fuel) (String "-" (String c r))
  = Json.scan_number float_of_string (String "-" (String c r)).
Proof.
  destruct c as [[] [] [] [] [] [] [] []]; intros H; try discriminate H; reflexivity.
Qed.

Lemma parse_value_number (fuel : nat) (s sg ip fr ex r : string) :
  Json.split_number s = Some (sg, ip, fr, ex, r) ->
  Json.parse_value float_of_string (S fuel) s = Json.scan_number float_of_string s.
Proof.
  intros Hs. destruct (split_number_concat _ _ _ _ _ _ Hs) as [_ [(c & t & -> & Hc)|(c & t & -> & Hc)]].
  - apply parse_value_digit, Hc.
  - apply parse_value_minus, Hc.
Qed.

(** A float literal followed by a delimited rest is read as that float. *)
Lemma parse_value_float (fuel : nat) (s rest : string) (f : float) :
  Json.float_literal s = true ->
  float_of_string s = Some f ->
  delimited rest = true ->
  Json.parse_value float_of_string (S fuel) (s ++ rest)%string = Some (PyFloat f, rest).
Proof.
  unfold Json.float_literal. intros Hlit Hf Hd.
  destruct (Json.split_number s) as [[[[[sg ip] fr] ex] r]|] eqn:Hs; [|discriminate].
  destruct r; [|discriminate].
  pose proof (split_number_app s rest _ _ _ _ _ Hd Hs) as Happ.
  rewrite (parse_value_number fuel _ _ _ _ _ _ Happ).
  unfold Json.scan_number. rewrite Happ.
  destruct (split_number_concat _ _ _ _ _ _ Hs) as [Hcat _].
  rewrite str_app_nil_r in Hcat. rewrite <- Hcat, Hf.
  destruct fr, ex; try reflexivity. discriminate Hlit.
Qed.
End Scan.

Lemma digit_facts (c : ascii) :
  Json.is_digit c = true ->
  Ascii.eqb c "-" = false /\ Json.is_ws c = false.
Proof.
  destruct c as [[] [] [] [] [] [] [] []]; intros H; try discriminate H; split; reflexivity.
Qed.

Lemma span_digits_all (d : string) : all_digits d = true -> Json.span_digits d = (d, ""%string).
Proof.
  intros Hd. rewrite <- (str_app_nil_r d) at 1. apply span_digits_app; [exact Hd | exact I].
Qed.

Lemma split_integer_digits (c : ascii) (r : string) :
  c <> "0"%char -> all_digits (String c r) = true ->
  Json.split_integer (String c r) = (String c r, ""%string).
Proof.
  intros Hc Hd. cbn [Json.split_integer]. rewrite (proj2 (Ascii.eqb_neq c "0") Hc).
  apply span_digits_all, Hd.
Qed.

(** The text of an integer is an integer literal of that value. *)
Lemma split_number_pretty (z : Z) :
  exists sg ip,
    Json.split_number (pretty z) = Some (sg, ip, ""%string, ""%string, ""%string)
    /\ match sg with
       | EmptyString => Json.digits_value 0 ip
       | _ => (- Json.digits_value 0 ip)%Z
       end = z.
Proof.
  destruct z as [|p|p].
  - exists ""%string, "0"%string. split; reflexivity.
  - exists ""%string, (pretty_N_go (Npos p) ""). split; [|rewrite digits_value_pretty; reflexivity].
    change (pretty (Zpos p)) with (pretty_N_go (Npos p) "").
    pose proof (pretty_N_go_digits (Npos p) "" eq_refl) as Hd.
    destruct (pretty_N_go_head (Npos p) "" ltac:(lia)) as (c & r & Heq & Hc & Hdc).
    rewrite Heq in *. unfold Json.split_number. cbn [Json.split_sign].
    rewrite (proj1 (digit_facts c Hdc)).
    rewrite (split_integer_digits c r Hc Hd). reflexivity.
  - exists "-"%string, (pretty_N_go (Npos p) ""). split; [|rewrite digits_value_pretty; reflexivity].
    change (pretty (Zneg p)) with (String "-" (pretty_N_go (Npos p) "")).
    pose proof (pretty_N_go_digits (Npos p) "" eq_refl) as Hd.
    destruct (pretty_N_go_head (Npos p) "" ltac:(lia)) as (c & r & Heq & Hc & Hdc).
    rewrite Heq in *. unfold Json.split_number. cbn [Json.split_sign].
    rewrite Ascii.eqb_refl.
    rewrite (split_integer_digits c r Hc Hd). reflexivity.
Qed.

(** ** Floats: the constants of [floatstr] *)

Lemma eqb_infinity (f : float) : PrimFloat.eqb f infinity = true -> f = infinity.
Proof.
  intros H. rewrite FloatAxioms.eqb_spec in H.
  rewrite <- (SF2Prim_Prim2SF f).
  destruct (Prim2SF f) as [s|s| |s m e]; cbn in H; try discriminate H.
  destruct s; [discriminate H | reflexivity].
Qed.

Lemma eqb_neg_infinity (f : float) : PrimFloat.eqb f neg_infinity = true -> f = neg_infinity.
Proof.
  intros H. rewrite FloatAxioms.eqb_spec in H.
  rewrite <- (SF2Prim_Prim2SF f).
  destruct (Prim2SF f) as [s|s| |s m e]; cbn in H; try discriminate H.
  destruct s; [reflexivity | discriminate H].
Qed.

(** What compares above something is not NaN. *)
Lemma ltb_not_nan (x f : float) : PrimFloat.ltb x f = true -> PrimFloat.is_nan f = false.
Proof.
  intros H. rewrite FloatAxioms.ltb_spec in H. unfold PrimFloat.is_nan. rewrite FloatAxioms.eqb_spec.
  destruct (Prim2SF f) as [s|s| |s m e].
  - destruct s; reflexivity.
  - destruct s; reflexivity.
  - destruct (Prim2SF x) as [s'|s'| |s' m' e']; discriminate H.
  - unfold SFeqb, SFcompare. destruct s; rewrite Z.compare_refl, Pos.compare_cont_refl; reflexivity.
Qed.

Lemma leb_not_nan (x f : float) : PrimFloat.leb x f = true -> PrimFloat.is_nan f = false.
Proof.
  intros H. rewrite FloatAxioms.leb_spec in H. unfold PrimFloat.is_nan. rewrite FloatAxioms.eqb_spec.
  destruct (Prim2SF f) as [s|s| |s m e].
  - destruct s; reflexivity.
  - destruct s; reflexivity.
  - destruct (Prim2SF x) as [s'|s'| |s' m' e']; discriminate H.
  - unfold SFeqb, SFcompare. destruct s; rewrite Z.compare_refl, Pos.compare_cont_refl; reflexivity.
Qed.

Section Scalars.
Variable float_repr : float -> string.
Variable float_of_string : string -> option float.

(** ** Scalars *)

Lemma parse_value_int (fuel : nat) (z : Z) (rest : string) :
  delimited rest = true ->
  Json.parse_value float_of_string (S fuel) (pretty z ++ rest)%string = Some (PyInt z, rest).
Proof.
  intros Hd. destruct (split_number_pretty z) as (sg & ip & Hs & Hv).
  pose proof (split_number_app _ rest _ _ _ _ _ Hd Hs) as Happ.
  rewrite (parse_value_number float_of_string fuel _ _ _ _ _ _ Happ).
  unfold Json.scan_number. rewrite Happ. rewrite Hv. reflexivity.
Qed.

Lemma parse_value_str (fuel : nat) (s rest : string) :
  Json.parse_value float_of_string (S fuel) (Json.encode_basestring s ++ rest)%string
  = Some (PyStr s, rest).
Proof.
  unfold Json.encode_basestring.
  change ((Json.dquote ++ Json.escape s ++ Json.dquote) ++ rest)%string
    with (String "034" ((Json.escape s ++ Json.dquote) ++ rest)%string).
  rewrite str_app_assoc.
  change (Json.parse_value float_of_string (S fuel)
            (String "034" (Json.escape s ++ Json.dquote ++ rest)%string))
    with (match Json.scanstring (Json.escape s ++ Json.dquote ++ rest)%string with
          | Some (x, r) => Some (PyStr x, r)
          | None => None
          end).
  rewrite scanstring_escape. reflexivity.
Qed.

Lemma skip_ws_head (c : ascii) (r : string) :
  Json.is_ws c = false -> Json.skip_ws (String c r) = String c r.
Proof. intros Hc. cbn [Json.skip_ws]. rewrite Hc. reflexivity. Qed.

(** A scalar of the request is read back, and starts with no white space. *)
Lemma parse_value_scalar (fuel level : nat) (v : pyval) (rest : string) :
  scalar_ok float_repr float_of_string v ->
  delimited rest = true ->
  Json.parse_value float_of_string (S fuel) (Json.iterencode float_repr v level ++ rest)%string
  = Some (v, rest)
  /\ Json.skip_ws (Json.iterencode float_repr v level ++ rest)%string
     = (Json.iterencode float_repr v level ++ rest)%string.
Proof.
  intros Hv Hd. destruct v as [| |z|f|s| |]; try contradiction; cbn [Json.iterencode].
  - split; [apply parse_value_int, Hd|].
    destruct (split_number_pretty z) as (sg & ip & Hs & _).
    destruct (split_number_concat _ _ _ _ _ _ Hs) as [_ [(c & t & -> & Hc)|(c & t & -> & Hc)]].
    + apply skip_ws_head, (digit_facts c Hc).
    + reflexivity.
  - destruct Hv as [Hnan Hrt]. unfold Json.floatstr. rewrite Hnan.
    destruct (PrimFloat.eqb f infinity) eqn:Hinf.
    { apply eqb_infinity in Hinf. subst f. split; reflexivity. }
    destruct (PrimFloat.eqb f neg_infinity) eqn:Hninf.
    { apply eqb_neg_infinity in Hninf. subst f. split; reflexivity. }
    destruct Hrt as [Hlit Hrt].
    { unfold written_as_number. rewrite Hnan, Hinf, Hninf. reflexivity. }
    split; [apply parse_value_float; assumption|].
    unfold Json.float_literal in Hlit.
    destruct (Json.split_number (float_repr f)) as [[[[[sg ip] fr] ex] r]|] eqn:Hs;
      [|discriminate].
    destruct (split_number_concat _ _ _ _ _ _ Hs) as [_ [(c & t & -> & Hc)|(c & t & -> & Hc)]].
    + apply skip_ws_head, (digit_facts c Hc).
    + reflexivity.
  - split; [apply parse_value_str|]. reflexivity.
Qed.
End Scalars.

Section Members.
Variable float_repr : float -> string.
Variable float_of_string : string -> option float.


(** Reading one member: the key, the colon, the value, up to [tail]. *)
Lemma parse_member (fuel : nat) (k : string) (v : pyval) (tail : string)
    (pairs : list (string * pyval)) :
  scalar_ok float_repr float_of_string v ->
  delimited tail = true ->
  Json.parse_members float_of_string (S (S fuel)) (member_chunk float_repr (k, v) ++ tail)%string pairs
  = match Json.skip_ws tail with
    | String "}" r => Some (PyDict (dict_set pairs k v), r)
    | String "," s4 =>
        Json.parse_members float_of_string (S fuel) (Json.skip_ws s4) (dict_set pairs k v)
    | _ => None
    end.
Proof.
  intros Hv Hd. unfold member_chunk, Json.encode_basestring. cbn [fst snd].
  rewrite !str_app_assoc.
  change (Json.dquote ++ Json.escape k ++ Json.dquote ++ ": "
          ++ Json.iterencode float_repr v 1 ++ tail)%string
    with (String "034" (Json.escape k ++ Json.dquote
                        ++ String ":" (String " " (Json.iterencode float_repr v 1 ++ tail)))%string).
  destruct (parse_value_scalar float_repr float_of_string fuel 1 v tail Hv Hd) as [Hp Hws].
  change (Json.parse_members float_of_string (S (S fuel))
            (String "034" (Json.escape k ++ Json.dquote
               ++ String ":" (String " " (Json.iterencode float_repr v 1 ++ tail)))%string) pairs)
    with (match Json.scanstring (Json.escape k ++ Json.dquote
               ++ String ":" (String " " (Json.iterencode float_repr v 1 ++ tail)))%string with
          | Some (k0, s1) =>
              match Json.skip_ws s1 with
              | String ":" s2 =>
                  match Json.parse_value float_of_string (S fuel) (Json.skip_ws s2) with
                  | Some (v0, s3) =>
                      match Json.skip_ws s3 with
                      | String "}" r => Some (PyDict (dict_set pairs k0 v0), r)
                      | String "," s4 =>
                          Json.parse_members float_of_string (S fuel) (Json.skip_ws s4)
                            (dict_set pairs k0 v0)
                      | _ => None
                      end
                  | None => None
                  end
              | _ => None
              end
          | None => None
          end).
  rewrite scanstring_escape.
  change (Json.skip_ws (String ":" (String " " (Json.iterencode float_repr v 1 ++ tail)%string)))
    with (String ":" (String " " (Json.iterencode float_repr v 1 ++ tail)%string)).
  cbv beta iota.
  change (Json.skip_ws (String " " (Json.iterencode float_repr v 1 ++ tail)%string))
    with (Json.skip_ws (Json.iterencode float_repr v 1 ++ tail)%string).
  rewrite Hws, Hp. reflexivity.
Qed.

(** ** Members of a dict *)

Lemma join_items_one {A} (f : A -> string) (sp : string) (x : A) :
  Json.join_items f sp [x] = f x.
Proof. reflexivity. Qed.

Lemma join_items_more {A} (f : A -> string) (sp : string) (x y : A) (l : list A) :
  Json.join_items f sp (x :: y :: l) = (f x ++ sp ++ Json.join_items f sp (y :: l))%string.
Proof. reflexivity. Qed.

Lemma member_chunk_head (kv : string * pyval) (t : string) :
  exists b, (member_chunk float_repr kv ++ t)%string = String "034" b.
Proof. eexists. unfold member_chunk, Json.encode_basestring. reflexivity. Qed.

Lemma join_items_head (x : string * pyval) (l : list (string * pyval)) (t : string) :
  exists b, (Json.join_items (member_chunk float_repr) member_separator (x :: l) ++ t)%string = String "034" b.
Proof.
  destruct l as [|y l].
  - rewrite join_items_one. apply member_chunk_head.
  - rewrite join_items_more, str_app_assoc. apply member_chunk_head.
Qed.

(** Reading the members of a dict of scalars, as [json.dumps] lays them out
    at the top level. *)
Lemma parse_members_scalars (l : list (string * pyval)) :
  forall (x : string * pyval) (fuel : nat) (pairs : list (string * pyval)) (rest : string),
    Forall (fun kv => scalar_ok float_repr float_of_string (snd kv)) (x :: l) ->
    length l < fuel ->
    Json.parse_members float_of_string (S fuel)
      (Json.join_items (member_chunk float_repr) member_separator (x :: l) ++ Json.newline_indent 0 ++ "}" ++ rest)%string pairs
    = Some (PyDict (fold_left (fun d kv => dict_set d (fst kv) (snd kv)) (x :: l) pairs), rest).
Proof.
  induction l as [|y l IH]; intros [k v] fuel pairs rest Hall Hfuel.
  - destruct fuel as [|fuel]; [cbn in Hfuel; lia|].
    rewrite join_items_one. cbn [fold_left fst snd].
    rewrite parse_member; [reflexivity | | reflexivity].
    apply Forall_inv in Hall. exact Hall.
  - destruct fuel as [|fuel]; [cbn in Hfuel; lia|].
    rewrite join_items_more, !str_app_assoc.
    rewrite parse_member; [| |reflexivity].
    2:{ apply Forall_inv in Hall. exact Hall. }
    destruct (join_items_head y l (Json.newline_indent 0 ++ "}" ++ rest)%string) as [b Hb].
    rewrite Hb.
    change (Json.skip_ws (member_separator ++ String "034" b)%string)
      with (String "," (Json.newline_indent 1 ++ String "034" b)%string).
    cbv beta iota.
    change (Json.skip_ws (Json.newline_indent 1 ++ String "034" b)%string)
      with (String "034" b).
    rewrite <- Hb.
    cbn [fold_left fst snd]. apply IH.
    + apply Forall_inv_tail in Hall. exact Hall.
    + cbn in Hfuel. lia.
Qed.

(** [json.loads] of [json.dumps] of a dict of scalars. *)
Lemma loads_dumps_scalars (x : string * pyval) (l : list (string * pyval)) :
  Forall (fun kv => scalar_ok float_repr float_of_string (snd kv)) (x :: l) ->
  length l + 2 <= String.length (Json.dumps float_repr (PyDict (x :: l))) ->
  Json.loads float_of_string (Json.dumps float_repr (PyDict (x :: l)))
  = Some (PyDict (fold_left (fun d kv => dict_set d (fst kv) (snd kv)) (x :: l) [])).
Proof.
  intros Hall Hlen. unfold Json.loads.
  remember (String.length (Json.dumps float_repr (PyDict (x :: l)))) as n eqn:Hn.
  clear Hn. destruct n as [|[|n]]; [lia | lia |].
  destruct (join_items_head x l (Json.newline_indent 0 ++ "}" ++ "")%string) as [b Hb].
  change (Json.dumps float_repr (PyDict (x :: l)))
    with (String "{" (Json.newline_indent 1
            ++ Json.join_items (member_chunk float_repr) member_separator (x :: l) ++ Json.newline_indent 0 ++ "}" ++ "")%string).
  rewrite Hb.
  change (Json.skip_ws (String "{" (Json.newline_indent 1 ++ String "034" b)%string))
    with (String "{" (Json.newline_indent 1 ++ String "034" b)%string).
  change (Json.parse_value float_of_string (S (S (S n)))
            (String "{" (Json.newline_indent 1 ++ String "034" b)%string))
    with (Json.parse_members float_of_string (S (S n)) (String "034" b) []).
  rewrite <- Hb.
  rewrite parse_members_scalars; [reflexivity | exact Hall | lia].
Qed.
End Members.

(** ** The request *)

Lemma length_app_le (p r : string) : String.length p <= String.length (p ++ r)%string.
Proof.
  induction p as [|c p IH]; [apply Nat.le_0_l|].
  change (S (String.length p) <= S (String.length (p ++ r)%string)). lia.
Qed.

Section Codec.
Variable float_repr : float -> string.
Variable float_of_string : string -> option float.

(** The values of the request of a valid parameter set are scalars. *)
Lemma request_scalars (image64 : string) (ps : ParameterSet) (items : list (string * pyval)) :
  valid_params ps ->
  float_round_trips float_repr float_of_string (ps_min_guidance_scale ps) ->
  float_round_trips float_repr float_of_string (ps_max_guidance_scale ps) ->
  float_round_trips float_repr float_of_string (ps_noise_aug_strength ps) ->
  request_of image64 ps = PyDict items ->
  Forall (fun kv => scalar_ok float_repr float_of_string (snd kv)) items.
Proof.
  intros (_ & _ & _ & _ & Hmin & Hmax & _ & _ & Hnoise & _) Rmin Rmax Rnoise Hitems.
  injection Hitems as <-.
  repeat apply List.Forall_cons; try apply List.Forall_nil; cbn [snd scalar_ok]; try exact I;
    split; try assumption.
  - exact (ltb_not_nan _ _ Hmin).
  - exact (leb_not_nan _ _ Hmax).
  - exact (leb_not_nan _ _ Hnoise).
Qed.

(** [decodeRequest] reads the document of [request_of] back. *)
Lemma decodeRequest_dumps (image64 : string) (ps : ParameterSet) :
  valid_params ps ->
  float_round_trips float_repr float_of_string (ps_min_guidance_scale ps) ->
  float_round_trips float_repr float_of_string (ps_max_guidance_scale ps) ->
  float_round_trips float_repr float_of_string (ps_noise_aug_strength ps) ->
  decodeRequest float_of_string (Json.utf8 (Json.dumps float_repr (request_of image64 ps)))
  = Some (image64, ps).
Proof.
  intros Hvalid Rmin Rmax Rnoise.
  pose proof (request_scalars image64 ps _ Hvalid Rmin Rmax Rnoise eq_refl) as Hall.
  unfold decodeRequest. rewrite utf8_decode_utf8.
  unfold request_of, request_dict in *.
  rewrite (loads_dumps_scalars float_repr float_of_string _ _ Hall).
  - destruct ps; reflexivity.
  - assert (exists r, Json.dumps float_repr (request_of image64 ps)
                      = (("{" ++ Json.newline_indent 1 ++ String "034" "image"
                          ++ String "034" "") ++ r)%string) as [r Hr]
      by (eexists; reflexivity).
    unfold request_of, request_dict in Hr. rewrite Hr.
    etransitivity; [|apply length_app_le]. vm_compute. lia.
Qed.
End Codec.

Section RequestRoundTrip.
Variable env : Env.
Variable float_repr : float -> string.
Variable float_of_string : string -> option float.

(** C8: for every valid parameter set that the session holds, the document
    that [invoke_model] writes to [REQUEST_PAYLOAD] and uploads, parsed as
    JSON by [decodeRequest], gives back the encoded image and every parameter
    exactly: width, height, num_frames, num_inference_steps, the two guidance
    scales, fps, motion_bucket_id, noise_aug_strength, decode_chunk_size and
    seed.  Of [repr] and [float] it asks that they round-trip at the three
    floats of the set. *)
Theorem invoke_model_request_round_trip (up : UploadedFile) (image : Image)
    (jpeg : list byte) (w : World) (ps : ParameterSet) :
  up_image up = inr image ->
  im_jpeg image = inr jpeg ->
  valid_params ps ->
  session_holds ps (w_session w) ->
  float_round_trips float_repr float_of_string (ps_min_guidance_scale ps) ->
  float_round_trips float_repr float_of_string (ps_max_guidance_scale ps) ->
  float_round_trips float_repr float_of_string (ps_noise_aug_strength ps) ->
  exists w' r rest document,
    run env (invoke_model float_repr (Some up)) w ≈ Ret (w', r)
    /\ w_fs w' !! REQUEST_PAYLOAD = Some document
    /\ w_log w' = w_log w
                  ++ AUpload REQUEST_PAYLOAD S3_BUCKET "async_inference/input/payload.json"
                       "application/json" document :: rest
    /\ decodeRequest float_of_string document
       = Some (string_of_list_byte (Base64.b64encode jpeg), ps).
Proof.
  intros Him Hjpeg Hvalid Hsession Rmin Rmax Rnoise.
  destruct Hsession as (Hw & Hh & Hnf & Hni & Hmin & Hmax & Hfps & Hmb & Hna & Hdc & Hseed).
  destruct (run_invoke_model env float_repr up image jpeg w _ _ _ _ _ _ _ _ _ _ _
              Him Hjpeg Hw Hh Hnf Hni Hmin Hmax Hfps Hmb Hna Hdc Hseed)
    as (w' & r & rest & Hrun & Hfile & Hlog).
  exists w', r, rest,
    (Json.utf8 (Json.dumps float_repr
                  (request_of (string_of_list_byte (Base64.b64encode jpeg)) ps))).
  split; [exact Hrun|]. split; [exact Hfile|]. split; [exact Hlog|].
  apply decodeRequest_dumps; assumption.
Qed.

End RequestRoundTrip.

Lemma invoke_model_request_round_trip_witness :
  exists w' r rest document,
    run quiet_env (invoke_model PyModel.float_repr (Some (sample_upload 1000)))
      world_with_leftover ≈ Ret (w', r)
    /\ w_fs w' !! REQUEST_PAYLOAD = Some document
    /\ w_log w' = w_log world_with_leftover
                  ++ AUpload REQUEST_PAYLOAD S3_BUCKET "async_inference/input/payload.json"
                       "application/json" document :: rest
    /\ decodeRequest PyModel.float_of_string document
       = Some (string_of_list_byte (Base64.b64encode (list_byte_of_string "JPG")),
               default_params).
Proof.
  apply (invoke_model_request_round_trip quiet_env PyModel.float_repr PyModel.float_of_string
           (sample_upload 1000) sample_image (list_byte_of_string "JPG") world_with_leftover
           default_params).
  - reflexivity.
  - reflexivity.
  - repeat split; try (vm_compute; reflexivity); vm_compute; discriminate.
  - repeat split; vm_compute; reflexivity.
  - intros _. vm_compute. split; reflexivity.
  - intros _. vm_compute. split; reflexivity.
  - intros _. vm_compute. split; reflexivity.
Defined.
(** * The other functions of the script *)

(** ** Composing runs *)

Section Triples.
Variable env : Env.

Lemma triple_pbind {A B} (P : World -> Prop) (t : py A) (Q : World -> result A -> Prop)
    (k : A -> py B) (R : World -> result B -> Prop) :
  triple env P t Q ->
  (forall a, triple env (fun w => Q w (inr a)) (k a) R) ->
  (forall w e, Q w (inl e) -> R w (inl e)) ->
  triple env P (pbind t k) R.
Proof.
  intros Ht Hk He w Hw. destruct (Ht w Hw) as (w1 & r & Hrun & Hq).
  destruct r as [e|a].
  - exists w1, (inl e). split; [|apply He, Hq]. apply run_pbind_raise, Hrun.
  - destruct (Hk a w1 Hq) as (w2 & r2 & Hrun2 & Hr). exists w2, r2. split; [|exact Hr].
    rewrite (run_pbind_ok env t k w w1 a Hrun). exact Hrun2.
Qed.

Lemma triple_perform {A} (e : ioE A) (P : World -> Prop) (Q : World -> result A -> Prop) :
  (forall w, P w -> Q (fst (step env e w)) (inr (snd (step env e w)))) ->
  triple env P (perform e) Q.
Proof. intros H w Hw. eexists _, _. split; [apply run_perform|apply H, Hw]. Qed.

Lemma triple_call {A} (e : ioE (result A)) (P : World -> Prop) (Q : World -> result A -> Prop) :
  (forall w, P w -> Q (fst (step env e w)) (snd (step env e w))) ->
  triple env P (call e) Q.
Proof.
  intros H w Hw. exists (fst (step env e w)), (snd (step env e w)).
  split; [|apply H, Hw]. rewrite run_call. destruct (step env e w); reflexivity.
Qed.

Lemma triple_lift {A} (r : result A) (P : World -> Prop) (Q : World -> result A -> Prop) :
  (forall w, P w -> Q w r) -> triple env P (lift r) Q.
Proof. intros H w Hw. exists w, r. split; [apply run_lift|apply H, Hw]. Qed.

Lemma quiet_pbind {A B} (t : py A) (k : A -> py B) :
  quiet env t -> (forall a, quiet env (k a)) -> quiet env (pbind t k).
Proof.
  intros Ht Hk w0. apply (triple_pbind _ _ _ _ _ (Ht w0)).
  - intros a. apply Hk.
  - intros w e Hw. exact Hw.
Qed.

Lemma quiet_lift {A} (r : result A) : quiet env (lift r).
Proof. intros w0. apply triple_lift. intros w Hw. exact Hw. Qed.

Lemma quiet_ret {A} (a : A) : quiet env (ret a).
Proof. apply (quiet_lift (inr a)). Qed.

Lemma quiet_raise {A} (e : exn) : quiet env (@raise A e).
Proof. apply (quiet_lift (inl e)). Qed.

Lemma same_outside_log (w0 w : World) (a : action) :
  is_network_call a = false -> same_outside w0 w -> same_outside w0 (log a w).
Proof.
  intros Ha [Hfs Hlog]. split; [exact Hfs|]. cbn.
  rewrite List.filter_app. cbn. rewrite Ha, app_nil_r. exact Hlog.
Qed.

Lemma same_outside_session (w0 w : World) (f : gmap string pyval -> gmap string pyval) :
  same_outside w0 w -> same_outside w0 (set_session f w).
Proof. intros H. exact H. Qed.

Lemma quiet_st_show (kind body : string) : quiet env (st_show kind body).
Proof.
  intros w0. apply triple_perform. intros w Hw. cbn. apply same_outside_log; [reflexivity|exact Hw].
Qed.

Lemma quiet_ss_get (key : string) (dflt : pyval) : quiet env (ss_get key dflt).
Proof. intros w0. apply triple_perform. intros w Hw. exact Hw. Qed.

Lemma quiet_ss_setitem (key : string) (v : pyval) : quiet env (ss_setitem key v).
Proof. intros w0. apply triple_perform. intros w Hw. exact Hw. Qed.

Lemma quiet_number_field (label key : string) (dflt : pyval) :
  quiet env (number_field label key dflt).
Proof.
  unfold number_field. apply quiet_pbind; [apply quiet_ss_get|]. intros value.
  apply quiet_pbind; [intros w0; apply triple_perform; intros w Hw; exact Hw|]. intros x.
  apply quiet_pbind; [apply quiet_ss_setitem|]. intros _. apply quiet_ret.
Qed.

End Triples.

(** ** reset_session_states *)

Lemma set_session_id (w : World) : set_session (fun s => s) w = w.
Proof. destruct w; reflexivity. Qed.

Lemma fill_defaults_lookup (l : list (string * pyval)) :
  forall (s : gmap string pyval) (key : string),
    fill_defaults l s !! key
    = match s !! key with
      | Some v => Some v
      | None => dict_get l key
      end.
Proof.
  induction l as [|[k v] l IH]; intros s key.
  - cbn. destruct (s !! key); reflexivity.
  - change (fill_defaults ((k, v) :: l) s)
      with (fill_defaults l (match s !! k with Some _ => s | None => <[k := v]> s end)).
    rewrite IH. cbn [dict_get].
    destruct (String.eqb_spec k key) as [->|Hne].
    + destruct (s !! key) eqn:Hs; [rewrite Hs; reflexivity|].
      rewrite lookup_insert_eq. reflexivity.
    + destruct (s !! k) eqn:Hk; [reflexivity|].
      rewrite lookup_insert_ne by exact Hne. reflexivity.
Qed.

Section Reset.
Variable env : Env.

Lemma run_fill_defaults (l : list (string * pyval)) :
  forall (n : nat) (w : World),
    run env (for_enumerate n l (fun _ kv =>
               pbind (perform (SsContains (fst kv))) (fun present : bool =>
                 if present then ret tt else ss_setitem (fst kv) (snd kv)))) w
    ≳ Ret (set_session (fill_defaults l) w, inr tt).
Proof.
  induction l as [|[k v] l IH]; intros n w.
  - cbn [for_enumerate]. rewrite run_ret, set_session_id. reflexivity.
  - cbn [for_enumerate fst snd].
    assert (run env (pbind (perform (SsContains k)) (fun present : bool =>
                       if present then ret tt else ss_setitem k v)) w
            ≳ Ret (set_session (fun s => match s !! k with
                                         | Some _ => s
                                         | None => <[k := v]> s
                                         end) w, inr tt)) as Hstep.
    { rewrite run_pbind_ok by apply run_perform. cbn [step fst snd].
      destruct (w_session w !! k) eqn:Hk.
      - rewrite run_ret. unfold set_session. rewrite Hk. destruct w; reflexivity.
      - unfold ss_setitem. rewrite run_perform. cbn [step fst snd].
        unfold set_session. rewrite Hk. reflexivity. }
    rewrite (run_pbind_ok env _ _ _ _ _ Hstep).
    rewrite IH. reflexivity.
Qed.

(** X1: rerunning the script keeps what the session holds: [reset_session_states]
    gives its default to each of the fourteen keys the session lacks, and
    changes no key the session has, whatever its value; it shows nothing,
    touches no file, and never raises. *)
Theorem reset_session_states_keeps_values (w : World) :
  exists w',
    run env reset_session_states w ≈ Ret (w', inr tt)
    /\ (forall key,
          w_session w' !! key
          = match w_session w !! key with
            | Some v => Some v
            | None => dict_get session_state_defaults key
            end)
    /\ w_fs w' = w_fs w /\ w_log w' = w_log w.
Proof.
  exists (set_session (fill_defaults session_state_defaults) w).
  split; [|split; [|split; reflexivity]].
  - apply euttge_sub_eutt. unfold reset_session_states. apply run_fill_defaults.
  - intros key. cbn [set_session w_session]. apply fill_defaults_lookup.
Qed.

Lemma quiet_reset_session_states : quiet env reset_session_states.
Proof.
  intros w0 w Hw. exists (set_session (fill_defaults session_state_defaults) w), (inr tt).
  split; [|exact Hw]. unfold reset_session_states. apply run_fill_defaults.
Qed.

End Reset.

(** ** play_video *)

Section Play.
Variable env : Env.

Lemma run_play_video (video_path : string) (w : World) :
  exists w' r,
    run env (play_video video_path) w ≳ Ret (w', r)
    /\ w_session w' = <["play_video_disabled" := PyBool false]> (w_session w)
    /\ w_fs w' = w_fs w
    /\ (if ui_button env "Play Video"
        then match w_fs w !! video_path with
             | Some _ => r = inr tt /\ w_log w' = w_log w ++ [AShow "video" ""]
             | None =>
                 match open_error env video_path with
                 | FileNotFoundError _ =>
                     r = inr tt
                     /\ w_log w'
                        = w_log w
                          ++ [AShow "warning"
                                "Video does not exist. Please create the video first.   :warning:"]
                 | e => r = inl e /\ w_log w' = w_log w
                 end
             end
        else r = inr tt /\ w_log w' = w_log w).
Proof.
  set (w1 := set_session (insert "play_video_disabled" (PyBool false)) w).
  assert (run env (play_video video_path) w
          ≳ run env (if ui_button env "Play Video"
                     then ITree.bind (call (FRead video_path)) (fun r =>
                            match r with
                            | inr video_bytes => perform (StVideo video_bytes)
                            | inl (FileNotFoundError _) =>
                                st_show "warning"
                                  "Video does not exist. Please create the video first.   :warning:"
                            | inl e => raise e
                            end)
                     else ret tt) w1) as Hprefix.
  { unfold play_video, ss_setitem, ss_get.
    rewrite run_pbind_ok by apply run_perform. cbn [step fst snd]. fold w1.
    rewrite run_pbind_ok by apply run_perform. cbn [step fst snd].
    assert (w_session w1 !! "play_video_disabled" = Some (PyBool false)) as ->
      by apply lookup_insert_eq.
    cbn [default].
    rewrite run_pbind_ok by apply run_perform. cbn [step fst snd]. reflexivity. }
  destruct (ui_button env "Play Video"); cbv iota in Hprefix.
  - destruct (w_fs w !! video_path) as [video_bytes|] eqn:Hf.
    + exists (log (AShow "video" "") w1), (inr tt). split; [|repeat split].
      rewrite Hprefix.
      assert (run env (call (FRead video_path)) w1 ≳ Ret (w1, inr video_bytes)) as Hread
        by (apply run_fread; exact Hf).
      rewrite (run_bind env _ _ _ _ Hread).
      cbn [fst snd]. rewrite run_perform. reflexivity.
    + assert (run env (call (FRead video_path)) w1
              ≳ Ret (w1, inl (open_error env video_path))) as Hread.
      { rewrite run_call. cbn [step]. change (w_fs w1) with (w_fs w). rewrite Hf.
        reflexivity. }
      rewrite (run_bind env _ _ _ _ Hread) in Hprefix. cbn [fst snd] in Hprefix.
      destruct (open_error env video_path) as [c|k|m|m| |p|n];
        try (eexists w1, (inl _); split; [|repeat split];
             rewrite Hprefix; apply run_raise).
      exists (log (AShow "warning"
                     "Video does not exist. Please create the video first.   :warning:") w1),
        (inr tt).
      split; [|repeat split].
      rewrite Hprefix. unfold st_show. rewrite run_perform. reflexivity.
  - exists w1, (inr tt). split; [|repeat split].
    rewrite Hprefix. apply run_ret.
Qed.

(** X2: the "Play Video" button is never disabled: [play_video] clears the flag
    of the session before it reads it, whatever the session held (the
    default is [True]), and changes no file.  Not pressed, it returns.
    Pressed, it shows the video when the file is read; when [open] raises
    [FileNotFoundError] it shows a warning and returns; any other exception
    of [open] (a directory at the path, a name too long) it lets through,
    having shown nothing. *)
Theorem play_video_always_offered (video_path : string) (w : World) :
  exists w' r,
    run env (play_video video_path) w ≈ Ret (w', r)
    /\ w_session w' = <["play_video_disabled" := PyBool false]> (w_session w)
    /\ w_fs w' = w_fs w
    /\ (if ui_button env "Play Video"
        then match w_fs w !! video_path with
             | Some _ => r = inr tt /\ w_log w' = w_log w ++ [AShow "video" ""]
             | None =>
                 match open_error env video_path with
                 | FileNotFoundError _ =>
                     r = inr tt
                     /\ w_log w'
                        = w_log w
                          ++ [AShow "warning"
                                "Video does not exist. Please create the video first.   :warning:"]
                 | e => r = inl e /\ w_log w' = w_log w
                 end
             end
        else r = inr tt /\ w_log w' = w_log w).
Proof.
  destruct (run_play_video video_path w) as (w' & r & Hrun & Hrest).
  exists w', r. split; [apply euttge_sub_eutt, Hrun | exact Hrest].
Qed.

Lemma quiet_play_video (video_path : string) : quiet env (play_video video_path).
Proof.
  intros w0 w [Hfs0 Hlog0].
  destruct (run_play_video video_path w) as (w' & r & Hrun & _ & Hfs & Hout).
  exists w', r. split; [exact Hrun|]. split; [congruence|].
  rewrite <- Hlog0.
  destruct (ui_button env "Play Video"); [|destruct Hout as [_ ->]; reflexivity].
  destruct (w_fs w !! video_path);
    [destruct Hout as [_ ->]; rewrite List.filter_app; cbn; apply app_nil_r|].
  destruct (open_error env video_path); destruct Hout as [_ ->];
    try reflexivity.
  rewrite List.filter_app. cbn. apply app_nil_r.
Qed.

(** With the video in place the player shows it, or is not pressed. *)
Lemma run_play_video_present (video_path : string) (video : list byte) (w : World) :
  w_fs w !! video_path = Some video ->
  exists w',
    run env (play_video video_path) w ≳ Ret (w', inr tt)
    /\ w_session w' = <["play_video_disabled" := PyBool false]> (w_session w)
    /\ w_fs w' = w_fs w
    /\ w_log w' = w_log w ++ (if ui_button env "Play Video" then [AShow "video" ""] else []).
Proof.
  intros Hf.
  destruct (run_play_video video_path w) as (w' & r & Hrun & Hss & Hfs & Hout).
  rewrite Hf in Hout.
  exists w'. destruct (ui_button env "Play Video"); destruct Hout as [-> Hlog];
    (split; [exact Hrun|split; [exact Hss|split; [exact Hfs|]]]).
  - exact Hlog.
  - rewrite app_nil_r. exact Hlog.
Qed.

End Play.

(** ** invoke_model *)

Section Invoke.
Variable env : Env.
Variable float_repr : float -> string.

Lemma run_invoke_model_unusable (upload : option UploadedFile) (e : exn) (w : World) :
  upload_jpeg upload = inl e ->
  run env (invoke_model float_repr upload) w ≳ Ret (w, inl e).
Proof.
  intros Hj. unfold invoke_model, image_open.
  destruct upload as [up|]; cbn in Hj.
  - destruct (up_image up) as [e'|image] eqn:Him.
    + injection Hj as ->. rewrite run_pbind_raise; [reflexivity|]. apply run_lift.
    + rewrite run_pbind_ok by apply run_lift.
      rewrite run_pbind_raise; [reflexivity|].
      unfold encode_image. rewrite Hj. rewrite run_pbind_raise; [reflexivity|]. apply run_lift.
  - injection Hj as <-. rewrite run_pbind_raise; [reflexivity|]. apply run_raise.
Qed.

(** X3: without an image that opens and can be saved as JPEG, [invoke_model]
    raises before it has read the session, written the request or called
    anything: the world is as it was. *)
Theorem invoke_model_unusable_image (upload : option UploadedFile) (e : exn) (w : World) :
  upload_jpeg upload = inl e ->
  run env (invoke_model float_repr upload) w ≈ Ret (w, inl e).
Proof. intros Hj. apply euttge_sub_eutt, run_invoke_model_unusable, Hj. Qed.

Lemma run_ss_getitem_missing (key : string) (w : World) :
  w_session w !! key = None ->
  run env (ss_getitem key) w ≳ Ret (w, inl (KeyError key)).
Proof. intros Hk. unfold ss_getitem. rewrite run_call. cbn [step]. rewrite Hk. reflexivity. Qed.

Lemma run_invoke_model_image (upload : option UploadedFile) (jpeg : list byte) (w : World)
    (k : string -> py string) :
  upload_jpeg upload = inr jpeg ->
  run env (pbind (image_open upload) (fun image => pbind (encode_image image) k)) w
  ≳ run env (k (string_of_list_byte (Base64.b64encode jpeg))) w.
Proof.
  intros Hj. destruct upload as [up|]; cbn in Hj; [|discriminate].
  destruct (up_image up) as [e'|image] eqn:Him; [discriminate|].
  unfold image_open. rewrite Him.
  rewrite run_pbind_ok by apply run_lift.
  rewrite run_pbind_ok by (apply run_encode_image, Hj). reflexivity.
Qed.

(** X4: when the session lacks one of the keys of the request, [invoke_model]
    raises [KeyError] for the first one it reads and finds missing, before
    the request is written or anything is called: the world is as it was. *)
Theorem invoke_model_missing_key (upload : option UploadedFile) (jpeg : list byte)
    (key : string) (w : World) :
  upload_jpeg upload = inr jpeg ->
  List.find (fun k => bool_decide (w_session w !! k = None)) request_keys = Some key ->
  run env (invoke_model float_repr upload) w ≈ Ret (w, inl (KeyError key)).
Proof.
  intros Hj Hfind. apply euttge_sub_eutt. unfold invoke_model.
  rewrite (run_invoke_model_image upload jpeg w _ Hj).
  unfold request_keys in Hfind. cbn [List.find] in Hfind.
  repeat
    match type of Hfind with
    | (if bool_decide (w_session w !! ?k = None) then _ else _) = _ =>
        let Hk := fresh "Hk" in
        destruct (w_session w !! k) as [?|] eqn:Hk;
        [ rewrite bool_decide_eq_false_2 in Hfind by discriminate;
          rewrite (run_pbind_ok env _ _ _ _ _ (run_ss_getitem env k _ w Hk))
        | rewrite bool_decide_eq_true_2 in Hfind by reflexivity;
          injection Hfind as <-;
          rewrite run_pbind_raise;
          [reflexivity | apply run_ss_getitem_missing; exact Hk] ]
    end.
  discriminate Hfind.
Qed.

Lemma run_invoke_model_calls (upload : option UploadedFile) (jpeg : list byte)
    (values : string -> pyval) (w : World) :
  upload_jpeg upload = inr jpeg ->
  (forall k, In k request_keys -> w_session w !! k = Some (values k)) ->
  let key := "async_inference/input/payload.json" in
  let body :=
    Json.utf8 (Json.dumps float_repr
      (request_dict (string_of_list_byte (Base64.b64encode jpeg))
         (values "width") (values "height") (values "num_frames")
         (values "num_inference_steps") (values "min_guidance_scale")
         (values "max_guidance_scale") (values "fps") (values "motion_bucket_id")
         (values "noise_aug_strength") (values "decode_chunk_size") (values "seed"))) in
  exists w',
    run env (invoke_model float_repr upload) w
    ≳ Ret (w', submission env)
    /\ w_fs w' = <[REQUEST_PAYLOAD := body]> (w_fs w)
    /\ w_session w' = w_session w
    /\ w_log w'
       = w_log w
         ++ AUpload REQUEST_PAYLOAD S3_BUCKET key "application/json" body
            :: match s3_upload_answer env with
               | inr _ => [AInvoke ENDPOINT_NAME ("s3://" ++ S3_BUCKET ++ "/" ++ key) 3600]
               | inl _ => []
               end
    /\ w_gets w' = w_gets w /\ w_downloads w' = w_downloads w.
Proof.
  intros Hj Hvalues key body. subst key.
  set (w1 := set_fs (insert REQUEST_PAYLOAD body) w).
  set (w2 := log (AUpload REQUEST_PAYLOAD S3_BUCKET "async_inference/input/payload.json"
                    "application/json" body) w1).
  assert (run env (invoke_model float_repr upload) w
          ≳ run env (pbind (upload_file REQUEST_PAYLOAD)
                       (fun _ => call (SmInvokeEndpointAsync ENDPOINT_NAME
                                         ("s3://" ++ S3_BUCKET
                                          ++ "/async_inference/input/payload.json")
                                         3600))) w1)
    as Hprefix.
  { unfold invoke_model. rewrite (run_invoke_model_image upload jpeg w _ Hj).
    do 11 (rewrite run_pbind_ok
             by (apply run_ss_getitem, Hvalues; unfold request_keys; cbn; tauto)).
    cbn zeta. fold body.
    rewrite run_pbind_ok by apply run_perform. cbn [step fst snd].
    rewrite run_pbind_ok by apply run_perform. cbn [step fst snd].
    rewrite set_fs_set_fs.
    erewrite (set_fs_ext _ (insert REQUEST_PAYLOAD body)); [reflexivity|].
    cbn [set_fs w_fs]. rewrite lookup_insert_eq. cbn. apply insert_insert_eq. }
  assert (step env (S3UploadFile REQUEST_PAYLOAD S3_BUCKET
                      "async_inference/input/payload.json" "application/json") w1
          = (w2, s3_upload_answer env)) as Hup.
  { cbn [step]. change (w_fs w1) with (<[REQUEST_PAYLOAD := body]> (w_fs w)).
    rewrite lookup_insert_eq. reflexivity. }
  unfold submission. destruct (s3_upload_answer env) as [e|[]] eqn:Hans.
  - exists w2. split; [|repeat split].
    rewrite Hprefix.
    rewrite run_pbind_raise; [reflexivity|].
    unfold upload_file. rewrite run_call, Hup. reflexivity.
  - exists (log (AInvoke ENDPOINT_NAME
                   ("s3://" ++ S3_BUCKET ++ "/async_inference/input/payload.json") 3600) w2).
    split; [|repeat split].
    + rewrite Hprefix.
      rewrite run_pbind_ok; [|unfold upload_file; rewrite run_call, Hup; reflexivity].
      rewrite run_call. reflexivity.
    + cbn. rewrite <- app_assoc. reflexivity.
Qed.


(** X5: with a usable image and the keys in the session, [invoke_model] writes
    the request document afresh (whatever the file held), uploads that
    document, and only when the upload went through invokes the endpoint,
    once, on the very object it uploaded; it returns what the endpoint
    answered, and raises what the upload or the endpoint raised. *)
Theorem invoke_model_uploads_then_invokes (upload : option UploadedFile) (jpeg : list byte)
    (values : string -> pyval) (w : World) :
  upload_jpeg upload = inr jpeg ->
  (forall k, In k request_keys -> w_session w !! k = Some (values k)) ->
  let key := "async_inference/input/payload.json" in
  let body :=
    Json.utf8 (Json.dumps float_repr
      (request_dict (string_of_list_byte (Base64.b64encode jpeg))
         (values "width") (values "height") (values "num_frames")
         (values "num_inference_steps") (values "min_guidance_scale")
         (values "max_guidance_scale") (values "fps") (values "motion_bucket_id")
         (values "noise_aug_strength") (values "decode_chunk_size") (values "seed"))) in
  exists w',
    run env (invoke_model float_repr upload) w
    ≈ Ret (w', submission env)
    /\ w_fs w' = <[REQUEST_PAYLOAD := body]> (w_fs w)
    /\ w_session w' = w_session w
    /\ w_log w'
       = w_log w
         ++ AUpload REQUEST_PAYLOAD S3_BUCKET key "application/json" body
            :: match s3_upload_answer env with
               | inr _ => [AInvoke ENDPOINT_NAME ("s3://" ++ S3_BUCKET ++ "/" ++ key) 3600]
               | inl _ => []
               end.
Proof.
  intros Hj Hvalues key body.
  destruct (run_invoke_model_calls upload jpeg values w Hj Hvalues)
    as (w' & Hrun & Hfs & Hss & Hlog & _).
  exists w'. split; [apply euttge_sub_eutt, Hrun|]. split; [exact Hfs|].
  split; [exact Hss | exact Hlog].
Qed.

End Invoke.

(** ** get_model_response: the download *)

Section Download.
Variable env : Env.
Variable bucket key : string.

(** The [try] block when the fetch succeeds and the download raises. *)
Lemma run_fetch_download_raises (w : World) (e : exn) :
  s3_get_object_answer env (w_gets w) = inr tt ->
  s3_download_answer env (w_downloads w) = inl e ->
  run env (pbind (call (S3GetObject bucket key)) (fun _ =>
           pbind (call (S3DownloadFile bucket key RESPONSE_PAYLOAD)) (fun _ =>
           pbind (print "Model response received.") (fun _ => ret true)))) w
  ≳ Ret (log (ADownload bucket key RESPONSE_PAYLOAD)
           (count_download (fetch_failed bucket key w)), inl e).
Proof.
  intros Ha Hd.
  rewrite run_pbind_ok.
  2:{ rewrite run_call. cbn [step]. rewrite Ha. reflexivity. }
  rewrite run_pbind_raise; [reflexivity|].
  rewrite run_call. cbn [step]. cbn. rewrite Hd. reflexivity.
Qed.


Lemma poll_once_download_error (w : World) (e : exn) :
  s3_get_object_answer env (w_gets w) = inr tt ->
  s3_download_answer env (w_downloads w) = inl e ->
  is_no_such_key e = false ->
  run env (poll_once bucket key) w
  ≳ Ret (log (ADownload bucket key RESPONSE_PAYLOAD)
           (count_download (fetch_failed bucket key w)), inr (inl e)).
Proof.
  intros Ha Hd Hne. unfold poll_once.
  rewrite (run_bind _ _ _ _ _ (run_fetch_download_raises w _ Ha Hd)). cbn [fst snd].
  destruct e; cbn in Hne; try (rewrite interp_state_ret; reflexivity).
  rewrite Hne. rewrite interp_state_ret. reflexivity.
Qed.

End Download.

Section DownloadRuns.
Variable env : Env.
Variable urlparse : string -> ParseResult.
Variable response_location : string.


(** X7: any other error raised by [download_file] leaves the poller at once:
    after the fetch and the failed download nothing more is called, nothing
    is printed, there is no sleep, and the response file is as it was. *)
Theorem get_model_response_download_error (e : exn) (w : World) :
  s3_get_object_answer env (w_gets w) = inr tt ->
  s3_download_answer env (w_downloads w) = inl e ->
  is_no_such_key e = false ->
  exists w',
    run env (get_model_response urlparse response_location) w ≈ Ret (w', inl e)
    /\ w_log w'
       = w_log w
         ++ [AGetObject (netloc (urlparse response_location))
               (slice_from_1 (path (urlparse response_location)));
             ADownload (netloc (urlparse response_location))
               (slice_from_1 (path (urlparse response_location))) RESPONSE_PAYLOAD]
    /\ w_fs w' = w_fs w.
Proof.
  intros Ha Hd Hne. eexists. split; [|split].
  - apply euttge_sub_eutt. unfold get_model_response.
    apply run_iter_done, poll_once_download_error; eassumption.
  - cbn. rewrite <- !app_assoc. reflexivity.
  - reflexivity.
Qed.

End DownloadRuns.

(** ** main: the form *)

Section Form.
Variable env : Env.
Variable urlparse : string -> ParseResult.
Variable splitext : string -> string * string.
Variable json_load : list byte -> result pyval.
Variable float_repr : float -> string.
Variable decodebytes : list byte -> result (list byte).

Lemma quiet_perform_widget {A} (e : ioE A) :
  (forall w, fst (step env e w) = w) -> quiet env (perform e).
Proof. intros He w0. apply triple_perform. intros w Hw. rewrite He. exact Hw. Qed.

Lemma quiet_display_image (image : Image) : quiet env (display_image image).
Proof.
  unfold display_image. apply quiet_pbind; [apply quiet_st_show|]. intros _.
  intros w0. apply triple_perform. intros w Hw. cbn.
  apply same_outside_log; [reflexivity|exact Hw].
Qed.

Lemma quiet_check_upload (my_upload : option UploadedFile) :
  quiet env (check_upload splitext my_upload).
Proof.
  unfold check_upload. destruct my_upload as [up|]; [|apply quiet_ret].
  destruct (MAX_FILE_SIZE <? up_size up)%Z; [apply quiet_st_show|].
  apply quiet_pbind; [apply quiet_ss_setitem|]. intros _.
  apply quiet_pbind; [apply quiet_lift|]. intros image.
  apply quiet_pbind; [apply quiet_ss_setitem|]. intros _.
  apply quiet_pbind; [apply quiet_ss_setitem|]. intros _.
  apply quiet_display_image.
Qed.

(** X8: a run of the script in which "Create Video" is not pressed, whatever
    else the user did and however it ends, calls neither S3 nor SageMaker and
    leaves every local file as it was. *)
Theorem main_without_create_video_is_local (w : World) :
  ui_button env "Create Video" = false ->
  exists w' r,
    run env (main urlparse splitext json_load float_repr decodebytes) w ≈ Ret (w', r)
    /\ w_fs w' = w_fs w
    /\ List.filter is_network_call (w_log w') = List.filter is_network_call (w_log w).
Proof.
  intros Hb.
  assert (quiet env (main urlparse splitext json_load float_repr decodebytes)) as Hq.
  { unfold main.
    do 5 (apply quiet_pbind; [apply quiet_st_show|]; intros _).
    apply quiet_pbind; [apply quiet_reset_session_states|]. intros _.
    apply quiet_pbind; [apply quiet_perform_widget; reflexivity|]. intros my_upload.
    apply quiet_pbind; [apply quiet_check_upload|]. intros _.
    apply quiet_pbind; [apply quiet_ss_get|]. intros value.
    apply quiet_pbind; [apply quiet_perform_widget; reflexivity|]. intros movie_title.
    apply quiet_pbind; [apply quiet_ss_setitem|]. intros _.
    apply quiet_pbind; [apply quiet_ss_get|]. intros title.
    cbv zeta.
    do 11 (apply quiet_pbind; [apply quiet_number_field|]; intros _).
    intros w0.
    apply (triple_pbind env _ _
             (fun w1 r => same_outside w0 w1 /\ r = inr (ui_button env "Create Video"))).
    - apply triple_perform. intros w1 Hw1. split; [exact Hw1|reflexivity].
    - intros create_video w1 [Hw1 Hc]. injection Hc as ->. rewrite Hb.
      revert w1 Hw1. apply quiet_pbind; [apply quiet_ret|]. intros _.
      apply quiet_play_video.
    - intros w1 e [_ He]. discriminate He. }
  destruct (Hq w w) as (w' & r & Hrun & Hfs & Hlog); [split; reflexivity|].
  exists w', r. split; [apply euttge_sub_eutt, Hrun|]. split; assumption.
Qed.

Lemma calm_perform_widget {A} (e : ioE A) :
  (forall w, fst (step env e w) = w) -> calm env (perform e).
Proof.
  intros He w0. apply triple_perform. intros w Hw. rewrite He. split; [exact Hw|]. eauto.
Qed.

Lemma calm_st_show (kind body : string) : calm env (st_show kind body).
Proof.
  intros w0. apply triple_perform. intros w Hw. cbn. split; [|eauto].
  apply same_outside_log; [reflexivity|exact Hw].
Qed.

Lemma calm_ss_get (key : string) (dflt : pyval) : calm env (ss_get key dflt).
Proof. apply calm_perform_widget. reflexivity. Qed.

Lemma calm_ss_setitem (key : string) (v : pyval) : calm env (ss_setitem key v).
Proof. intros w0. apply triple_perform. intros w Hw. split; [exact Hw|]. eauto. Qed.

Lemma calm_ret {A} (a : A) : calm env (ret a).
Proof. intros w0. apply triple_lift. intros w Hw. split; [exact Hw|]. eauto. Qed.

(** After a calm step the program goes on. *)
Lemma triple_calm_pbind {A B} (t : py A) (k : A -> py B) (w0 : World)
    (R : World -> result B -> Prop) :
  calm env t ->
  (forall a, triple env (same_outside w0) (k a) R) ->
  triple env (same_outside w0) (pbind t k) R.
Proof.
  intros Ht Hk. apply (triple_pbind env _ _ _ _ _ (Ht w0)).
  - intros a w [Hw _]. apply Hk, Hw.
  - intros w e [_ [a Ha]]. discriminate Ha.
Qed.

Lemma calm_pbind {A B} (t : py A) (k : A -> py B) :
  calm env t -> (forall a, calm env (k a)) -> calm env (pbind t k).
Proof. intros Ht Hk w0. apply triple_calm_pbind; [exact Ht|]. intros a. apply Hk. Qed.

Lemma calm_number_field (label key : string) (dflt : pyval) :
  calm env (number_field label key dflt).
Proof.
  unfold number_field. apply calm_pbind; [apply calm_ss_get|]. intros value.
  apply calm_pbind; [apply calm_perform_widget; reflexivity|]. intros x.
  apply calm_pbind; [apply calm_ss_setitem|]. intros _. apply calm_ret.
Qed.

Lemma calm_reset_session_states : calm env reset_session_states.
Proof.
  intros w0 w Hw. exists (set_session (fill_defaults session_state_defaults) w), (inr tt).
  split; [|split; [exact Hw|eauto]]. unfold reset_session_states. apply run_fill_defaults.
Qed.

Lemma run_check_upload_accepted (up : UploadedFile) (image : Image) (w : World) :
  (up_size up <= MAX_FILE_SIZE)%Z ->
  up_image up = inr image ->
  run env (check_upload splitext (Some up)) w
  ≳ Ret (log (AShow "image" "")
           (log (AShow "write" "Conditioning Image :camera:")
              (set_session
                 (fun s => <["height" := PyInt (snd (im_size image))]>
                             (<["width" := PyInt (fst (im_size image))]>
                                (<["movie_title" := PyStr (fst (splitext (up_name up)))]> s)))
                 w)), inr tt).
Proof.
  intros Hsize Him. unfold check_upload.
  rewrite (proj2 (Z.ltb_ge _ _) Hsize). unfold ss_setitem, display_image, st_show.
  rewrite run_pbind_ok by apply run_perform. cbn [step fst snd].
  rewrite Him. rewrite run_pbind_ok by apply run_lift.
  rewrite run_pbind_ok by apply run_perform. cbn [step fst snd].
  rewrite run_pbind_ok by apply run_perform. cbn [step fst snd].
  rewrite run_pbind_ok by apply run_perform. cbn [step fst snd].
  rewrite run_perform. cbn [step fst snd]. reflexivity.
Qed.

(** X9: an upload of at most [MAX_FILE_SIZE] bytes, the limit included, whose
    image opens: the title becomes the file name without its extension and
    the width and height those of the image, replacing what the session
    held; the preview is shown. *)
Theorem check_upload_accepts_up_to_limit (up : UploadedFile) (image : Image) (w : World) :
  (up_size up <= MAX_FILE_SIZE)%Z ->
  up_image up = inr image ->
  exists w',
    run env (check_upload splitext (Some up)) w ≈ Ret (w', inr tt)
    /\ w_session w'
       = <["height" := PyInt (snd (im_size image))]>
           (<["width" := PyInt (fst (im_size image))]>
              (<["movie_title" := PyStr (fst (splitext (up_name up)))]> (w_session w)))
    /\ w_log w' = w_log w ++ [AShow "write" "Conditioning Image :camera:"; AShow "image" ""]
    /\ w_fs w' = w_fs w.
Proof.
  intros Hsize Him. eexists. split; [|split; [|split]].
  - apply euttge_sub_eutt, (run_check_upload_accepted up image w Hsize Him).
  - reflexivity.
  - cbn. rewrite <- app_assoc. reflexivity.
  - reflexivity.
Qed.

(** What is done with an upload that gives no JPEG: it is refused with the
    message, or previewed, or opening it raises. *)
Lemma check_upload_unusable (my_upload : option UploadedFile) (e : exn) (w0 : World) :
  upload_jpeg my_upload = inl e ->
  triple env (same_outside w0) (check_upload splitext my_upload)
    (fun w r => same_outside w0 w /\ (r = inl e \/ r = inr tt)).
Proof.
  intros Hj. unfold check_upload. destruct my_upload as [up|]; cbn in Hj.
  - destruct (MAX_FILE_SIZE <? up_size up)%Z.
    + apply triple_perform. intros w Hw. cbn. split; [|right; reflexivity].
      apply same_outside_log; [reflexivity|exact Hw].
    + apply triple_calm_pbind; [apply calm_ss_setitem|]. intros _.
      destruct (up_image up) as [e'|image].
      * injection Hj as ->. intros w Hw. exists w, (inl e).
        split; [|split; [exact Hw|left; reflexivity]].
        rewrite run_pbind_raise; [reflexivity|]. apply run_lift.
      * apply (triple_pbind env _ _ (fun w r => same_outside w0 w /\ r = inr image)).
        -- apply triple_lift. intros w Hw. split; [exact Hw|reflexivity].
        -- intros a w [Hw Ha]. injection Ha as <-. revert w Hw.
           apply triple_calm_pbind; [apply calm_ss_setitem|]. intros _.
           apply triple_calm_pbind; [apply calm_ss_setitem|]. intros _.
           unfold display_image.
           apply triple_calm_pbind; [apply calm_st_show|]. intros _.
           apply triple_perform. intros w Hw. cbn. split; [|right; reflexivity].
           apply same_outside_log; [reflexivity|exact Hw].
        -- intros w e' [_ He]. discriminate He.
  - apply triple_lift. intros w Hw. split; [exact Hw|right; reflexivity].
Qed.

(** X10: "Create Video" pressed without an image that opens and can be saved as
    JPEG (nothing uploaded, a file PIL cannot read, a mode JPEG cannot hold):
    the run ends with the exception of the image, when the upload is looked
    at or when the request is built; no request file is written, and
    neither S3 nor SageMaker is called. *)
Theorem main_create_video_without_image (e : exn) (w : World) :
  ui_button env "Create Video" = true ->
  upload_jpeg (ui_upload env) = inl e ->
  exists w',
    run env (main urlparse splitext json_load float_repr decodebytes) w ≈ Ret (w', inl e)
    /\ w_fs w' = w_fs w
    /\ List.filter is_network_call (w_log w') = List.filter is_network_call (w_log w).
Proof.
  intros Hb Hj.
  assert (triple env (same_outside w)
            (main urlparse splitext json_load float_repr decodebytes)
            (fun w' r => same_outside w w' /\ r = inl e)) as Ht.
  { unfold main.
    do 5 (apply triple_calm_pbind; [apply calm_st_show|]; intros _).
    apply triple_calm_pbind; [apply calm_reset_session_states|]. intros _.
    apply (triple_pbind env _ _
             (fun w1 r => same_outside w w1 /\ r = inr (ui_upload env))).
    { apply triple_perform. intros w1 Hw1. split; [exact Hw1|reflexivity]. }
    2:{ intros w1 e' [_ He]. discriminate He. }
    intros my_upload w1 [Hw1 Hu]. injection Hu as ->. revert w1 Hw1.
    apply (triple_pbind env _ _ _ _ _ (check_upload_unusable _ e w Hj)).
    2:{ intros w1 e' [Hw1 [He|He]]; [|discriminate He]. injection He as ->.
        split; [exact Hw1|reflexivity]. }
    intros [] w1 [Hw1 _]. revert w1 Hw1.
    apply triple_calm_pbind; [apply calm_ss_get|]. intros value.
    apply triple_calm_pbind; [apply calm_perform_widget; reflexivity|]. intros movie_title.
    apply triple_calm_pbind; [apply calm_ss_setitem|]. intros _.
    apply triple_calm_pbind; [apply calm_ss_get|]. intros title.
    cbv zeta.
    do 11 (apply triple_calm_pbind; [apply calm_number_field|]; intros _).
    apply (triple_pbind env _ _
             (fun w1 r => same_outside w w1 /\ r = inr (ui_button env "Create Video"))).
    { apply triple_perform. intros w1 Hw1. split; [exact Hw1|reflexivity]. }
    2:{ intros w1 e' [_ He]. discriminate He. }
    intros create_video w1 [Hw1 Hc]. injection Hc as ->. rewrite Hb.
    exists (log (AShow "spinner" "Creating video...") w1), (inl e).
    split; [|split; [apply same_outside_log; [reflexivity|exact Hw1]|reflexivity]].
    rewrite run_pbind_raise; [reflexivity|]. unfold create_video_job.
    rewrite run_pbind_ok by apply run_perform. cbn [step fst snd].
    rewrite run_pbind_raise; [reflexivity|]. apply run_invoke_model_unusable, Hj. }
  destruct (Ht w) as (w' & r & Hrun & [Hfs Hlog] & ->); [split; reflexivity|].
  exists w'. split; [apply euttge_sub_eutt, Hrun|]. split; assumption.
Qed.

End Form.

(** ** The frame files, for any number of frames *)

Lemma str_length_app (a b : string) :
  String.length (a ++ b)%string = String.length a + String.length b.
Proof.
  induction a as [|c a IH]; [reflexivity|].
  change (S (String.length (a ++ b)%string) = S (String.length a + String.length b)).
  f_equal. exact IH.
Qed.

Lemma str_app_inv_tail (t : string) (a : string) :
  forall b : string, (a ++ t = b ++ t)%string -> a = b.
Proof.
  induction a as [|c a IH]; intros [|d b] H.
  - reflexivity.
  - apply (f_equal String.length) in H.
    change (String.length t = S (String.length (b ++ t)%string)) in H.
    rewrite str_length_app in H. lia.
  - apply (f_equal String.length) in H.
    change (S (String.length (a ++ t)%string) = String.length t) in H.
    rewrite str_length_app in H. lia.
  - change (String c (a ++ t) = String d (b ++ t))%string in H.
    injection H as -> H. f_equal. apply IH, H.
Qed.

Lemma frame_name_number (idx : nat) :
  frame_name idx = ("frames_out/frame_" ++ frame_number idx ++ ".jpg")%string.
Proof. unfold frame_name, frame_number. destruct (idx <? 9)%nat; reflexivity. Qed.

Lemma pretty_nat_head (n : nat) :
  0 < n ->
  exists c r, pretty n = String c r /\ c <> "0"%char /\ all_digits (pretty n) = true.
Proof.
  intros Hn.
  assert (pretty n = pretty_N_go (N.of_nat n) "") as ->.
  { unfold pretty, pretty_nat, pretty, pretty_N.
    destruct (decide (N.of_nat n = 0%N)) as [Hz|Hnz]; [lia|reflexivity]. }
  destruct (pretty_N_go_head (N.of_nat n) "" ltac:(lia)) as (c & r & Heq & Hc & _).
  exists c, r. split; [exact Heq|]. split; [exact Hc|].
  apply pretty_N_go_digits. reflexivity.
Qed.

Lemma frame_number_inj (i j : nat) : frame_number i = frame_number j -> i = j.
Proof.
  unfold frame_number. intros H.
  destruct (pretty_nat_head (i + 1) ltac:(lia)) as (ci & ri & Hi & Hci & _).
  destruct (pretty_nat_head (j + 1) ltac:(lia)) as (cj & rj & Hj & Hcj & _).
  destruct (i <? 9)%nat, (j <? 9)%nat.
  - change (String "0" (pretty (i + 1)) = String "0" (pretty (j + 1))) in H.
    injection H as H. apply (inj pretty) in H. lia.
  - rewrite Hj in H. change (String "0" (pretty (i + 1)) = String cj rj) in H.
    injection H as H _. congruence.
  - rewrite Hi in H. change (String ci ri = String "0" (pretty (j + 1))) in H.
    injection H as H _. congruence.
  - apply (inj pretty) in H. lia.
Qed.

(** No two frames share a file, however many there are. *)
Lemma frame_name_inj (i j : nat) : frame_name i = frame_name j -> i = j.
Proof.
  rewrite !frame_name_number. intros H.
  change (("frames_out/frame_" ++ frame_number i ++ ".jpg")%string)
    with (String "f" (String "r" (String "a" (String "m" (String "e" (String "s"
         (String "_" (String "o" (String "u" (String "t" (String "/" (String "f"
         (String "r" (String "a" (String "m" (String "e" (String "_"
         (frame_number i ++ ".jpg")%string))))))))))))))))) in H.
  change (("frames_out/frame_" ++ frame_number j ++ ".jpg")%string)
    with (String "f" (String "r" (String "a" (String "m" (String "e" (String "s"
         (String "_" (String "o" (String "u" (String "t" (String "/" (String "f"
         (String "r" (String "a" (String "m" (String "e" (String "_"
         (frame_number j ++ ".jpg")%string))))))))))))))))) in H.
  injection H as H. apply str_app_inv_tail in H. apply frame_number_inj, H.
Qed.

Lemma frame_names_all_NoDup (n : nat) : NoDup (frame_names n).
Proof.
  unfold frame_names. apply NoDup_fmap_2_strong; [|apply NoDup_seq].
  intros i j _ _. apply frame_name_inj.
Qed.

Section AllFrames.
Variable env : Env.
Variable decodebytes : list byte -> result (list byte).

(** X11: however many frames there are, when they all decode each one ends in a
    file of its own: the file named for frame i+1 holds exactly the bytes of
    entry i, whatever it held before, no two entries share a file, and no
    other file is touched. *)
Theorem save_video_frames_one_file_per_frame (items : list pyval)
    (datas : list (list byte)) (w : World) :
  Forall2 (fun v d => decode_frame decodebytes v = inr d) items datas ->
  exists w',
    run env (save_video_frames decodebytes (PyList items)) w ≈ Ret (w', inr tt)
    /\ (forall i d, datas !! i = Some d -> w_fs w' !! frame_name i = Some d)
    /\ NoDup (frame_names (length items))
    /\ (forall q, (forall i, i < length items -> q <> frame_name i) ->
                  w_fs w' !! q = w_fs w !! q).
Proof.
  intros Hd. pose proof (Forall2_length _ _ _ Hd) as Hlen.
  exists (set_fs (frames_written 0 datas) w). split; [|split; [|split]].
  - apply euttge_sub_eutt, save_video_frames_ok, Hd.
  - intros i d Hi. cbn [set_fs w_fs].
    apply (frames_written_lookup datas 0 (w_fs w) i d Hi).
    intros j Hj Heq. cbn in Heq. apply frame_name_inj in Heq. lia.
  - apply frame_names_all_NoDup.
  - intros q Hq. cbn [set_fs w_fs]. apply frames_written_other.
    intros j Hj. apply Hq. lia.
Qed.

End AllFrames.

(** ** What the pattern of the encoder selects *)

Lemma list_ascii_of_string_app (a b : string) :
  list_ascii_of_string (a ++ b)%string = list_ascii_of_string a ++ list_ascii_of_string b.
Proof.
  induction a as [|c a IH]; [reflexivity|].
  change (c :: list_ascii_of_string (a ++ b)%string
          = c :: (list_ascii_of_string a ++ list_ascii_of_string b)).
  f_equal. exact IH.
Qed.

(** A star that is not at the start of a component: it stops here, or takes
    one more character that is not a separator. *)
Lemma glob_star_step (pat : list ascii) (c : ascii) (s : list ascii) :
  glob_match_from false ("*"%char :: pat) (c :: s)
  = glob_match_from false pat (c :: s)
    || (negb (Ascii.eqb c "/") && glob_match_from false ("*"%char :: pat) s).
Proof.
  destruct s as [|d s]; [|reflexivity].
  cbn. destruct (glob_match_from false pat [c]); [reflexivity|].
  cbn. destruct (Ascii.eqb c "/"); cbn; [reflexivity|].
  destruct (glob_match_from false pat []); reflexivity.
Qed.

Lemma glob_star_suffix (pat stem : list ascii) :
  glob_match_from false pat pat = true ->
  forallb (fun c => negb (Ascii.eqb c "/")) stem = true ->
  pat <> [] ->
  glob_match_from false ("*"%char :: pat) (stem ++ pat) = true.
Proof.
  intros Hpat Hstem Hne. induction stem as [|c stem IH].
  - destruct pat as [|p pat]; [contradiction|].
    cbn [app]. rewrite glob_star_step, Hpat. reflexivity.
  - cbn [forallb] in Hstem. apply andb_prop in Hstem as [Hc Hstem].
    cbn [app]. rewrite glob_star_step, Hc, (IH Hstem). apply orb_true_r.
Qed.

(** Every plain name ending in [.jpg], directly in [frames_out], is
    selected. *)
Lemma glob_match_plain_jpg (stem : string) :
  plain_name stem = true ->
  glob_match "frames_out/*.jpg" ("frames_out/" ++ stem ++ ".jpg") = true.
Proof.
  intros Hp. unfold glob_match.
  rewrite !list_ascii_of_string_app.
  destruct stem as [|c stem]; [discriminate Hp|].
  cbn [plain_name] in Hp. apply andb_prop in Hp as [Hdot Hslash].
  change (glob_match_from true (list_ascii_of_string "frames_out/*.jpg")
            (list_ascii_of_string "frames_out/"
             ++ list_ascii_of_string (String c stem) ++ list_ascii_of_string ".jpg"))
    with (if Ascii.eqb c "." then false
          else glob_match_from false ("*"%char :: list_ascii_of_string ".jpg")
                 (list_ascii_of_string (String c stem) ++ list_ascii_of_string ".jpg")).
  apply negb_true_iff in Hdot. rewrite Hdot.
  apply glob_star_suffix; [reflexivity | exact Hslash | discriminate].
Qed.

Lemma all_digits_plain (d : string) :
  all_digits d = true ->
  forallb (fun c => negb (Ascii.eqb c "/")) (list_ascii_of_string d) = true.
Proof.
  intros Hd. unfold all_digits in Hd. rewrite forallb_forall in Hd |- *.
  intros x Hx. specialize (Hd x Hx).
  destruct x as [[] [] [] [] [] [] [] []]; try discriminate Hd; reflexivity.
Qed.

(** The encoder's pattern selects the file of every frame. *)
Lemma glob_match_frame_name (idx : nat) :
  glob_match "frames_out/*.jpg" (frame_name idx) = true.
Proof.
  rewrite frame_name_number.
  change ("frames_out/frame_" ++ frame_number idx ++ ".jpg")%string
    with ("frames_out/" ++ ("frame_" ++ frame_number idx) ++ ".jpg")%string.
  apply glob_match_plain_jpg.
  change (forallb (fun c => negb (Ascii.eqb c "/"))
            (list_ascii_of_string (frame_number idx)) = true).
  unfold frame_number.
  destruct (pretty_nat_head (idx + 1) ltac:(lia)) as (c & r & _ & _ & Hd).
  destruct (idx <? 9)%nat.
  - change (forallb (fun c => negb (Ascii.eqb c "/"))
              (list_ascii_of_string (pretty (idx + 1))) = true).
    apply all_digits_plain, Hd.
  - apply all_digits_plain, Hd.
Qed.

(** ** The order of the encoder's input *)

Lemma leb_total (a b : string) : String.leb a b = false -> String.leb b a = true.
Proof.
  unfold String.leb. rewrite (String.compare_antisym b a).
  destruct (String.compare a b); cbn; congruence.
Qed.

Lemma leb_ne_ltb (a b : string) : String.leb a b = true -> a <> b -> String.ltb a b = true.
Proof.
  unfold String.leb, String.ltb. intros Hle Hne.
  destruct (String.compare a b) eqn:Hc; try congruence.
  apply String.compare_eq_iff in Hc. contradiction.
Qed.

Lemma ordered_insert_by_name {A} (x : string * A) (l : list (string * A)) :
  ordered_names (List.map fst l) = true ->
  ordered_names (List.map fst (insert_by_name x l)) = true.
Proof.
  induction l as [|y l IH]; intros Hl; [reflexivity|].
  cbn [insert_by_name]. destruct (String.leb (fst x) (fst y)) eqn:Hxy.
  - cbn [List.map ordered_names] in *. rewrite Hxy. exact Hl.
  - destruct l as [|z l].
    + cbn. rewrite (leb_total _ _ Hxy). reflexivity.
    + cbn [List.map ordered_names] in Hl. apply andb_prop in Hl as [Hyz Hl].
      specialize (IH Hl). cbn [insert_by_name] in *.
      destruct (String.leb (fst x) (fst z)) eqn:Hxz.
      * cbn [List.map ordered_names] in *. rewrite (leb_total _ _ Hxy). exact IH.
      * cbn [List.map ordered_names] in *. rewrite Hyz. exact IH.
Qed.

Lemma ordered_sort_by_name {A} (l : list (string * A)) :
  ordered_names (List.map fst (sort_by_name l)) = true.
Proof.
  induction l as [|x l IH]; [reflexivity|]. cbn [sort_by_name].
  apply ordered_insert_by_name, IH.
Qed.

Lemma ordered_NoDup_sorted (l : list string) :
  ordered_names l = true -> NoDup l -> sorted_names l = true.
Proof.
  induction l as [|a l IH]; intros Ho Hnd; [reflexivity|].
  destruct l as [|b l]; [reflexivity|].
  cbn [ordered_names sorted_names] in *. apply andb_prop in Ho as [Hab Ho].
  apply NoDup_cons in Hnd as [Ha Hnd].
  rewrite (IH Ho Hnd), andb_true_r. apply leb_ne_ltb; [exact Hab|].
  intros ->. apply Ha. left.
Qed.

Lemma Permutation_insert_by_name {A} (x : string * A) (l : list (string * A)) :
  Permutation (insert_by_name x l) (x :: l).
Proof.
  induction l as [|y l IH]; [reflexivity|]. cbn [insert_by_name].
  destruct (String.leb (fst x) (fst y)); [reflexivity|].
  rewrite IH. apply perm_swap.
Qed.

Lemma Permutation_sort_by_name {A} (l : list (string * A)) : Permutation (sort_by_name l) l.
Proof.
  induction l as [|x l IH]; [reflexivity|]. cbn [sort_by_name].
  rewrite Permutation_insert_by_name, IH. reflexivity.
Qed.

Lemma NoDup_fst_filter {A} (f : string * A -> bool) (l : list (string * A)) :
  NoDup (List.map fst l) -> NoDup (List.map fst (List.filter f l)).
Proof.
  induction l as [|x l IH]; intros Hnd; [exact Hnd|].
  cbn [List.map] in Hnd. apply NoDup_cons in Hnd as [Hx Hnd].
  cbn [List.filter]. destruct (f x); [|apply IH, Hnd].
  cbn [List.map]. apply NoDup_cons. split; [|apply IH, Hnd].
  intros Hin. apply Hx. apply list_elem_of_In in Hin. apply list_elem_of_In.
  apply in_map_iff in Hin as (y & Hy & Hin). apply in_map_iff. exists y.
  split; [exact Hy|]. apply filter_In in Hin. tauto.
Qed.

(** The files the pattern selects are handed over in strictly increasing
    order of their names: byte-wise sorted, and none twice. *)
Lemma glob_sorted (pattern : string) (fs : gmap string (list byte)) :
  sorted_names (List.map fst (glob pattern fs)) = true.
Proof.
  unfold glob. apply ordered_NoDup_sorted; [apply ordered_sort_by_name|].
  change (List.map fst ?l) with (fst <$> l).
  rewrite Permutation_sort_by_name.
  apply (NoDup_fst_filter _ (map_to_list fs)), (NoDup_fst_map_to_list fs).
Qed.

(** ** The frame files in the listing of the directory *)

Lemma ascii_compare_lt_trans (a b c : ascii) :
  Ascii.compare a b = Lt -> Ascii.compare b c = Lt -> Ascii.compare a c = Lt.
Proof.
  unfold Ascii.compare. rewrite !N.compare_lt_iff. apply N.lt_trans.
Qed.

Lemma string_compare_lt_trans (a : string) :
  forall b c, String.compare a b = Lt -> String.compare b c = Lt -> String.compare a c = Lt.
Proof.
  induction a as [|x a IH]; intros [|y b] [|z c]; cbn; try congruence.
  destruct (Ascii.compare x y) eqn:Hxy; try congruence.
  - apply Ascii.compare_eq_iff in Hxy as ->.
    destruct (Ascii.compare y z); try congruence. apply IH.
  - intros _. destruct (Ascii.compare y z) eqn:Hyz; try congruence.
    + apply Ascii.compare_eq_iff in Hyz as <-. rewrite Hxy. reflexivity.
    + rewrite (ascii_compare_lt_trans _ _ _ Hxy Hyz). reflexivity.
Qed.

Lemma ltb_trans (a b c : string) :
  String.ltb a b = true -> String.ltb b c = true -> String.ltb a c = true.
Proof.
  unfold String.ltb. intros Hab Hbc.
  destruct (String.compare a b) eqn:H1; try discriminate.
  destruct (String.compare b c) eqn:H2; try discriminate.
  rewrite (string_compare_lt_trans _ _ _ H1 H2). reflexivity.
Qed.

Lemma ltb_irrefl (a : string) : String.ltb a a = false.
Proof.
  unfold String.ltb. pose proof (String.compare_antisym a a) as H.
  destruct (String.compare a a); cbn in H; congruence.
Qed.

(** In a list sorted by name the first name is below all the others. *)
Lemma sorted_names_head (a : string) (l : list string) :
  sorted_names (a :: l) = true -> forall b, In b l -> String.ltb a b = true.
Proof.
  revert a. induction l as [|c l IH]; intros a Hs b Hb; [destruct Hb|].
  cbn [sorted_names] in Hs. apply andb_prop in Hs as [Hac Hs].
  destruct Hb as [->|Hb]; [exact Hac|].
  apply (ltb_trans a c b Hac). apply IH; assumption.
Qed.

Lemma sorted_names_tail (a : string) (l : list string) :
  sorted_names (a :: l) = true -> sorted_names l = true.
Proof.
  destruct l as [|b l]; [reflexivity|]. cbn [sorted_names]. intros H.
  apply andb_prop in H as [_ H]. exact H.
Qed.

(** Two listings sorted by name that hold the same files are the same. *)
Lemma sorted_names_unique {A} (l1 : list (string * A)) :
  forall l2,
    sorted_names (List.map fst l1) = true ->
    sorted_names (List.map fst l2) = true ->
    (forall x, In x l1 <-> In x l2) ->
    l1 = l2.
Proof.
  induction l1 as [|x l1 IH]; intros l2 H1 H2 Hin.
  - destruct l2 as [|y l2]; [reflexivity|]. destruct (proj2 (Hin y)). left. reflexivity.
  - destruct l2 as [|y l2]; [destruct (proj1 (Hin x)); left; reflexivity|].
    cbn [List.map] in H1, H2.
    pose proof (sorted_names_head _ _ H1) as Hx.
    pose proof (sorted_names_head _ _ H2) as Hy.
    assert (x = y) as <-.
    { destruct (proj1 (Hin x) (or_introl eq_refl)) as [Heq|Hxl2]; [congruence|].
      destruct (proj2 (Hin y) (or_introl eq_refl)) as [Heq|Hyl1]; [congruence|].
      pose proof (Hy (fst x) (in_map fst _ _ Hxl2)) as Hyx.
      pose proof (Hx (fst y) (in_map fst _ _ Hyl1)) as Hxy.
      pose proof (ltb_trans _ _ _ Hxy Hyx) as Hxx. rewrite ltb_irrefl in Hxx.
      discriminate. }
    f_equal. apply IH; [eapply sorted_names_tail, H1|eapply sorted_names_tail, H2|].
    intros z. split; intros Hz.
    + destruct (proj1 (Hin z) (or_intror Hz)) as [Heq|Hz2]; [|exact Hz2].
      subst z. pose proof (Hx (fst x) (in_map fst _ _ Hz)) as Hxx.
      rewrite ltb_irrefl in Hxx. discriminate.
    + destruct (proj2 (Hin z) (or_intror Hz)) as [Heq|Hz1]; [|exact Hz1].
      subst z. pose proof (Hy (fst x) (in_map fst _ _ Hz)) as Hxx.
      rewrite ltb_irrefl in Hxx. discriminate.
Qed.

(** Leaving files out of a listing sorted by name keeps it sorted. *)
Lemma sorted_names_filter {A} (f : string * A -> bool) (l : list (string * A)) :
  sorted_names (List.map fst l) = true ->
  sorted_names (List.map fst (List.filter f l)) = true.
Proof.
  induction l as [|x l IH]; intros Hs; [reflexivity|].
  cbn [List.map] in Hs. pose proof (sorted_names_head _ _ Hs) as Hx.
  specialize (IH (sorted_names_tail _ _ Hs)).
  cbn [List.filter]. destruct (f x); [|exact IH].
  cbn [List.map]. destruct (List.filter f l) as [|y l'] eqn:Hf; [reflexivity|].
  cbn [List.map sorted_names] in *. rewrite IH, andb_true_r.
  apply Hx. apply in_map. apply (proj1 (filter_In f y l)). rewrite Hf. left. reflexivity.
Qed.

Lemma elem_of_frame_names (n : nat) (q : string) :
  q ∈ frame_names n <-> exists i, i < n /\ q = frame_name i.
Proof.
  unfold frame_names. rewrite list_elem_of_In, in_map_iff. split.
  - intros (i & <- & Hi). apply in_seq in Hi. exists i. split; [lia|reflexivity].
  - intros (i & Hi & ->). exists i. split; [reflexivity|]. apply in_seq. lia.
Qed.

Lemma In_zip_frame_names (datas : list (list byte)) (q : string) (c : list byte) :
  In (q, c) (zip (frame_names (length datas)) datas)
  <-> exists i, q = frame_name i /\ datas !! i = Some c.
Proof.
  rewrite <- list_elem_of_In, elem_of_lookup_zip_with. split.
  - intros (i & q' & c' & Heq & Hq & Hc). injection Heq as -> ->.
    exists i. split; [|exact Hc]. unfold frame_names in Hq.
    rewrite list_lookup_fmap in Hq.
    pose proof (lookup_lt_Some _ _ _ Hc) as Hlt.
    rewrite lookup_seq_lt in Hq by exact Hlt. cbn in Hq. congruence.
  - intros (i & -> & Hc). exists i, (frame_name i), c. split; [reflexivity|].
    split; [|exact Hc]. unfold frame_names. rewrite list_lookup_fmap.
    rewrite lookup_seq_lt by (apply (lookup_lt_Some _ _ _ Hc)). reflexivity.
Qed.

Section FrameListing.
Variable env : Env.
Variable decodebytes : list byte -> result (list byte).

(** The frame files in the listing after the frames [datas] were written:
    one file for each frame, with its bytes, in the order of the frames when
    the names are sorted. *)
Lemma glob_frames_written (datas : list (list byte)) (fs : gmap string (list byte)) :
  length datas <= 99 ->
  List.filter (fun f => bool_decide (fst f ∈ frame_names (length datas)))
    (glob "frames_out/*.jpg" (frames_written 0 datas fs))
  = zip (frame_names (length datas)) datas.
Proof.
  intros Hn. apply sorted_names_unique.
  - apply sorted_names_filter, glob_sorted.
  - change (List.map fst ?l) with (fst <$> l). rewrite fst_zip.
    + apply frame_names_sorted, Hn.
    + unfold frame_names. rewrite length_map, length_seq. lia.
  - intros [q c]. rewrite filter_In, In_glob, In_zip_frame_names. cbn [fst].
    rewrite bool_decide_eq_true, elem_of_frame_names. split.
    + intros ((Hq & _) & i & Hi & ->). exists i. split; [reflexivity|].
      destruct (lookup_lt_is_Some_2 datas i Hi) as [d Hd].
      assert (frames_written 0 datas fs !! frame_name i = Some d) as Hw.
      { apply (frames_written_lookup datas 0 fs i d Hd).
        intros j Hj Heq. apply frame_name_inj in Heq. lia. }
      congruence.
    + intros (i & -> & Hc). pose proof (lookup_lt_Some _ _ _ Hc) as Hlt.
      split; [split; [|apply glob_match_frame_name]|exists i; split; [exact Hlt|reflexivity]].
      apply (frames_written_lookup datas 0 fs i c Hc).
      intros j Hj Heq. apply frame_name_inj in Heq. lia.
Qed.

(** C1 (amended): for every sequence of at most 99 frames that all decode, the
    frame-writing step returns normally having written frame i+1's bytes to
    the file named for it and having changed no other file; the names are
    pairwise distinct (so there are as many files as frames) and all of one
    width (the number is zero-padded to two digits).  In the listing of
    [frames_out/*.jpg] sorted by name, as the encoder takes it, the files
    written come in input order; where no file matched before, the listing is
    exactly the N frames in input order. *)
Theorem save_video_frames_ordered_upto_99 (items : list pyval) (datas : list (list byte))
    (w : World) :
  length items <= 99 ->
  Forall2 (fun v d => decode_frame decodebytes v = inr d) items datas ->
  exists w',
    run env (save_video_frames decodebytes (PyList items)) w ≈ Ret (w', inr tt)
    /\ (forall i d, datas !! i = Some d -> w_fs w' !! frame_name i = Some d)
    /\ (forall q, q ∉ frame_names (length items) -> w_fs w' !! q = w_fs w !! q)
    /\ NoDup (frame_names (length items))
    /\ Forall (fun s => String.length s = 23) (frame_names (length items))
    /\ sort_by_name (zip (frame_names (length items)) datas)
       = zip (frame_names (length items)) datas
    /\ List.filter (fun f => bool_decide (fst f ∈ frame_names (length items)))
         (glob "frames_out/*.jpg" (w_fs w'))
       = zip (frame_names (length items)) datas
    /\ (glob "frames_out/*.jpg" (w_fs w) = [] ->
        glob "frames_out/*.jpg" (w_fs w') = zip (frame_names (length items)) datas).
Proof.
  intros Hn Hd. pose proof (Forall2_length _ _ _ Hd) as Hlen.
  assert (forall q, q ∉ frame_names (length items) ->
                    frames_written 0 datas (w_fs w) !! q = w_fs w !! q) as Hother.
  { intros q Hq. apply frames_written_other. intros j Hj ->. apply Hq.
    apply elem_of_frame_names. exists j. split; [lia|reflexivity]. }
  assert (List.filter (fun f => bool_decide (fst f ∈ frame_names (length items)))
            (glob "frames_out/*.jpg" (frames_written 0 datas (w_fs w)))
          = zip (frame_names (length items)) datas) as Hlisted.
  { rewrite Hlen. apply glob_frames_written. lia. }
  exists (set_fs (frames_written 0 datas) w).
  split; [|split; [|split; [|split; [|split; [|split; [|split]]]]]].
  - apply euttge_sub_eutt, save_video_frames_ok, Hd.
  - intros i d Hi. cbn [set_fs w_fs].
    apply (frames_written_lookup datas 0 (w_fs w) i d Hi).
    intros j Hj Heq. apply frame_name_inj in Heq. lia.
  - exact Hother.
  - apply frame_names_NoDup, Hn.
  - apply frame_names_width, Hn.
  - apply sort_by_name_sorted.
    change (List.map fst ?l) with (fst <$> l).
    rewrite fst_zip.
    + apply frame_names_sorted, Hn.
    + unfold frame_names. rewrite length_map, length_seq. lia.
  - exact Hlisted.
  - intros Hnone. cbn [set_fs w_fs]. rewrite <- Hlisted.
    symmetry. apply forallb_filter_id. apply forallb_forall. intros [q c] Hin.
    cbn [fst]. apply bool_decide_eq_true.
    destruct (decide (q ∈ frame_names (length items))) as [Hq|Hq]; [exact Hq|].
    exfalso. apply In_glob in Hin as [Hf Hm]. rewrite (Hother q Hq) in Hf.
    assert (In (q, c) (glob "frames_out/*.jpg" (w_fs w))) as Hw by (apply In_glob; tauto).
    rewrite Hnone in Hw. destruct Hw.
Qed.

End FrameListing.

Lemma save_video_frames_ordered_upto_99_witness :
  exists w',
    run quiet_env (save_video_frames Base64.a2b_base64 (PyList [PyStr "QUJD"; PyStr "QUI="]))
      empty_world ≈ Ret (w', inr tt)
    /\ (forall q, q ∉ frame_names 2 -> w_fs w' !! q = w_fs empty_world !! q)
    /\ NoDup (frame_names 2)
    /\ Forall (fun s => String.length s = 23) (frame_names 2)
    /\ glob "frames_out/*.jpg" (w_fs w')
       = zip (frame_names 2) [list_byte_of_string "ABC"; list_byte_of_string "AB"].
Proof.
  destruct (save_video_frames_ordered_upto_99 quiet_env Base64.a2b_base64
              [PyStr "QUJD"; PyStr "QUI="]
              [list_byte_of_string "ABC"; list_byte_of_string "AB"] empty_world)
    as (w' & Hrun & _ & Hother & Hnd & Hwidth & _ & _ & Hlisting).
  - cbn. lia.
  - repeat constructor.
  - exists w'. split; [exact Hrun|]. split; [exact Hother|]. split; [exact Hnd|].
    split; [exact Hwidth|]. apply Hlisting. vm_compute. reflexivity.
Defined.

(** ** convert_frames_to_video *)

Section Convert.
Variable env : Env.

Lemma run_ffmpeg (video_path : string) (fps : pyval) (w : World) :
  exists w' r,
    run env (call (FFmpegRun "frames_out/*.jpg" fps video_path output_options)) w
    ≳ Ret (w', r)
    /\ w_log w' = w_log w ++ [AFFmpeg (glob "frames_out/*.jpg" (w_fs w)) fps video_path
                                output_options]
    /\ w_session w' = w_session w
    /\ (forall q, q <> video_path -> w_fs w' !! q = w_fs w !! q)
    /\ (forall u, r = inr u ->
        exists video,
          ffmpeg_encode env (glob "frames_out/*.jpg" (w_fs w)) fps output_options
          = inr video
          /\ w_fs w' = <[video_path := video]> (w_fs w)).
Proof.
  destruct (step env (FFmpegRun "frames_out/*.jpg" fps video_path output_options) w)
    as [w' r] eqn:Hstep.
  exists w', r. split; [rewrite run_call, Hstep; reflexivity|].
  cbn [step] in Hstep.
  assert (forall inputs,
            let failed :=
              match ffmpeg_partial env inputs fps output_options with
              | Some part =>
                  set_fs (insert video_path part)
                    (log (AFFmpeg inputs fps video_path output_options) w)
              | None => log (AFFmpeg inputs fps video_path output_options) w
              end in
            w_log failed = w_log w ++ [AFFmpeg inputs fps video_path output_options]
            /\ w_session failed = w_session w
            /\ forall q, q <> video_path -> w_fs failed !! q = w_fs w !! q) as Hfailed.
  { intros inputs. destruct (ffmpeg_partial env inputs fps output_options);
      cbn; repeat split; try reflexivity.
    intros q Hq. apply lookup_insert_ne. congruence. }
  destruct (glob "frames_out/*.jpg" (w_fs w)) as [|f inputs] eqn:Hin.
  - injection Hstep as <- <-. destruct (Hfailed []) as (Hl & Hs & Hf).
    repeat split; [exact Hl|exact Hs|exact Hf|discriminate].
  - destruct (ffmpeg_encode env (f :: inputs) fps output_options) as [e|video] eqn:Henc;
      injection Hstep as <- <-.
    + destruct (Hfailed (f :: inputs)) as (Hl & Hs & Hf).
      repeat split; [exact Hl|exact Hs|exact Hf|discriminate].
    + split; [reflexivity|]. split; [reflexivity|]. split.
      * intros q Hq. apply lookup_insert_ne. congruence.
      * intros u _. exists video. split; reflexivity.
Qed.

(** X12: the encoder is run once, on the files that [frames_out/*.jpg] selects,
    in strictly increasing byte-wise order of their names, at the frame rate
    of the session, with the video path as its output.  No file but the one at the video path is changed; when the run succeeds
    that file holds the encoder's output, replacing what was there. *)
Theorem convert_frames_to_video_sorted_input (video_path : string) (fps : pyval)
    (w : World) :
  w_session w !! "fps" = Some fps ->
  exists w' r inputs,
    run env (convert_frames_to_video video_path) w ≈ Ret (w', r)
    /\ w_log w' = w_log w ++ [AFFmpeg inputs fps video_path output_options]
    /\ sorted_names (List.map fst inputs) = true
    /\ (forall q c, In (q, c) inputs
                    <-> w_fs w !! q = Some c /\ glob_match "frames_out/*.jpg" q = true)
    /\ (forall q, q <> video_path -> w_fs w' !! q = w_fs w !! q)
    /\ (forall u, r = inr u ->
        exists video,
          ffmpeg_encode env inputs fps output_options = inr video
          /\ w_fs w' = <[video_path := video]> (w_fs w)).
Proof.
  intros Hfps.
  destruct (run_ffmpeg video_path fps w) as (w' & r & Hrun & Hlog & _ & Hother & Hr).
  exists w', r, (glob "frames_out/*.jpg" (w_fs w)).
  split; [|split; [exact Hlog|split;
    [apply glob_sorted|split; [|split; [exact Hother|exact Hr]]]]].
  - apply euttge_sub_eutt. unfold convert_frames_to_video.
    rewrite run_pbind_ok by (apply run_ss_getitem, Hfps). exact Hrun.
  - intros q c. apply In_glob.
Qed.

(** Without [fps] in the session the encoder is not run. *)
Lemma run_convert_without_fps (video_path : string) (w : World) :
  w_session w !! "fps" = None ->
  run env (convert_frames_to_video video_path) w ≳ Ret (w, inl (KeyError "fps")).
Proof.
  intros Hfps. unfold convert_frames_to_video.
  rewrite run_pbind_raise; [reflexivity|]. apply run_ss_getitem_missing, Hfps.
Qed.

End Convert.

Section WriteThenEncode.
Variable env : Env.
Variable decodebytes : list byte -> result (list byte).

(** X13: every frame that is written reaches the encoder: after the frames of a
    list that all decode, however many, the encoder's input has, for each
    entry, the file named for it with exactly the bytes of that entry. *)
Theorem written_frames_reach_encoder (items : list pyval) (datas : list (list byte))
    (video_path : string) (fps : pyval) (w : World) :
  Forall2 (fun v d => decode_frame decodebytes v = inr d) items datas ->
  w_session w !! "fps" = Some fps ->
  exists w' r inputs,
    run env (pbind (save_video_frames decodebytes (PyList items))
               (fun _ => convert_frames_to_video video_path)) w ≈ Ret (w', r)
    /\ w_log w' = w_log w ++ [AFFmpeg inputs fps video_path output_options]
    /\ (forall i d, datas !! i = Some d -> In (frame_name i, d) inputs)
    /\ sorted_names (List.map fst inputs) = true.
Proof.
  intros Hd Hfps.
  set (w1 := set_fs (frames_written 0 datas) w).
  destruct (run_ffmpeg env video_path fps w1) as (w' & r & Hrun & Hlog & _).
  exists w', r, (glob "frames_out/*.jpg" (w_fs w1)).
  split; [|split; [exact Hlog|split; [|apply glob_sorted]]].
  - apply euttge_sub_eutt.
    rewrite run_pbind_ok by (apply save_video_frames_ok, Hd). fold w1.
    unfold convert_frames_to_video.
    rewrite run_pbind_ok by (apply run_ss_getitem; exact Hfps). exact Hrun.
  - intros i d Hi. apply In_glob. split; [|apply glob_match_frame_name].
    cbn [w1 set_fs w_fs].
    apply (frames_written_lookup datas 0 (w_fs w) i d Hi).
    intros j Hj Heq. cbn in Heq. apply frame_name_inj in Heq. lia.
Qed.

End WriteThenEncode.

(** ** From the response to the success message *)

Section Success.
Variable env : Env.
Variable json_load : list byte -> result pyval.
Variable decodebytes : list byte -> result (list byte).

(** Reading the response and writing its frames shows nothing and leaves
    the session alone, however it ends. *)
Lemma run_load_and_save_frames (w : World) :
  exists w1 r1,
    run env (load_and_save_frames json_load decodebytes) w ≳ Ret (w1, r1)
    /\ w_log w1 = w_log w /\ w_session w1 = w_session w.
Proof.
  unfold load_and_save_frames.
  destruct (w_fs w !! RESPONSE_PAYLOAD) as [content|] eqn:Hf.
  2:{ exists w, (inl (open_error env RESPONSE_PAYLOAD)). split; [|split; reflexivity].
      rewrite run_pbind_raise; [reflexivity|].
      rewrite run_call. cbn [step]. rewrite Hf. reflexivity. }
  destruct (json_load content) as [e|data] eqn:Hj.
  { exists w, (inl e). split; [|split; reflexivity].
    rewrite run_pbind_ok by (apply run_fread, Hf).
    rewrite Hj. rewrite run_pbind_raise; [reflexivity|]. apply run_lift. }
  destruct (py_getitem data "frames") as [e|frames] eqn:Hg.
  { exists w, (inl e). split; [|split; reflexivity].
    rewrite run_pbind_ok by (apply run_fread, Hf).
    rewrite Hj. rewrite run_pbind_ok by apply run_lift.
    rewrite Hg. rewrite run_pbind_raise; [reflexivity|]. apply run_lift. }
  destruct (py_iter frames) as [e|items] eqn:Hi.
  { exists w, (inl e). split; [|split; reflexivity].
    rewrite run_pbind_ok by (apply run_fread, Hf).
    rewrite Hj. rewrite run_pbind_ok by apply run_lift.
    rewrite Hg. rewrite run_pbind_ok by apply run_lift.
    unfold save_video_frames. rewrite Hi.
    rewrite run_pbind_raise; [reflexivity|]. apply run_lift. }
  destruct (for_enumerate_save_frame env decodebytes items 0 w)
    as (w1 & r1 & Hrun & _ & _ & Hlog & Hss).
  exists w1, r1. split; [|split; assumption].
  rewrite run_pbind_ok by (apply run_fread, Hf).
  rewrite Hj. rewrite run_pbind_ok by apply run_lift.
  rewrite Hg. rewrite run_pbind_ok by apply run_lift.
  unfold save_video_frames. rewrite Hi.
  rewrite run_pbind_ok by apply run_lift. exact Hrun.
Qed.

(** X14: the steps from the downloaded response to the video report success
    only after the encoder has made the video.  When they return normally
    they have run the encoder and then shown "Video created", and the video
    file holds the encoder's output; when they raise, what they have shown
    is nothing, or the encoder's run alone, never the success message. *)
Theorem assemble_video_success_last (video_path : string) (w : World) :
  exists w' r shown,
    run env (assemble_video json_load decodebytes video_path) w ≈ Ret (w', r)
    /\ w_log w' = w_log w ++ shown
    /\ match r with
       | inr _ =>
           exists inputs fps video,
             shown = [AFFmpeg inputs fps video_path output_options;
                      AShow "success" ("Video created: " ++ video_path)]
             /\ ffmpeg_encode env inputs fps output_options = inr video
             /\ w_fs w' !! video_path = Some video
       | inl _ =>
           shown = []
           \/ exists inputs fps, shown = [AFFmpeg inputs fps video_path output_options]
       end.
Proof.
  destruct (run_load_and_save_frames w) as (w1 & r1 & Hrun1 & Hlog1 & Hss1).
  unfold assemble_video. destruct r1 as [e|[]].
  { exists w1, (inl e), []. split; [|split; [|left; reflexivity]].
    - apply euttge_sub_eutt. rewrite run_pbind_raise; [reflexivity|exact Hrun1].
    - rewrite app_nil_r. exact Hlog1. }
  destruct (w_session w1 !! "fps") as [fps|] eqn:Hfps.
  2:{ exists w1, (inl (KeyError "fps")), []. split; [|split; [|left; reflexivity]].
      - apply euttge_sub_eutt. rewrite run_pbind_ok by exact Hrun1.
        rewrite run_pbind_raise; [reflexivity|]. apply run_convert_without_fps, Hfps.
      - rewrite app_nil_r. exact Hlog1. }
  destruct (run_ffmpeg env video_path fps w1) as (w2 & r2 & Hrun2 & Hlog2 & _ & _ & Hr2).
  assert (run env (convert_frames_to_video video_path) w1 ≳ Ret (w2, r2)) as Hconv.
  { unfold convert_frames_to_video.
    rewrite run_pbind_ok by (apply run_ss_getitem; exact Hfps). exact Hrun2. }
  destruct r2 as [e|[]].
  - exists w2, (inl e), [AFFmpeg (glob "frames_out/*.jpg" (w_fs w1)) fps video_path
                           output_options].
    split; [|split; [|right; eauto]].
    + apply euttge_sub_eutt. rewrite run_pbind_ok by exact Hrun1.
      rewrite run_pbind_raise; [reflexivity|exact Hconv].
    + rewrite Hlog2, Hlog1. reflexivity.
  - destruct (Hr2 tt eq_refl) as (video & Henc & Hfs2).
    exists (log (AShow "success" ("Video created: " ++ video_path)) w2), (inr tt),
           [AFFmpeg (glob "frames_out/*.jpg" (w_fs w1)) fps video_path output_options;
            AShow "success" ("Video created: " ++ video_path)].
    split; [|split].
    + apply euttge_sub_eutt. rewrite run_pbind_ok by exact Hrun1.
      rewrite run_pbind_ok by exact Hconv. unfold st_show. apply run_perform.
    + cbn [log w_log]. rewrite Hlog2, Hlog1, <- app_assoc. reflexivity.
    + exists (glob "frames_out/*.jpg" (w_fs w1)), fps, video.
      split; [reflexivity|]. split; [exact Henc|].
      cbn [log w_fs]. rewrite Hfs2. apply lookup_insert_eq.
Qed.

End Success.

Lemma waited_session (bucket key : string) (n : nat) :
  forall w : World, w_session (waited bucket key n w) = w_session w.
Proof. induction n as [|n IH]; intros w; [reflexivity|]. cbn [waited]. rewrite IH. reflexivity. Qed.

(** ** The job *)

Section Job.
Variable env : Env.
Variable urlparse : string -> ParseResult.
Variable json_load : list byte -> result pyval.
Variable float_repr : float -> string.
Variable decodebytes : list byte -> result (list byte).

(** The job up to the downloaded response. *)
Lemma run_create_video_job (upload : option UploadedFile) (jpeg : list byte)
    (values : string -> pyval) (video_path location : string) (k : nat)
    (response : list byte) (w : World) :
  upload_jpeg upload = inr jpeg ->
  (forall k, In k request_keys -> w_session w !! k = Some (values k)) ->
  submission env = inr location ->
  (forall i, i < k -> s3_get_object_answer env (w_gets w + i) = inl NoSuchKey) ->
  s3_get_object_answer env (w_gets w + k) = inr tt ->
  s3_download_answer env (w_downloads w) = inr response ->
  let bucket := netloc (urlparse location) in
  let key := slice_from_1 (path (urlparse location)) in
  let body :=
    Json.utf8 (Json.dumps float_repr
      (request_dict (string_of_list_byte (Base64.b64encode jpeg))
         (values "width") (values "height") (values "num_frames")
         (values "num_inference_steps") (values "min_guidance_scale")
         (values "max_guidance_scale") (values "fps") (values "motion_bucket_id")
         (values "noise_aug_strength") (values "decode_chunk_size") (values "seed"))) in
  exists w',
    run env (create_video_job urlparse json_load float_repr decodebytes upload video_path) w
    ≳ run env (assemble_video json_load decodebytes video_path) w'
    /\ w_log w'
       = w_log w
         ++ [AShow "spinner" "Creating video...";
             AUpload REQUEST_PAYLOAD S3_BUCKET "async_inference/input/payload.json"
               "application/json" body;
             AInvoke ENDPOINT_NAME
               ("s3://" ++ S3_BUCKET ++ "/async_inference/input/payload.json") 3600]
         ++ waiting_log bucket key k
         ++ [AGetObject bucket key; ADownload bucket key RESPONSE_PAYLOAD;
             APrint "Model response received."]
    /\ w_fs w' = <[RESPONSE_PAYLOAD := response]> (<[REQUEST_PAYLOAD := body]> (w_fs w))
    /\ w_session w' = w_session w.
Proof.
  intros Hj Hvalues Hsub Hnf Hok Hdl bucket key body.
  set (w0 := log (AShow "spinner" "Creating video...") w).
  destruct (run_invoke_model_calls env float_repr upload jpeg values w0 Hj Hvalues)
    as (w1 & Hrun & Hfs & Hss & Hlog & Hgets & Hdls).
  rewrite Hsub in Hrun.
  assert (s3_upload_answer env = inr tt) as Hup.
  { unfold submission in Hsub.
    destruct (s3_upload_answer env) as [e|[]]; [discriminate|reflexivity]. }
  rewrite Hup in Hlog.
  assert (run env (get_model_response urlparse location) w1
          ≳ Ret (found bucket key response (waited bucket key k w1), inr true)) as Hpoll.
  { unfold get_model_response. fold bucket key.
    rewrite (run_poll_waits env bucket key k w1).
    2:{ intros i Hi. rewrite Hgets. apply Hnf, Hi. }
    apply run_iter_done, poll_once_found.
    - rewrite waited_gets, Hgets. exact Hok.
    - rewrite waited_downloads, Hdls. exact Hdl. }
  exists (found bucket key response (waited bucket key k w1)).
  split; [|split; [|split]].
  - unfold create_video_job.
    rewrite run_pbind_ok by apply run_perform. cbn [step fst snd]. fold w0.
    rewrite run_pbind_ok by exact Hrun.
    rewrite run_pbind_ok by exact Hpoll. reflexivity.
  - cbn [found log set_fs count_get count_download w_log]. rewrite waited_log, Hlog.
    cbn [w0 log w_log]. rewrite <- !app_assoc. reflexivity.
  - cbn [found log set_fs count_get count_download w_fs]. rewrite waited_fs, Hfs. reflexivity.
  - cbn [found log set_fs count_get count_download w_session].
    rewrite waited_session, Hss. reflexivity.
Qed.

(** X15: when the upload of the request or the invocation of the endpoint raises,
    the job ends with that exception: the store is never polled, nothing is
    downloaded, no frame is written and the encoder is not run. *)
Theorem create_video_job_stops_on_failed_submission (upload : option UploadedFile)
    (jpeg : list byte) (values : string -> pyval) (video_path : string) (e : exn)
    (w : World) :
  upload_jpeg upload = inr jpeg ->
  (forall k, In k request_keys -> w_session w !! k = Some (values k)) ->
  submission env = inl e ->
  exists w' body,
    run env (create_video_job urlparse json_load float_repr decodebytes upload video_path) w
    ≈ Ret (w', inl e)
    /\ w_log w'
       = w_log w
         ++ AShow "spinner" "Creating video..."
            :: AUpload REQUEST_PAYLOAD S3_BUCKET "async_inference/input/payload.json"
                 "application/json" body
            :: match s3_upload_answer env with
               | inr _ =>
                   [AInvoke ENDPOINT_NAME
                      ("s3://" ++ S3_BUCKET ++ "/async_inference/input/payload.json") 3600]
               | inl _ => []
               end
    /\ w_gets w' = w_gets w
    /\ w_downloads w' = w_downloads w
    /\ w_fs w' = <[REQUEST_PAYLOAD := body]> (w_fs w).
Proof.
  intros Hj Hvalues Hsub.
  set (w0 := log (AShow "spinner" "Creating video...") w).
  destruct (run_invoke_model_calls env float_repr upload jpeg values w0 Hj Hvalues)
    as (w' & Hrun & Hfs & _ & Hlog & Hgets & Hdl).
  rewrite Hsub in Hrun.
  exists w'. eexists. split; [|split; [|split; [|split]]].
  - apply euttge_sub_eutt. unfold create_video_job.
    rewrite run_pbind_ok by apply run_perform. cbn [step fst snd]. fold w0.
    rewrite run_pbind_raise; [reflexivity|exact Hrun].
  - rewrite Hlog. cbn [w0 log w_log]. rewrite <- app_assoc. reflexivity.
  - exact Hgets.
  - exact Hdl.
  - exact Hfs.
Qed.

(** X16: the job fetches the result from the place the endpoint named: after the
    spinner, the upload and the invocation, it polls the bucket and key of
    the returned location until the object is there, downloads it to the
    response file, and goes on to assemble the video from that file. *)
Theorem create_video_job_fetches_returned_location (upload : option UploadedFile)
    (jpeg : list byte) (values : string -> pyval) (video_path location : string)
    (k : nat) (response : list byte) (w : World) :
  upload_jpeg upload = inr jpeg ->
  (forall k, In k request_keys -> w_session w !! k = Some (values k)) ->
  submission env = inr location ->
  (forall i, i < k -> s3_get_object_answer env (w_gets w + i) = inl NoSuchKey) ->
  s3_get_object_answer env (w_gets w + k) = inr tt ->
  s3_download_answer env (w_downloads w) = inr response ->
  let bucket := netloc (urlparse location) in
  let key := slice_from_1 (path (urlparse location)) in
  exists w' body,
    run env (create_video_job urlparse json_load float_repr decodebytes upload video_path) w
    ≈ run env (assemble_video json_load decodebytes video_path) w'
    /\ w_log w'
       = w_log w
         ++ [AShow "spinner" "Creating video...";
             AUpload REQUEST_PAYLOAD S3_BUCKET "async_inference/input/payload.json"
               "application/json" body;
             AInvoke ENDPOINT_NAME
               ("s3://" ++ S3_BUCKET ++ "/async_inference/input/payload.json") 3600]
         ++ waiting_log bucket key k
         ++ [AGetObject bucket key; ADownload bucket key RESPONSE_PAYLOAD;
             APrint "Model response received."]
    /\ w_fs w' = <[RESPONSE_PAYLOAD := response]> (<[REQUEST_PAYLOAD := body]> (w_fs w))
    /\ w_session w' = w_session w.
Proof.
  intros Hj Hvalues Hsub Hnf Hok Hdl bucket key.
  destruct (run_create_video_job upload jpeg values video_path location k response w
              Hj Hvalues Hsub Hnf Hok Hdl)
    as (w' & Hrun & Hlog & Hfs & Hss).
  exists w'. eexists. split; [apply euttge_sub_eutt, Hrun|].
  split; [exact Hlog|]. split; [exact Hfs | exact Hss].
Qed.

End Job.

(** ** base64: what [encode_image] writes, [save_video_frames] reads *)

Lemma In_all_bytes (b : byte) : In b all_bytes.
Proof.
  unfold all_bytes. apply in_map_iff. exists (Byte.to_nat b). split.
  - unfold Base64.byte_of_N. rewrite <- Byte.to_N_via_nat.
    pose proof (Byte.to_N_bounded b) as Hb.
    rewrite N.mod_small by lia. rewrite Byte.of_to_N. reflexivity.
  - apply in_seq. pose proof (Byte.to_nat_bounded b). lia.
Qed.

Lemma all_first_pairs_ok :
  forallb (fun a => forallb (first_pair_ok a) all_bytes) all_bytes = true.
Proof. vm_compute. reflexivity. Qed.

Lemma all_last_pairs_ok :
  forallb (fun b => forallb (last_pair_ok b) all_bytes) all_bytes = true.
Proof. vm_compute. reflexivity. Qed.

Lemma first_pair_facts (a b : byte) :
  let x := Byte.to_N a in
  let y := Byte.to_N b in
  let v1 := N.shiftr x 2 in
  let v2 := N.lor (N.shiftl (N.land x 3) 4) (N.shiftr y 4) in
  let v2' := N.shiftl (N.land x 3) 4 in
  sextet_ok v1 = true /\ sextet_ok v2 = true /\ sextet_ok v2' = true
  /\ Base64.byte_of_N (N.lor (N.shiftl v1 2) (N.shiftr v2 4)) = a
  /\ Base64.byte_of_N (N.lor (N.shiftl v1 2) (N.shiftr v2' 4)) = a
  /\ N.land v2 15 = N.shiftr y 4.
Proof.
  pose proof all_first_pairs_ok as H. rewrite forallb_forall in H.
  specialize (H a (In_all_bytes a)). rewrite forallb_forall in H.
  specialize (H b (In_all_bytes b)). unfold first_pair_ok in H. cbv zeta in *.
  do 5 (apply andb_prop in H as [H ?]).
  repeat split; try assumption.
  - apply Byte.byte_dec_bl. assumption.
  - apply Byte.byte_dec_bl. assumption.
  - apply N.eqb_eq. assumption.
Qed.

Lemma last_pair_facts (b c : byte) :
  let y := Byte.to_N b in
  let z := Byte.to_N c in
  let v3 := N.lor (N.shiftl (N.land y 15) 2) (N.shiftr z 6) in
  let v3' := N.shiftl (N.land y 15) 2 in
  let v4 := N.land z 63 in
  sextet_ok v3 = true /\ sextet_ok v3' = true /\ sextet_ok v4 = true
  /\ Base64.byte_of_N (N.lor (N.shiftl (N.shiftr y 4) 4) (N.shiftr v3 2)) = b
  /\ Base64.byte_of_N (N.lor (N.shiftl (N.shiftr y 4) 4) (N.shiftr v3' 2)) = b
  /\ N.land v3 3 = N.shiftr z 6
  /\ Base64.byte_of_N (N.lor (N.shiftl (N.shiftr z 6) 6) v4) = c.
Proof.
  pose proof all_last_pairs_ok as H. rewrite forallb_forall in H.
  specialize (H b (In_all_bytes b)). rewrite forallb_forall in H.
  specialize (H c (In_all_bytes c)). unfold last_pair_ok in H. cbv zeta in *.
  do 6 (apply andb_prop in H as [H ?]).
  repeat split; try assumption.
  - apply Byte.byte_dec_bl. assumption.
  - apply Byte.byte_dec_bl. assumption.
  - apply N.eqb_eq. assumption.
  - apply Byte.byte_dec_bl. assumption.
Qed.

Lemma sextet_ok_spec (v : N) :
  sextet_ok v = true ->
  Byte.eqb (Base64.b2a v) Base64.BASE64_PAD = false
  /\ Base64.table_a2b_base64 (Base64.b2a v) = Some v.
Proof.
  unfold sextet_ok. intros H. apply andb_prop in H as [Hp Ht].
  split; [apply negb_true_iff, Hp|].
  destruct (Base64.table_a2b_base64 (Base64.b2a v)) as [v'|]; [|discriminate Ht].
  apply N.eqb_eq in Ht. congruence.
Qed.

(** One more character of the alphabet. *)
Lemma a2b_loop_sextet (v : N) (rest : list byte) (quad_pos : nat) (leftchar : N)
    (pads : nat) (bin : list byte) :
  sextet_ok v = true ->
  Base64.a2b_loop (Base64.b2a v :: rest) quad_pos leftchar pads bin
  = match quad_pos with
    | 0 => Base64.a2b_loop rest 1 v 0 bin
    | 1 => Base64.a2b_loop rest 2 (N.land v 15) 0
             (bin ++ [Base64.byte_of_N (N.lor (N.shiftl leftchar 2) (N.shiftr v 4))])
    | 2 => Base64.a2b_loop rest 3 (N.land v 3) 0
             (bin ++ [Base64.byte_of_N (N.lor (N.shiftl leftchar 4) (N.shiftr v 2))])
    | _ => Base64.a2b_loop rest 0 0%N 0
             (bin ++ [Base64.byte_of_N (N.lor (N.shiftl leftchar 6) v)])
    end.
Proof.
  intros Hv. apply sextet_ok_spec in Hv as [Hp Ht].
  cbn [Base64.a2b_loop]. rewrite Hp, Ht. reflexivity.
Qed.

Lemma three_ind {A} (P : list A -> Prop) :
  P [] -> (forall a, P [a]) -> (forall a b, P [a; b]) ->
  (forall a b c l, P l -> P (a :: b :: c :: l)) ->
  forall l, P l.
Proof.
  intros H0 H1 H2 H3.
  assert (forall l, P l /\ (forall a, P (a :: l)) /\ (forall a b, P (a :: b :: l))) as H.
  { induction l as [|c l (IH0 & IH1 & IH2)].
    - split; [exact H0|]. split; [exact H1 | exact H2].
    - split; [apply IH1|]. split; [intros a; apply IH2|].
      intros a b. apply H3, IH0. }
  intros l. apply H.
Qed.

Lemma a2b_loop_b64encode (s : list byte) :
  forall bin : list byte,
    Base64.a2b_loop (Base64.b64encode s) 0 0%N 0 bin = inr (bin ++ s).
Proof.
  induction s as [|a|a b|a b c s IH] using three_ind; intros bin.
  - cbn. rewrite app_nil_r. reflexivity.
  - destruct (first_pair_facts a a) as (H1 & _ & H2 & _ & Ha & _). cbv zeta in *.
    cbn [Base64.b64encode]. cbv zeta.
    rewrite (a2b_loop_sextet _ _ _ _ _ _ H1), (a2b_loop_sextet _ _ _ _ _ _ H2), Ha.
    reflexivity.
  - destruct (first_pair_facts a b) as (H1 & H2 & _ & Ha & _ & Hl). cbv zeta in *.
    destruct (last_pair_facts b b) as (_ & H3 & _ & _ & Hb & _). cbv zeta in *.
    cbn [Base64.b64encode]. cbv zeta.
    rewrite (a2b_loop_sextet _ _ _ _ _ _ H1), (a2b_loop_sextet _ _ _ _ _ _ H2), Ha, Hl.
    rewrite (a2b_loop_sextet _ _ _ _ _ _ H3), Hb.
    cbn. rewrite <- app_assoc. reflexivity.
  - destruct (first_pair_facts a b) as (H1 & H2 & _ & Ha & _ & Hl). cbv zeta in *.
    destruct (last_pair_facts b c) as (H3 & _ & H4 & Hb & _ & Hl3 & Hc). cbv zeta in *.
    cbn [Base64.b64encode]. cbv zeta.
    rewrite (a2b_loop_sextet _ _ _ _ _ _ H1), (a2b_loop_sextet _ _ _ _ _ _ H2), Ha, Hl.
    rewrite (a2b_loop_sextet _ _ _ _ _ _ H3), Hb, Hl3.
    rewrite (a2b_loop_sextet _ _ _ _ _ _ H4), Hc.
    rewrite IH, <- !app_assoc. reflexivity.
Qed.

(** Decoding what [b64encode] produced gives the bytes back. *)
Lemma a2b_base64_b64encode (s : list byte) : Base64.a2b_base64 (Base64.b64encode s) = inr s.
Proof. unfold Base64.a2b_base64. apply (a2b_loop_b64encode s []). Qed.

Section EncodeImage.
Variable env : Env.

(** X17: base64 text as [encode_image] makes it is read back by the decoding of
    [save_video_frames]: the string returned for an image, taken as a video
    frame, gives exactly the JPEG bytes that were encoded. *)
Theorem encode_image_decodes_back (image : Image) (w : World) :
  match im_jpeg image with
  | inr jpeg =>
      exists image64,
        run env (encode_image image) w ≈ Ret (w, inr image64)
        /\ decode_frame Base64.a2b_base64 (PyStr image64) = inr jpeg
  | inl e => run env (encode_image image) w ≈ Ret (w, inl e)
  end.
Proof.
  destruct (im_jpeg image) as [e|jpeg] eqn:Hj.
  - apply euttge_sub_eutt. unfold encode_image. rewrite Hj.
    rewrite run_pbind_raise; [reflexivity|]. apply run_lift.
  - exists (string_of_list_byte (Base64.b64encode jpeg)). split.
    + apply euttge_sub_eutt, run_encode_image, Hj.
    + unfold decode_frame. cbn [bytes_raw_unicode_escape].
      rewrite list_byte_of_string_of_list_byte. apply a2b_base64_b64encode.
Qed.

End EncodeImage.

(** ** A whole run that makes a video *)

Lemma shown_only_refl (w : World) : shown_only w w.
Proof. repeat split. Qed.

Lemma shown_only_log (w w1 : World) (a : action) :
  is_network_call a = false -> shown_only w w1 -> shown_only w (log a w1).
Proof.
  intros Ha (Hfs & Hg & Hd & Hlog). repeat split; try assumption.
  cbn. rewrite List.filter_app. cbn. rewrite Ha, app_nil_r. exact Hlog.
Qed.

Lemma shown_only_session (w w1 : World) (f : gmap string pyval -> gmap string pyval) :
  shown_only w w1 -> shown_only w (set_session f w1).
Proof. intros H. exact H. Qed.

Section Steps.
Variable env : Env.

(** A step that returns [v], from [P] to [Q]. *)
Lemma triple_step {A B} (P Q : World -> Prop) (t : py A) (v : A) (k : A -> py B)
    (R : World -> result B -> Prop) :
  triple env P t (fun w r => Q w /\ r = inr v) ->
  triple env Q (k v) R ->
  triple env P (pbind t k) R.
Proof.
  intros Ht Hk. apply (triple_pbind env _ _ _ _ _ Ht).
  - intros a w [Hw Ha]. injection Ha as ->. apply Hk, Hw.
  - intros w e [_ He]. discriminate He.
Qed.

(** A step that returns, from [P] to [Q]. *)
Lemma triple_skip {A B} (P Q : World -> Prop) (t : py A) (k : A -> py B)
    (R : World -> result B -> Prop) :
  triple env P t (fun w r => Q w /\ exists a, r = inr a) ->
  (forall a, triple env Q (k a) R) ->
  triple env P (pbind t k) R.
Proof.
  intros Ht Hk. apply (triple_pbind env _ _ _ _ _ Ht).
  - intros a w [Hw _]. apply Hk, Hw.
  - intros w e [_ [a Ha]]. discriminate Ha.
Qed.

Lemma triple_st_show (P : World -> Prop) (kind body : string) :
  (forall w, P w -> P (log (AShow kind body) w)) ->
  triple env P (st_show kind body) (fun w r => P w /\ exists a, r = inr a).
Proof. intros H. apply triple_perform. intros w Hw. cbn. split; [apply H, Hw|eauto]. Qed.

(** A run that goes on as another one ends as that one does. *)
Lemma run_then {A} (t : itree ioE A) (w : World) (t' : itree ioE A) (w' : World)
    (Q : World -> A -> Prop) :
  run env t w ≳ run env t' w' ->
  (exists w'' r, run env t' w' ≳ Ret (w'', r) /\ Q w'' r) ->
  exists w'' r, run env t w ≳ Ret (w'', r) /\ Q w'' r.
Proof.
  intros Hgo (w'' & r & Hrun & Hq). exists w'', r. split; [|exact Hq].
  rewrite Hgo. exact Hrun.
Qed.

End Steps.

Section FormFields.
Variable env : Env.
Variable base : string -> pyval.
Variable w : World.
Variable title : pyval.

Lemma NoDup_request_keys : NoDup request_keys.
Proof. apply (bool_decide_eq_true_1 (NoDup request_keys)). vm_compute. reflexivity. Qed.

Lemma request_keys_not_title (i : nat) (key : string) :
  request_keys !! i = Some key -> key <> "movie_title".
Proof.
  intros Hi ->. apply list_elem_of_lookup_2 in Hi.
  revert Hi. apply (bool_decide_eq_false_1 (_ ∈ _)). vm_compute. reflexivity.
Qed.

(** One number field: the value the field returns is stored under its key,
    and the other keys are as they were. *)
Lemma triple_number_field (n : nat) (key label : string) (dflt : pyval) :
  request_keys !! n = Some key ->
  field_label key = label ->
  triple env (form_state env base w title n) (number_field label key dflt)
    (fun w1 r => form_state env base w title (S n) w1 /\ exists a, r = inr a).
Proof.
  intros Hn Hlabel w1 (Hout & Htitle & Hkeys).
  pose proof (Hkeys n key Hn) as Hkey. rewrite Nat.ltb_irrefl in Hkey.
  eexists _, _. split; [apply run_number_field|]. split; [|eauto].
  rewrite Hkey. cbn [default set_session]. split; [exact Hout|]. split.
  - cbn [w_session set_session]. rewrite lookup_insert_ne; [exact Htitle|].
    apply (request_keys_not_title n), Hn.
  - intros i key' Hi. cbn [w_session set_session].
    destruct (decide (key = key')) as [<-|Hne].
    + rewrite lookup_insert_eq.
      assert (i = n) as -> by exact (NoDup_lookup _ _ _ _ NoDup_request_keys Hi Hn).
      rewrite (proj2 (Nat.ltb_lt n (S n))) by lia.
      unfold field_value. rewrite Hlabel. reflexivity.
    + rewrite lookup_insert_ne by exact Hne. rewrite (Hkeys i key' Hi).
      assert (i <> n) as Hin by (intros ->; congruence).
      destruct (i <? n)%nat eqn:Hlt.
      * apply Nat.ltb_lt in Hlt. rewrite (proj2 (Nat.ltb_lt i (S n))) by lia. reflexivity.
      * apply Nat.ltb_ge in Hlt. rewrite (proj2 (Nat.ltb_ge i (S n))) by lia. reflexivity.
Qed.

End FormFields.

Lemma filter_waiting_log (bucket key : string) (n : nat) :
  List.filter is_network_call (waiting_log bucket key n) = repeat (AGetObject bucket key) n.
Proof.
  unfold waiting_log. induction n as [|n IH]; [reflexivity|].
  cbn [repeat concat]. rewrite List.filter_app, IH. reflexivity.
Qed.


Lemma frame_name_not_video (idx : nat) (name : string) :
  frame_name idx <> ("video_out/" ++ name)%string.
Proof. rewrite frame_name_number. discriminate. Qed.

Section Tail.
Variable env : Env.
Variable urlparse : string -> ParseResult.
Variable json_load : list byte -> result pyval.
Variable float_repr : float -> string.
Variable decodebytes : list byte -> result (list byte).


(** From a response whose frames all decode to the success message. *)
Lemma run_assemble_video_ok (video_path : string) (response : list byte) (data : pyval)
    (items : list pyval) (datas : list (list byte)) (fps : pyval) (video : list byte)
    (w : World) :
  w_fs w !! RESPONSE_PAYLOAD = Some response ->
  json_load response = inr data ->
  py_getitem data "frames" = inr (PyList items) ->
  Forall2 (fun v d => decode_frame decodebytes v = inr d) items datas ->
  items <> [] ->
  w_session w !! "fps" = Some fps ->
  (forall inputs, inputs <> [] -> ffmpeg_encode env inputs fps output_options = inr video) ->
  exists w',
    run env (assemble_video json_load decodebytes video_path) w ≳ Ret (w', inr tt)
    /\ w_fs w' = <[video_path := video]> (frames_written 0 datas (w_fs w))
    /\ w_session w' = w_session w
    /\ w_gets w' = w_gets w /\ w_downloads w' = w_downloads w
    /\ exists inputs,
         w_log w' = w_log w ++ [AFFmpeg inputs fps video_path output_options;
                                AShow "success" ("Video created: " ++ video_path)].
Proof.
  intros Hf Hj Hg Hd Hne Hfps Henc.
  set (w1 := set_fs (frames_written 0 datas) w).
  assert (run env (load_and_save_frames json_load decodebytes) w ≳ Ret (w1, inr tt)) as Hload.
  { unfold load_and_save_frames.
    rewrite run_pbind_ok by (apply run_fread, Hf).
    rewrite Hj. rewrite run_pbind_ok by apply run_lift.
    rewrite Hg. rewrite run_pbind_ok by apply run_lift.
    apply save_video_frames_ok, Hd. }
  destruct (run_ffmpeg env video_path fps w1)
    as (w2 & r2 & Hrun2 & Hlog2 & Hss2 & Hr2 & _).
  assert (glob "frames_out/*.jpg" (w_fs w1) <> []) as Hin.
  { destruct Hd as [|v d items datas Hv Hd]; [contradiction|].
    assert (In (frame_name 0, d) (glob "frames_out/*.jpg" (w_fs w1))) as Hi.
    { apply In_glob. split; [|apply glob_match_frame_name].
      cbn [w1 set_fs w_fs].
      apply (frames_written_lookup (d :: datas) 0 (w_fs w) 0 d eq_refl).
      intros j Hj' Heq. apply frame_name_inj in Heq. lia. }
    intros Heq. rewrite Heq in Hi. destruct Hi. }
  assert (step env (FFmpegRun "frames_out/*.jpg" fps video_path output_options) w1
          = (set_fs (insert video_path video)
               (log (AFFmpeg (glob "frames_out/*.jpg" (w_fs w1)) fps video_path
                       output_options) w1), inr tt)) as Hstep.
  { cbn [step]. destruct (glob "frames_out/*.jpg" (w_fs w1)) as [|f inputs] eqn:Hglob;
      [contradiction|].
    rewrite (Henc (f :: inputs)) by discriminate. reflexivity. }
  eexists. split; [|split; [|split; [|split; [|split]]]].
  - unfold assemble_video.
    rewrite run_pbind_ok by exact Hload.
    rewrite run_pbind_ok.
    2:{ unfold convert_frames_to_video.
        rewrite run_pbind_ok by (apply run_ss_getitem; exact Hfps).
        rewrite run_call, Hstep. reflexivity. }
    unfold st_show. apply run_perform.
  - reflexivity.
  - reflexivity.
  - reflexivity.
  - reflexivity.
  - eexists. cbn. rewrite <- app_assoc. reflexivity.
Qed.

End Tail.

Lemma request_keys_have_defaults (i : nat) (key : string) :
  request_keys !! i = Some key -> is_Some (dict_get session_state_defaults key).
Proof.
  intros Hi. do 11 (destruct i as [|i]; [injection Hi as <-; vm_compute; eauto|]).
  discriminate Hi.
Qed.

Lemma default_Some {A} (d v : A) : default d (Some v) = v.
Proof. reflexivity. Qed.

Section WholeRun.
Variable env : Env.
Variable urlparse : string -> ParseResult.
Variable splitext : string -> string * string.
Variable json_load : list byte -> result pyval.
Variable float_repr : float -> string.
Variable decodebytes : list byte -> result (list byte).


(** The form of a run with an accepted upload, up to the first number
    field. *)
Lemma form_state_after_upload (up : UploadedFile) (image : Image) (w w1 : World) :
  shown_only w w1 ->
  (forall key,
     w_session w1 !! key
     = match w_session w !! key with
       | Some v => Some v
       | None => dict_get session_state_defaults key
       end) ->
  forall title,
    form_state env (session_at_form w image) w title 0
      (set_session (insert "movie_title" title)
         (log (AShow "image" "")
            (log (AShow "write" "Conditioning Image :camera:")
               (set_session
                  (fun s => <["height" := PyInt (snd (im_size image))]>
                              (<["width" := PyInt (fst (im_size image))]>
                                 (<["movie_title" := PyStr (fst (splitext (up_name up)))]> s)))
                  w1)))).
Proof.
  intros Ho Hs title. split; [|split].
  - apply shown_only_session, shown_only_log; [reflexivity|].
    apply shown_only_log; [reflexivity|]. apply shown_only_session, Ho.
  - cbn. apply lookup_insert_eq.
  - intros i key Hi. cbn [Nat.ltb Nat.leb]. cbn [set_session log w_session].
    rewrite lookup_insert_ne by (intros Heq; symmetry in Heq; revert Heq;
                                 apply (request_keys_not_title i), Hi).
    unfold session_at_form.
    destruct (String.eqb_spec key "height") as [->|Hh].
    { rewrite lookup_insert_eq. reflexivity. }
    rewrite lookup_insert_ne by congruence.
    destruct (String.eqb_spec key "width") as [->|Hw].
    { rewrite lookup_insert_eq. reflexivity. }
    rewrite lookup_insert_ne by congruence.
    rewrite lookup_insert_ne by (intros Heq; symmetry in Heq; revert Heq;
                                 apply (request_keys_not_title i), Hi).
    rewrite Hs. destruct (w_session w !! key); [reflexivity|].
    destruct (request_keys_have_defaults i key Hi) as [d Hd]. rewrite Hd. reflexivity.
Qed.

(** X18: a whole run that makes a video.  An image within the size limit is
    uploaded, "Create Video" is pressed, the upload and the invocation go
    through, the result appears after [k] fruitless fetches, its frames all
    decode and the encoder succeeds.  Then [main] returns normally, and: the
    request it uploaded has the encoded image and, for each parameter, what
    its field returned (what the user entered, else the size of the image for
    width and height, else what the session held, else the default); the
    calls to S3 and SageMaker are the upload, the invocation, [k + 1] fetches
    and the download, in this order; the success message names
    [video_out/<title>.mp4], the title being what the title field returned
    (by default the file name without extension); that file holds the
    encoder's output, and each frame is in its file. *)
Theorem main_creates_video (up : UploadedFile) (image : Image) (jpeg : list byte)
    (location : string) (k : nat) (response : list byte) (data : pyval)
    (items : list pyval) (datas : list (list byte)) (video : list byte) (w : World) :
  ui_upload env = Some up ->
  (up_size up <= MAX_FILE_SIZE)%Z ->
  up_image up = inr image ->
  im_jpeg image = inr jpeg ->
  ui_button env "Create Video" = true ->
  submission env = inr location ->
  (forall i, i < k -> s3_get_object_answer env (w_gets w + i) = inl NoSuchKey) ->
  s3_get_object_answer env (w_gets w + k) = inr tt ->
  s3_download_answer env (w_downloads w) = inr response ->
  json_load response = inr data ->
  py_getitem data "frames" = inr (PyList items) ->
  Forall2 (fun v d => decode_frame decodebytes v = inr d) items datas ->
  items <> [] ->
  (forall inputs fps,
     inputs <> [] -> ffmpeg_encode env inputs fps output_options = inr video) ->
  let title := default (PyStr (fst (splitext (up_name up)))) (ui_text env "Movie Title") in
  let video_path := ("video_out/" ++ py_str title ++ ".mp4")%string in
  let value := form_value env w image in
  let body :=
    Json.utf8 (Json.dumps float_repr
      (request_dict (string_of_list_byte (Base64.b64encode jpeg))
         (value "width") (value "height") (value "num_frames")
         (value "num_inference_steps") (value "min_guidance_scale")
         (value "max_guidance_scale") (value "fps") (value "motion_bucket_id")
         (value "noise_aug_strength") (value "decode_chunk_size") (value "seed"))) in
  let bucket := netloc (urlparse location) in
  let key := slice_from_1 (path (urlparse location)) in
  exists w',
    run env (main urlparse splitext json_load float_repr decodebytes) w ≈ Ret (w', inr tt)
    /\ List.filter is_network_call (w_log w')
       = List.filter is_network_call (w_log w)
         ++ [AUpload REQUEST_PAYLOAD S3_BUCKET "async_inference/input/payload.json"
               "application/json" body;
             AInvoke ENDPOINT_NAME
               ("s3://" ++ S3_BUCKET ++ "/async_inference/input/payload.json") 3600]
         ++ repeat (AGetObject bucket key) (S k)
         ++ [ADownload bucket key RESPONSE_PAYLOAD]
    /\ In (AShow "success" ("Video created: " ++ video_path)) (w_log w')
    /\ w_fs w' !! video_path = Some video
    /\ (forall i d, datas !! i = Some d -> w_fs w' !! frame_name i = Some d)
    /\ w_session w' !! "movie_title" = Some title.
Proof.
  intros Hupload Hsize Him Hjpeg Hbutton Hsub Hnf Hok Hdl Hjson Hframes Hdec Hne Henc
         title video_path value body bucket key.
  set (Post := fun (w' : World) (r : result unit) =>
         r = inr tt
         /\ List.filter is_network_call (w_log w')
            = List.filter is_network_call (w_log w)
              ++ [AUpload REQUEST_PAYLOAD S3_BUCKET "async_inference/input/payload.json"
                    "application/json" body;
                  AInvoke ENDPOINT_NAME
                    ("s3://" ++ S3_BUCKET ++ "/async_inference/input/payload.json") 3600]
              ++ repeat (AGetObject bucket key) (S k)
              ++ [ADownload bucket key RESPONSE_PAYLOAD]
         /\ In (AShow "success" ("Video created: " ++ video_path)) (w_log w')
         /\ w_fs w' !! video_path = Some video
         /\ (forall i d, datas !! i = Some d -> w_fs w' !! frame_name i = Some d)
         /\ w_session w' !! "movie_title" = Some title).
  assert (triple env (fun w1 => shown_only w w1 /\ w_session w1 = w_session w)
            (main urlparse splitext json_load float_repr decodebytes) Post) as Ht.
  { unfold main.
    do 5 (apply (triple_skip env _ (fun w1 => shown_only w w1 /\ w_session w1 = w_session w));
          [ apply triple_st_show; intros w1 [Ho Hs];
            split; [apply shown_only_log; [reflexivity|exact Ho] | exact Hs]
          | intros _ ]).
    (* reset_session_states *)
    apply (triple_skip env _
             (fun w1 => shown_only w w1
                        /\ forall key,
                             w_session w1 !! key
                             = match w_session w !! key with
                               | Some v => Some v
                               | None => dict_get session_state_defaults key
                               end)).
    { intros w1 [Ho Hs].
      exists (set_session (fill_defaults session_state_defaults) w1), (inr tt).
      split; [unfold reset_session_states; apply run_fill_defaults|].
      split; [|eauto]. split; [exact Ho|].
      intros key'. cbn [set_session w_session]. rewrite fill_defaults_lookup, Hs.
      reflexivity. }
    intros _.
    (* the uploader *)
    eapply (triple_step env _ _ _ (Some up)).
    { apply triple_perform. intros w1 Hw1. cbn [step fst snd].
      split; [exact Hw1 | rewrite Hupload; reflexivity]. }
    (* the upload is looked at *)
    intros w1 [Ho Hs].
    pose proof (form_state_after_upload up image w w1 Ho Hs title) as Hform.
    eapply run_then.
    { etransitivity;
        [apply (run_pbind_ok env _ _ _ _ _
                  (run_check_upload_accepted env splitext up image w1 Hsize Him))|].
      unfold ss_get at 1.
      etransitivity; [apply run_pbind_ok, run_perform|]. cbn [step fst snd].
      cbn [log set_session w_session].
      rewrite lookup_insert_ne by discriminate.
      rewrite lookup_insert_ne by discriminate.
      rewrite lookup_insert_eq, default_Some.
      etransitivity; [apply run_pbind_ok, run_perform|]. cbn [step fst snd]. fold title.
      unfold ss_setitem at 1.
      etransitivity; [apply run_pbind_ok, run_perform|]. cbn [step fst snd].
      unfold ss_get at 1.
      etransitivity; [apply run_pbind_ok, run_perform|]. cbn [step fst snd].
      cbn [log set_session w_session]. rewrite lookup_insert_eq, default_Some.
      cbv zeta. fold video_path. reflexivity. }
    match goal with
    | |- exists w'' r, run env ?T ?W ≳ Ret (w'', r) /\ Post w'' r =>
        change (form_state env (session_at_form w image) w title 0 W) in Hform;
        revert Hform; generalize W; clear w1 Ho Hs;
        change (triple env (form_state env (session_at_form w image) w title 0) T Post)
    end.
    apply (triple_skip env _ _ _ _ _
             (triple_number_field env (session_at_form w image) w title 0 _ _ _ eq_refl eq_refl)). intros _.
    apply (triple_skip env _ _ _ _ _
             (triple_number_field env (session_at_form w image) w title 1 _ _ _ eq_refl eq_refl)). intros _.
    apply (triple_skip env _ _ _ _ _
             (triple_number_field env (session_at_form w image) w title 2 _ _ _ eq_refl eq_refl)). intros _.
    apply (triple_skip env _ _ _ _ _
             (triple_number_field env (session_at_form w image) w title 3 _ _ _ eq_refl eq_refl)). intros _.
    apply (triple_skip env _ _ _ _ _
             (triple_number_field env (session_at_form w image) w title 4 _ _ _ eq_refl eq_refl)). intros _.
    apply (triple_skip env _ _ _ _ _
             (triple_number_field env (session_at_form w image) w title 5 _ _ _ eq_refl eq_refl)). intros _.
    apply (triple_skip env _ _ _ _ _
             (triple_number_field env (session_at_form w image) w title 6 _ _ _ eq_refl eq_refl)). intros _.
    apply (triple_skip env _ _ _ _ _
             (triple_number_field env (session_at_form w image) w title 7 _ _ _ eq_refl eq_refl)). intros _.
    apply (triple_skip env _ _ _ _ _
             (triple_number_field env (session_at_form w image) w title 8 _ _ _ eq_refl eq_refl)). intros _.
    apply (triple_skip env _ _ _ _ _
             (triple_number_field env (session_at_form w image) w title 9 _ _ _ eq_refl eq_refl)). intros _.
    apply (triple_skip env _ _ _ _ _
             (triple_number_field env (session_at_form w image) w title 10 _ _ _ eq_refl eq_refl)). intros _.
    eapply (triple_step env _ _ _ true).
    { apply triple_perform. intros w1 Hw1. cbn [step fst snd].
      split; [exact Hw1 | rewrite Hbutton; reflexivity]. }
    intros w1 ((Hfs1 & Hgets1 & Hdls1 & Hnet1) & Htitle1 & Hkeys1).
    assert (forall key', In key' request_keys -> w_session w1 !! key' = Some (value key'))
      as Hvalues.
    { intros key' Hin. apply list_elem_of_In, list_elem_of_lookup in Hin as [i Hi].
      rewrite (Hkeys1 i key' Hi).
      pose proof (lookup_lt_Some _ _ _ Hi) as Hlt. cbn in Hlt.
      rewrite (proj2 (Nat.ltb_lt i 11)) by exact Hlt. reflexivity. }
    destruct (run_create_video_job env urlparse json_load float_repr decodebytes
                (Some up) jpeg value video_path location k response w1)
      as (w2 & Hrun2 & Hlog2 & Hfs2 & Hss2).
    { cbn. rewrite Him. exact Hjpeg. }
    { exact Hvalues. }
    { exact Hsub. }
    { intros i Hi. rewrite Hgets1. apply Hnf, Hi. }
    { rewrite Hgets1. exact Hok. }
    { rewrite Hdls1. exact Hdl. }
    destruct (run_assemble_video_ok env json_load decodebytes video_path response data
                items datas (value "fps") video w2)
      as (w3 & Hrun3 & Hfs3 & Hss3 & _ & _ & inputs & Hlog3).
    { rewrite Hfs2. apply lookup_insert_eq. }
    { exact Hjson. }
    { exact Hframes. }
    { exact Hdec. }
    { exact Hne. }
    { rewrite Hss2. apply Hvalues. unfold request_keys. cbn. tauto. }
    { intros inputs' Hin. apply Henc, Hin. }
    destruct (run_play_video_present env video_path video w3)
      as (w4 & Hrun4 & Hss4 & Hfs4 & Hlog4).
    { rewrite Hfs3. apply lookup_insert_eq. }
    exists w4, (inr tt). split.
    { rewrite run_pbind_ok.
      2:{ rewrite Hrun2. exact Hrun3. }
      exact Hrun4. }
    split; [reflexivity|]. split; [|split; [|split; [|split]]].
    - rewrite Hlog4, Hlog3, Hlog2, !List.filter_app, Hnet1, filter_waiting_log.
      fold bucket key body.
      assert (List.filter is_network_call
                (if ui_button env "Play Video" then [AShow "video" ""] else []) = []) as ->.
      { destruct (ui_button env "Play Video"); reflexivity. }
      cbn [List.filter is_network_call app]. rewrite app_nil_r.
      rewrite <- !app_assoc. cbn [app repeat].
      f_equal. f_equal. f_equal. rewrite app_nil_r.
      change (AGetObject bucket key :: repeat (AGetObject bucket key) k
              ++ [ADownload bucket key RESPONSE_PAYLOAD])
        with ((AGetObject bucket key :: repeat (AGetObject bucket key) k)
              ++ [ADownload bucket key RESPONSE_PAYLOAD]).
      rewrite repeat_cons, <- app_assoc. reflexivity.
    - rewrite Hlog4, Hlog3. apply in_or_app. left. apply in_or_app. right. right. left.
      reflexivity.
    - rewrite Hfs4, Hfs3. apply lookup_insert_eq.
    - intros i d Hi. rewrite Hfs4, Hfs3.
      rewrite lookup_insert_ne.
      2:{ intros Heq. symmetry in Heq. revert Heq. apply frame_name_not_video. }
      apply (frames_written_lookup datas 0 (w_fs w2) i d Hi).
      intros j Hj Heq. apply frame_name_inj in Heq. lia.
    - rewrite Hss4, lookup_insert_ne by discriminate. rewrite Hss3, Hss2. exact Htitle1. }
  destruct (Ht w) as (w' & r & Hrun & -> & Hrest); [split; [apply shown_only_refl|reflexivity]|].
  exists w'. split; [apply euttge_sub_eutt, Hrun | exact Hrest].
Qed.


End WholeRun.

(** ** The request of a run of main *)

Section Reaching.
Variable env : Env.






End Reaching.

Section Submission.
Variable env : Env.
Variable urlparse : string -> ParseResult.
Variable splitext : string -> string * string.
Variable json_load : list byte -> result pyval.
Variable float_repr : float -> string.
Variable decodebytes : list byte -> result (list byte).




End Submission.


(** ** The statements above at concrete inputs *)

Lemma play_video_always_offered_witness :
  exists w',
    run env_play_refused (play_video "video_out/cat.mp4") empty_world
    ≈ Ret (w', inl (OtherError "OSError"))
    /\ w_session w' !! "play_video_disabled" = Some (PyBool false)
    /\ w_fs w' = w_fs empty_world
    /\ w_log w' = [].
Proof.
  destruct (play_video_always_offered env_play_refused "video_out/cat.mp4" empty_world)
    as (w' & r & Hrun & Hss & Hfs & Hout).
  change (r = inl (OtherError "OSError") /\ w_log w' = w_log empty_world) in Hout.
  destruct Hout as [-> Hlog]. exists w'.
  split; [exact Hrun|]. split; [rewrite Hss; apply lookup_insert_eq|].
  split; [exact Hfs | exact Hlog].
Defined.

Lemma invoke_model_unusable_image_witness :
  run quiet_env (invoke_model PyModel.float_repr None) empty_world
  ≈ Ret (empty_world, inl (OtherError "AttributeError")).
Proof.
  apply (invoke_model_unusable_image quiet_env PyModel.float_repr None
           (OtherError "AttributeError") empty_world).
  reflexivity.
Defined.

Lemma invoke_model_missing_key_witness :
  run quiet_env (invoke_model PyModel.float_repr (Some (sample_upload 1000))) empty_world
  ≈ Ret (empty_world, inl (KeyError "width")).
Proof.
  apply (invoke_model_missing_key quiet_env PyModel.float_repr (Some (sample_upload 1000))
           (list_byte_of_string "JPG") "width" empty_world).
  - reflexivity.
  - vm_compute. reflexivity.
Defined.

Lemma default_values_held (k : string) :
  In k request_keys -> w_session world_with_leftover !! k = Some (default_values k).
Proof.
  intros Hin. unfold request_keys in Hin. cbn [In] in Hin.
  repeat (destruct Hin as [<-|Hin]; [vm_compute; reflexivity|]). contradiction.
Defined.

Lemma invoke_model_uploads_then_invokes_witness :
  exists w',
    run quiet_env (invoke_model PyModel.float_repr (Some (sample_upload 1000)))
      world_with_leftover
    ≈ Ret (w', inr "s3://bucket/async_inference/output/result.out")
    /\ w_log w'
       = [AUpload REQUEST_PAYLOAD S3_BUCKET "async_inference/input/payload.json"
            "application/json" (sample_request 1024 576 1.0 3.0);
          AInvoke ENDPOINT_NAME
            "s3://<YOUR_S3_BUCKET_NAME>/async_inference/input/payload.json" 3600].
Proof.
  destruct (invoke_model_uploads_then_invokes quiet_env PyModel.float_repr
              (Some (sample_upload 1000)) (list_byte_of_string "JPG") default_values
              world_with_leftover eq_refl default_values_held)
    as (w' & Hrun & _ & _ & Hlog).
  exists w'. split; [exact Hrun | exact Hlog].
Defined.


Lemma get_model_response_download_error_witness :
  exists w',
    run env_download_denied (get_model_response PyModel.urlparse result_location) empty_world
    ≈ Ret (w', inl (ClientError "AccessDenied"))
    /\ w_log w'
       = [AGetObject "bucket" result_key; ADownload "bucket" result_key RESPONSE_PAYLOAD].
Proof.
  destruct (get_model_response_download_error env_download_denied PyModel.urlparse
              result_location (ClientError "AccessDenied") empty_world
              eq_refl eq_refl eq_refl)
    as (w' & Hrun & Hlog & _).
  exists w'. split; [exact Hrun | exact Hlog].
Defined.

Lemma main_without_create_video_is_local_witness :
  exists w' r,
    run quiet_env main_model empty_world ≈ Ret (w', r)
    /\ w_fs w' = w_fs empty_world
    /\ List.filter is_network_call (w_log w') = List.filter is_network_call (w_log empty_world).
Proof.
  apply (main_without_create_video_is_local quiet_env PyModel.urlparse PyModel.splitext
           PyModel.json_load PyModel.float_repr Base64.a2b_base64 empty_world).
  reflexivity.
Defined.

Lemma main_create_video_without_image_witness :
  exists w',
    run env_create_without_upload main_model empty_world
    ≈ Ret (w', inl (OtherError "AttributeError"))
    /\ w_fs w' = w_fs empty_world
    /\ List.filter is_network_call (w_log w') = List.filter is_network_call (w_log empty_world).
Proof.
  apply (main_create_video_without_image env_create_without_upload PyModel.urlparse
           PyModel.splitext PyModel.json_load PyModel.float_repr Base64.a2b_base64
           (OtherError "AttributeError") empty_world).
  - reflexivity.
  - reflexivity.
Defined.

Lemma check_upload_accepts_up_to_limit_witness :
  exists w',
    run quiet_env (check_upload PyModel.splitext (Some (sample_upload MAX_FILE_SIZE)))
      empty_world ≈ Ret (w', inr tt)
    /\ w_session w'
       = <["height" := PyInt 512]>
           (<["width" := PyInt 512]> (<["movie_title" := PyStr "cat"]> ∅)).
Proof.
  destruct (check_upload_accepts_up_to_limit quiet_env PyModel.splitext
              (sample_upload MAX_FILE_SIZE) sample_image empty_world)
    as (w' & Hrun & Hss & _).
  - vm_compute. discriminate.
  - reflexivity.
  - exists w'. split; [exact Hrun | exact Hss].
Defined.

Lemma save_video_frames_one_file_per_frame_witness :
  exists w',
    run quiet_env (save_video_frames Base64.a2b_base64 (PyList [PyStr "QUJD"; PyStr "QUI="]))
      empty_world ≈ Ret (w', inr tt)
    /\ (forall i d,
          [list_byte_of_string "ABC"; list_byte_of_string "AB"] !! i = Some d ->
          w_fs w' !! frame_name i = Some d).
Proof.
  destruct (save_video_frames_one_file_per_frame quiet_env Base64.a2b_base64
              [PyStr "QUJD"; PyStr "QUI="]
              [list_byte_of_string "ABC"; list_byte_of_string "AB"] empty_world)
    as (w' & Hrun & Hfiles & _).
  - repeat constructor.
  - exists w'. split; [exact Hrun | exact Hfiles].
Defined.

Lemma convert_frames_to_video_sorted_input_witness :
  exists w' r inputs,
    run quiet_env (convert_frames_to_video "video_out/demo.mp4") world_with_leftover
    ≈ Ret (w', r)
    /\ w_log w' = [AFFmpeg inputs (PyInt 6) "video_out/demo.mp4" output_options]
    /\ sorted_names (List.map fst inputs) = true.
Proof.
  destruct (convert_frames_to_video_sorted_input quiet_env "video_out/demo.mp4" (PyInt 6)
              world_with_leftover)
    as (w' & r & inputs & Hrun & Hlog & Hsorted & _).
  - vm_compute. reflexivity.
  - exists w', r, inputs. split; [exact Hrun|]. split; [exact Hlog | exact Hsorted].
Defined.

Lemma written_frames_reach_encoder_witness :
  exists w' r inputs,
    run quiet_env
      (pbind (save_video_frames Base64.a2b_base64 (PyList [PyStr "QUJD"; PyStr "QUI="]))
         (fun _ => convert_frames_to_video "video_out/demo.mp4"))
      world_with_leftover ≈ Ret (w', r)
    /\ w_log w' = [AFFmpeg inputs (PyInt 6) "video_out/demo.mp4" output_options]
    /\ (forall i d,
          [list_byte_of_string "ABC"; list_byte_of_string "AB"] !! i = Some d ->
          In (frame_name i, d) inputs).
Proof.
  destruct (written_frames_reach_encoder quiet_env Base64.a2b_base64
              [PyStr "QUJD"; PyStr "QUI="]
              [list_byte_of_string "ABC"; list_byte_of_string "AB"]
              "video_out/demo.mp4" (PyInt 6) world_with_leftover)
    as (w' & r & inputs & Hrun & Hlog & Hin & _).
  - repeat constructor.
  - vm_compute. reflexivity.
  - exists w', r, inputs. split; [exact Hrun|]. split; [exact Hlog | exact Hin].
Defined.

Lemma create_video_job_stops_on_failed_submission_witness :
  exists w',
    run env_upload_denied
      (create_video_job PyModel.urlparse PyModel.json_load PyModel.float_repr
         Base64.a2b_base64 (Some (sample_upload 1000)) "video_out/demo.mp4")
      world_with_leftover
    ≈ Ret (w', inl (ClientError "AccessDenied"))
    /\ w_gets w' = 0 /\ w_downloads w' = 0.
Proof.
  destruct (create_video_job_stops_on_failed_submission env_upload_denied PyModel.urlparse
              PyModel.json_load PyModel.float_repr Base64.a2b_base64
              (Some (sample_upload 1000)) (list_byte_of_string "JPG") default_values
              "video_out/demo.mp4" (ClientError "AccessDenied") world_with_leftover
              eq_refl default_values_held eq_refl)
    as (w' & body & Hrun & _ & Hgets & Hdl & _).
  exists w'. split; [exact Hrun|]. split; [exact Hgets | exact Hdl].
Defined.

Lemma create_video_job_fetches_returned_location_witness :
  exists w',
    run (env_found_at_third (response_bytes response_two_frames))
      (create_video_job PyModel.urlparse PyModel.json_load PyModel.float_repr
         Base64.a2b_base64 (Some (sample_upload 1000)) "video_out/demo.mp4")
      world_with_leftover
    ≈ run (env_found_at_third (response_bytes response_two_frames))
        (assemble_video PyModel.json_load Base64.a2b_base64 "video_out/demo.mp4") w'
    /\ w_fs w' !! RESPONSE_PAYLOAD = Some (response_bytes response_two_frames).
Proof.
  destruct (create_video_job_fetches_returned_location
              (env_found_at_third (response_bytes response_two_frames)) PyModel.urlparse
              PyModel.json_load PyModel.float_repr Base64.a2b_base64
              (Some (sample_upload 1000)) (list_byte_of_string "JPG") default_values
              "video_out/demo.mp4" result_location 2
              (response_bytes response_two_frames) world_with_leftover
              eq_refl default_values_held eq_refl)
    as (w' & body & Hrun & _ & Hfs & _).
  - intros i Hi. destruct i as [|[|i]]; [reflexivity | reflexivity | lia].
  - reflexivity.
  - reflexivity.
  - exists w'. split; [exact Hrun|]. rewrite Hfs. apply lookup_insert_eq.
Defined.

Lemma main_creates_video_witness :
  exists w',
    run (env_create (sample_upload 1000) untouched_form) main_model empty_world
    ≈ Ret (w', inr tt)
    /\ w_fs w' !! "video_out/cat.mp4" = Some (list_byte_of_string "MP4")
    /\ w_session w' !! "movie_title" = Some (PyStr "cat").
Proof.
  destruct (main_creates_video (env_create (sample_upload 1000) untouched_form)
              PyModel.urlparse PyModel.splitext PyModel.json_load PyModel.float_repr
              Base64.a2b_base64 (sample_upload 1000) sample_image
              (list_byte_of_string "JPG") result_location 0
              (response_bytes response_two_frames) response_two_frames
              [PyStr "QUJD"; PyStr "QUI="]
              [list_byte_of_string "ABC"; list_byte_of_string "AB"]
              (list_byte_of_string "MP4") empty_world)
    as (w' & Hrun & _ & _ & Hfs & _ & Htitle).
  - reflexivity.
  - vm_compute. discriminate.
  - reflexivity.
  - reflexivity.
  - reflexivity.
  - reflexivity.
  - intros i Hi. lia.
  - reflexivity.
  - reflexivity.
  - vm_compute. reflexivity.
  - reflexivity.
  - repeat constructor.
  - discriminate.
  - reflexivity.
  - exists w'. split; [exact Hrun|]. split; [exact Hfs | exact Htitle].
Defined.
